(** * ui_maddness: the runtime component pipeline

    A shallow embedding of the validator ([CodeValidator]), the runtime
    compiler ([RuntimeJSXCompiler]), the panel registry
    ([EnhancedPanelRegistry]), the hot-replacement manager
    ([DynamicHMRManager]), the model client ([OllamaClient]) and the
    generation orchestrator ([AIComponentGenerator]).

    JavaScript strings are sequences of UTF-16 code units; a code unit is a
    number [N].  The regular expressions of the source are embedded as
    syntax trees and run by a backtracking matcher that follows the
    continuation semantics of ECMA-262 (leftmost match, greedy and lazy
    quantifiers, [lastIndex] of global expressions).  Mutable objects are
    threaded through the calls: a method takes the object and returns it.
    What the host provides is a parameter: [Babel.transform], the dynamic
    [import()], the readings of [Date.now()], the answer of the model
    service, [toLowerCase], and the wording of the engine's SyntaxError.
    Thrown values are results of type [exn + _];
    an [async] method is cut at its [await]s where calls can overlap. *)

From Stdlib Require Import ZArith NArith List Bool Lia String Ascii.
From stdpp Require Import base option list gmap.
Import ListNotations.

Local Open Scope N_scope.

(** ** Strings *)

Module JS.

(** A JavaScript string: its UTF-16 code units. *)
Abbreviation jsstring := (list N).

(** A string literal of the source text. *)
Definition js (s : string) : jsstring :=
  List.map N_of_ascii (list_ascii_of_string s).

(** The double quote, which [js] literals cannot hold. *)
Definition dq : jsstring := [34].

(** A literal in which [~] stands for the double quote. *)
Definition jsq (s : string) : jsstring :=
  List.map (fun c => if c =? 126 then 34 else c) (js s).

Definition nl : jsstring := [10].

(** [a === b] on strings. *)
Fixpoint eqs (a b : jsstring) : bool :=
  match a, b with
  | [], [] => true
  | x :: a', y :: b' => (x =? y) && eqs a' b'
  | _, _ => false
  end.

(** [String.prototype.startsWith] (from position 0). *)
Fixpoint startsWith (p s : jsstring) : bool :=
  match p, s with
  | [], _ => true
  | _ :: _, [] => false
  | a :: p', b :: s' => (a =? b) && startsWith p' s'
  end.

(** [String.prototype.includes]. *)
Fixpoint includes (s p : jsstring) : bool :=
  startsWith p s ||
  match s with
  | [] => false
  | _ :: s' => includes s' p
  end.

(** WhiteSpace and LineTerminator code points: what [trim] strips and what
    [\s] matches. *)
Definition isSpace (c : N) : bool :=
  ((9 <=? c) && (c <=? 13)) || (c =? 32) || (c =? 160) || (c =? 5760)
  || ((8192 <=? c) && (c <=? 8202)) || (c =? 8232) || (c =? 8233)
  || (c =? 8239) || (c =? 8287) || (c =? 12288) || (c =? 65279).

(** LineTerminator: what [.] does not match and where [$] (flag m) holds. *)
Definition isLineTerminator (c : N) : bool :=
  (c =? 10) || (c =? 13) || (c =? 8232) || (c =? 8233).

Definition isUpper (c : N) : bool := (65 <=? c) && (c <=? 90).
Definition isLower (c : N) : bool := (97 <=? c) && (c <=? 122).
Definition isDigit (c : N) : bool := (48 <=? c) && (c <=? 57).

(** [\w]: ASCII letters, digits and the underscore. *)
Definition isWord (c : N) : bool :=
  isUpper c || isLower c || isDigit c || (c =? 95).

Fixpoint trimStart (s : jsstring) : jsstring :=
  match s with
  | c :: s' => if isSpace c then trimStart s' else s
  | [] => []
  end.

Definition trimEnd (s : jsstring) : jsstring := rev (trimStart (rev s)).

(** [String.prototype.trim]. *)
Definition trim (s : jsstring) : jsstring := trimEnd (trimStart s).

(** [s.split(sep)] for a one-unit separator: never empty. *)
Fixpoint split (sep : N) (s : jsstring) : list jsstring :=
  match s with
  | [] => [[]]
  | c :: s' =>
      if c =? sep then [] :: split sep s'
      else match split sep s' with
           | l :: ls => (c :: l) :: ls
           | [] => [[c]]
           end
  end.

(** [s.substring(i, j)]. *)
Definition substring (s : jsstring) (i j : nat) : jsstring :=
  firstn (j - i) (skipn i s).

(** The number of code units, as a number. *)
Definition len (s : jsstring) : Z := Z.of_nat (length s).

(** [Array.prototype.join]. *)
Fixpoint join (sep : jsstring) (l : list jsstring) : jsstring :=
  match l with
  | [] => []
  | [a] => a
  | a :: l' => a ++ sep ++ join sep l'
  end.

(** Thrown values: an error object, its name and its message. *)
Record exn : Type := Exn { name : jsstring; message : jsstring }.

(** [new Error(m)] and the SyntaxError of the engine. *)
Definition Error (m : jsstring) : exn := Exn (js "Error") m.
Definition SyntaxError (m : jsstring) : exn := Exn (js "SyntaxError") m.

(** [`${error}`]: [Error.prototype.toString]. *)
Definition exnToString (e : exn) : jsstring :=
  if eqs (name e) [] then message e
  else if eqs (message e) [] then name e
  else name e ++ js ": " ++ message e.

(** The digit of value [d] in [Number.prototype.toString]. *)
Definition digitChar (d : N) : N := if d <? 10 then 48 + d else 87 + d.

Fixpoint digitsOf (fuel : nat) (radix n : N) (acc : jsstring) : jsstring :=
  match fuel with
  | O => acc
  | S fuel' =>
      let acc := digitChar (n mod radix) :: acc in
      if n / radix =? 0 then acc else digitsOf fuel' radix (n / radix) acc
  end.

(** [n.toString(radix)] for an integer [n]; a number of [k] bits has at
    most [k] digits. *)
Definition numberToString (radix : N) (n : Z) : jsstring :=
  let digits := digitsOf (S (N.size_nat (Z.abs_N n))) radix (Z.abs_N n) [] in
  if (n <? 0)%Z then js "-" ++ digits else digits.

End JS.
Import JS.

(** ** Regular expressions *)

Module RegExp.

(** The syntax of the patterns the source uses.  A character class is its
    membership test; flag [i] is folded into the classes of the letters. *)
Inductive regex : Type :=
  | Empty
  | Chr (p : N -> bool)
  | Seq (r1 r2 : regex)
  | Alt (r1 r2 : regex)
  | Star (greedy : bool) (r : regex)
  | Group (n : nat) (r : regex)
  | WordB
  | Bol (multiline : bool)
  | Eol (multiline : bool).

(** Where the matcher stands: the index, the unit before it, the units
    from it on. *)
Record cursor : Type := Cursor { pos : nat; prev : option N; rest : jsstring }.

(** Captures: group number, start and end index; the newest first. *)
Abbreviation caps := (list (nat * (nat * nat))).

Definition isWordAt (c : option N) : bool :=
  match c with Some c => isWord c | None => false end.

Definition isLineStart (m : bool) (x : cursor) : bool :=
  match prev x with
  | None => true
  | Some c => m && isLineTerminator c
  end.

Definition isLineEnd (m : bool) (x : cursor) : bool :=
  match rest x with
  | [] => true
  | c :: _ => m && isLineTerminator c
  end.

(** What a matcher returns: the index where the whole match ends, and the
    captures. *)
Abbreviation outcome := (option (nat * caps)).

(** The loop of a star (RepeatMatcher with min 0 and no max) over the
    matcher [rm] of its body.  A greedy star tries one more iteration
    before it goes on with [k]; a lazy one tries [k] first.  An iteration
    that consumes nothing is refused, so a star makes at most as many
    iterations as there are units left: that many is the fuel [rmatch]
    gives the loop. *)
Fixpoint starLoop (rm : (cursor -> caps -> outcome) -> cursor -> caps -> outcome)
    (greedy : bool) (k : cursor -> caps -> outcome) (fuel : nat)
    (x : cursor) (c : caps) : outcome :=
  match fuel with
  | O => k x c
  | S fuel' =>
      let again :=
        rm (fun y c' => if Nat.eqb (pos y) (pos x) then None
                        else starLoop rm greedy k fuel' y c') in
      if greedy then
        match again x c with
        | Some y => Some y
        | None => k x c
        end
      else
        match k x c with
        | Some y => Some y
        | None => again x c
        end
  end.

(** The matcher of ECMA-262 22.2.2: [rmatch r k x c] runs [r] at [x] and
    hands each way of matching it to the continuation [k], in priority
    order; the first that [k] accepts wins. *)
Fixpoint rmatch (r : regex) (k : cursor -> caps -> outcome)
    (x : cursor) (c : caps) : outcome :=
  match r with
  | Empty => k x c
  | Chr p =>
      match rest x with
      | ch :: tl => if p ch then k (Cursor (S (pos x)) (Some ch) tl) c else None
      | [] => None
      end
  | Seq r1 r2 => rmatch r1 (rmatch r2 k) x c
  | Alt r1 r2 =>
      match rmatch r1 k x c with
      | Some y => Some y
      | None => rmatch r2 k x c
      end
  | Star greedy r1 => starLoop (rmatch r1) greedy k (length (rest x)) x c
  | Group n r1 => rmatch r1 (fun y c' => k y ((n, (pos x, pos y)) :: c')) x c
  | WordB => if xorb (isWordAt (prev x)) (isWordAt (head (rest x))) then k x c else None
  | Bol m => if isLineStart m x then k x c else None
  | Eol m => if isLineEnd m x then k x c else None
  end.

(** A match: where it starts, where it ends, what the groups captured. *)
Record matched : Type := Matched { mstart : nat; mend : nat; mcaps : caps }.

Definition matchAt (r : regex) (x : cursor) : option matched :=
  match rmatch r (fun y c => Some (pos y, c)) x [] with
  | Some (e, c) => Some (Matched (pos x) e c)
  | None => None
  end.

(** The leftmost match that starts at [x] or later. *)
Fixpoint searchFrom (r : regex) (i : nat) (pv : option N) (l : jsstring) : option matched :=
  match matchAt r (Cursor i pv l) with
  | Some m => Some m
  | None =>
      match l with
      | [] => None
      | ch :: tl => searchFrom r (S i) (Some ch) tl
      end
  end.

(** The cursor at index [i] of [s] ([i <= length s]). *)
Definition cursorAt (s : jsstring) (i : nat) : cursor :=
  Cursor i (match i with O => None | S j => nth_error s j end) (skipn i s).

Definition search (r : regex) (s : jsstring) (i : nat) : option matched :=
  let x := cursorAt s i in searchFrom r (pos x) (prev x) (rest x).

(** What group [n] captured, if it took part in the match. *)
Definition capture (s : jsstring) (m : matched) (n : nat) : option jsstring :=
  match List.find (fun e => Nat.eqb (fst e) n) (mcaps m) with
  | Some (_, (i, j)) => Some (substring s i j)
  | None => None
  end.

(** A RegExp object: its pattern text, its compiled pattern, flag g and the
    mutable [lastIndex]. *)
Record t : Type := RegExp {
  source : jsstring;
  pattern : regex;
  global : bool;
  lastIndex : nat
}.

Definition setLastIndex (re : t) (i : nat) : t :=
  RegExp (source re) (pattern re) (global re) i.

(** [RegExp.prototype.exec] (RegExpBuiltinExec): a global expression
    searches from [lastIndex] and leaves [lastIndex] at the end of the
    match, or at 0 when there is none; without flag g the search starts
    at 0 and [lastIndex] is not written. *)
Definition exec (re : t) (s : jsstring) : option matched * t :=
  if global re then
    if Nat.ltb (length s) (lastIndex re) then (None, setLastIndex re 0)
    else match search (pattern re) s (lastIndex re) with
         | Some m => (Some m, setLastIndex re (mend m))
         | None => (None, setLastIndex re 0)
         end
  else (search (pattern re) s 0, re).

(** [RegExp.prototype.test]. *)
Definition test (re : t) (s : jsstring) : bool * t :=
  let '(m, re') := exec re s in (bool_decide (is_Some m), re').

(** [pattern.test(s)] on a RegExp literal evaluated for this one use. *)
Definition testLit (r : regex) (s : jsstring) : bool :=
  bool_decide (is_Some (search r s 0)).

(** [s.match(r)] without flag g. *)
Definition matchLit (r : regex) (s : jsstring) : option matched := search r s 0.

(** All matches of a global expression, as [s.match(/.../g)] and
    [s.matchAll] enumerate them: after an empty match the search resumes
    one unit further. *)
Fixpoint matchAllFrom (fuel : nat) (r : regex) (s : jsstring) (i : nat) : list matched :=
  match fuel with
  | O => []
  | S fuel' =>
      if Nat.ltb (length s) i then []
      else match search r s i with
           | None => []
           | Some m =>
               m :: matchAllFrom fuel' r s
                      (if Nat.eqb (mend m) (mstart m) then S (mend m) else mend m)
           end
  end.

Definition matchAll (r : regex) (s : jsstring) : list matched :=
  matchAllFrom (S (S (length s))) r s 0.

(** *** Pattern combinators, named after the pattern text they stand for *)

Definition chr (c : N) : regex := Chr (N.eqb c).

(** A letter under flag [i]: either case; other units match themselves
    (Canonicalize never maps a unit outside ASCII onto an ASCII one). *)
Definition chri (c : N) : regex :=
  if isLower c then Chr (fun d => (d =? c) || (d =? c - 32))
  else if isUpper c then Chr (fun d => (d =? c) || (d =? c + 32))
  else chr c.

Fixpoint seqs (l : list regex) : regex :=
  match l with
  | [] => Empty
  | [r] => r
  | r :: l' => Seq r (seqs l')
  end.

(** Literal text. *)
Definition lit (s : string) : regex := seqs (List.map chr (js s)).
(** Literal text under flag [i]. *)
Definition liti (s : string) : regex := seqs (List.map chri (js s)).

Definition star (r : regex) : regex := Star true r.
Definition lazy (r : regex) : regex := Star false r.
Definition plus (r : regex) : regex := Seq r (Star true r).
Definition opt (r : regex) : regex := Alt r Empty.

Definition s_ : regex := Chr isSpace.                       (* \s *)
Definition w_ : regex := Chr isWord.                        (* \w *)
Definition any_ : regex := Chr (fun _ => true).             (* [\s\S] *)
Definition dot_ : regex := Chr (fun c => negb (isLineTerminator c)). (* . *)
Definition upper_ : regex := Chr isUpper.                   (* [A-Z] *)
Definition alnum_ : regex := Chr (fun c => isUpper c || isLower c || isDigit c). (* [a-zA-Z0-9] *)
Definition notc (c : N) : regex := Chr (fun d => negb (d =? c)).  (* [^c] *)
(** A single or a double quote, and any unit but these. *)
Definition quote_ : regex := Chr (fun d => (d =? 39) || (d =? 34)).
Definition notquote_ : regex := Chr (fun d => negb ((d =? 39) || (d =? 34))).

End RegExp.
Import RegExp.

(** ** The validator: [CodeValidator] *)

Module CodeValidator.

(** [SecurityValidationResult]. *)
Record SecurityValidationResult : Type := Result {
  isValid : bool;
  errors : list jsstring;
  warnings : list jsstring;
  sanitizedCode : option jsstring
}.

(** The validator object.  Its patterns are RegExp objects: those of
    [forbiddenPatterns] carry flag g, hence a [lastIndex] that outlives
    the call that moved it. *)
Record t : Type := Validator {
  allowedImports : list jsstring;
  forbiddenPatterns : list RegExp.t;
  requiredPatterns : list RegExp.t
}.

(** A literal [/src/gi] of the constructor. *)
Definition gi (src : string) (r : regex) : RegExp.t := RegExp (js src) r true 0.
(** A literal [/src/] of the constructor. *)
Definition plain (src : string) (r : regex) : RegExp.t := RegExp (js src) r false 0.

(** [<tag[\s\S]*?>] under flag i. *)
Definition tagi (tag : string) : regex := seqs [liti tag; lazy any_; lit ">"].
(** [name\s*\(] under flag i. *)
Definition calli (name : string) : regex := seqs [liti name; star s_; lit "("].

(** [new CodeValidator()]. *)
Definition new : t := {|
  allowedImports :=
    [js "react"; js "react-dom"; js "react/jsx-runtime"; js "react-error-boundary"];
  forbiddenPatterns := [
    gi "eval\s*\(" (calli "eval");
    gi "Function\s*\(" (calli "Function");
    gi "document\.write" (liti "document.write");
    gi "innerHTML\s*=" (seqs [liti "innerHTML"; star s_; lit "="]);
    gi "outerHTML\s*=" (seqs [liti "outerHTML"; star s_; lit "="]);
    gi "window\.parent" (liti "window.parent");
    gi "window\.top" (liti "window.top");
    gi "window\.frames" (liti "window.frames");
    gi "parent\." (liti "parent.");
    gi "top\." (liti "top.");
    gi "\.contentWindow" (liti ".contentWindow");
    gi "postMessage" (liti "postMessage");
    gi "fetch\s*\(" (calli "fetch");
    gi "XMLHttpRequest" (liti "XMLHttpRequest");
    gi "localStorage" (liti "localStorage");
    gi "sessionStorage" (liti "sessionStorage");
    gi "document\.cookie" (liti "document.cookie");
    gi "<script[\s\S]*?>" (tagi "<script");
    gi "<iframe[\s\S]*?>" (tagi "<iframe");
    gi "<object[\s\S]*?>" (tagi "<object");
    gi "<embed[\s\S]*?>" (tagi "<embed");
    gi "<link[\s\S]*?>" (tagi "<link");
    gi "<meta[\s\S]*?>" (tagi "<meta");
    gi "javascript:" (liti "javascript:");
    gi "data:text\/html" (liti "data:text/html");
    gi "vbscript:" (liti "vbscript:");
    gi "on\w+\s*=" (seqs [liti "on"; plus w_; star s_; lit "="]);
    gi "setInterval" (liti "setInterval");
    gi "setTimeout.*eval" (seqs [liti "setTimeout"; star dot_; liti "eval"]);
    gi "new\s+Function" (seqs [liti "new"; plus s_; liti "Function"]);
    gi "import\s*\(" (calli "import");
    gi "require\s*\(" (calli "require");
    gi "global\." (liti "global.");
    gi "process\." (liti "process.");
    gi "Buffer\." (liti "Buffer.");
    gi "__dirname" (liti "__dirname");
    gi "__filename" (liti "__filename")
  ];
  requiredPatterns := [
    plain "import\s+React" (seqs [lit "import"; plus s_; lit "React"]);
    plain "export\s+default" (seqs [lit "export"; plus s_; lit "default"])
  ]
|}.

(** The number of matches of a one-character global pattern. *)
Definition countMatches (r : regex) (s : jsstring) : Z :=
  Z.of_nat (length (matchAll r s)).

(** The loop over the required patterns; they carry no flag g, so [test]
    leaves them as they are. *)
Fixpoint checkRequired (pats : list RegExp.t) (code : jsstring)
    (errors : list jsstring) : list jsstring :=
  match pats with
  | [] => errors
  | p :: pats' =>
      let errors :=
        if negb (fst (test p code))
        then errors ++ [js "Missing required pattern: " ++ source p]
        else errors in
      checkRequired pats' code errors
  end.

(** The loop over the characters that counts parentheses and leaves at
    the first surplus closing one. *)
Fixpoint parenLoop (chars : jsstring) (parenCount : Z)
    (errors : list jsstring) : Z * list jsstring :=
  match chars with
  | [] => (parenCount, errors)
  | ch :: chars' =>
      let parenCount := if ch =? 40 then (parenCount + 1)%Z else parenCount in
      let parenCount := if ch =? 41 then (parenCount - 1)%Z else parenCount in
      if (parenCount <? 0)%Z
      then (parenCount, errors ++ [js "Unbalanced parentheses in code"])
      else parenLoop chars' parenCount errors
  end.

(** [validateBasicStructure(code, errors)]: the errors after the call. *)
Definition validateBasicStructure (v : t) (code : jsstring)
    (errors : list jsstring) : list jsstring :=
  let errors :=
    if (len (trim code) <? 20)%Z
    then errors ++ [js "Code is too short to be a valid component"] else errors in
  let errors :=
    if (50000 <? len code)%Z
    then errors ++ [js "Code is too long (>50KB)"] else errors in
  let errors := checkRequired (requiredPatterns v) code errors in
  let openBraces := countMatches (lit "{") code in
  let closeBraces := countMatches (lit "}") code in
  let errors :=
    if negb (openBraces =? closeBraces)%Z
    then errors ++ [js "Unbalanced braces in code"] else errors in
  let '(parenCount, errors) := parenLoop code 0%Z errors in
  if negb (parenCount =? 0)%Z
  then errors ++ [js "Unbalanced parentheses in code"] else errors.

(** The entry [checkForbiddenPatterns] pushes for a pattern. *)
Definition forbiddenEntry (p : RegExp.t) : jsstring :=
  js "Forbidden pattern detected: " ++ source p.

(** The loop of [checkForbiddenPatterns]: each [pattern.test(code)] starts
    at the pattern's [lastIndex] and moves it. *)
Fixpoint checkPatterns (pats : list RegExp.t) (code : jsstring)
    (errors : list jsstring) : list RegExp.t * list jsstring :=
  match pats with
  | [] => ([], errors)
  | p :: pats' =>
      let '(found, p') := test p code in
      let errors := if found then errors ++ [forbiddenEntry p] else errors in
      let '(pats'', errors) := checkPatterns pats' code errors in
      (p' :: pats'', errors)
  end.

(** [checkForbiddenPatterns(code, errors)]: the validator and the errors
    after the call. *)
Definition checkForbiddenPatterns (v : t) (code : jsstring)
    (errors : list jsstring) : t * list jsstring :=
  let '(pats, errors) := checkPatterns (forbiddenPatterns v) code errors in
  (Validator (allowedImports v) pats (requiredPatterns v), errors).

(** [isImportAllowed]. *)
Definition isImportAllowed (v : t) (importPath : jsstring) : bool :=
  if existsb (eqs importPath) (allowedImports v) then true
  else if startsWith (js "react/") importPath then true
  else false.

(** The pattern of [validateImports]: import, [\s+], [.*?], [\s+], from,
    [\s+], a quote, group 1 of non-quotes, a quote, an optional
    semicolon. *)
Definition importRegex : regex :=
  seqs [lit "import"; plus s_; lazy dot_; plus s_; lit "from"; plus s_;
        quote_; Group 1 (plus notquote_); quote_; opt (lit ";")].

(** The body of the [while] loop of [validateImports], over the matches
    [exec] yields one after the other (none is empty, so these are the
    matches of [matchAll]). *)
Fixpoint importLoop (v : t) (code : jsstring) (ms : list matched)
    (errors warnings : list jsstring) : list jsstring * list jsstring :=
  match ms with
  | [] => (errors, warnings)
  | m :: ms' =>
      let importPath := default [] (capture code m 1) in
      let errors :=
        if negb (isImportAllowed v importPath)
        then errors ++ [js "Unauthorized import: " ++ importPath] else errors in
      let warnings :=
        if startsWith (js "./") importPath || startsWith (js "../") importPath
        then warnings ++ [js "Relative import detected: " ++ importPath]
        else warnings in
      importLoop v code ms' errors warnings
  end.

(** [validateImports(code, errors, warnings)]. *)
Definition validateImports (v : t) (code : jsstring)
    (errors warnings : list jsstring) : list jsstring * list jsstring :=
  importLoop v code (matchAll importRegex code) errors warnings.

(** [(?:function\s+\w+|const\s+\w+\s*=\s*\([^)]*\)\s*=>)]. *)
Definition functionComponentRegex : regex :=
  Alt (seqs [lit "function"; plus s_; plus w_])
      (seqs [lit "const"; plus s_; plus w_; star s_; lit "="; star s_;
             lit "("; star (notc 41); lit ")"; star s_; lit "=>"]).

(** [class\s+\w+\s+extends\s+(?:React\.)?Component]. *)
Definition classComponentRegex : regex :=
  seqs [lit "class"; plus s_; plus w_; plus s_; lit "extends"; plus s_;
        opt (lit "React."); lit "Component"].

(** [(?:function\s+(\w+)|const\s+(\w+)\s*=|export\s+default\s+(\w+))]. *)
Definition componentNameRegex : regex :=
  Alt (seqs [lit "function"; plus s_; Group 1 (plus w_)])
      (Alt (seqs [lit "const"; plus s_; Group 2 (plus w_); star s_; lit "="])
           (seqs [lit "export"; plus s_; lit "default"; plus s_; Group 3 (plus w_)])).

(** [^[A-Z][a-zA-Z0-9]*$]. *)
Definition pascalCaseRegex : regex :=
  seqs [Bol false; upper_; star alnum_; Eol false].

(** [a || b] on captures: the first that is defined and not empty. *)
Definition orElse (a b : option jsstring) : option jsstring :=
  match a with
  | Some (_ :: _) => a
  | _ => b
  end.

(** [validateComponentStructure(code, errors, warnings)]. *)
Definition validateComponentStructure (code : jsstring)
    (errors warnings : list jsstring) : list jsstring * list jsstring :=
  let hasFunctionComponent := testLit functionComponentRegex code in
  let hasClassComponent := testLit classComponentRegex code in
  let errors :=
    if negb hasFunctionComponent && negb hasClassComponent
    then errors ++ [js "No valid React component definition found"] else errors in
  let warnings :=
    if hasClassComponent
    then warnings ++ [js "Class components detected - function components are preferred"]
    else warnings in
  let errors :=
    if negb (includes code (js "return")) || negb (includes code (js "<"))
    then errors ++ [js "Component must return JSX"] else errors in
  let warnings :=
    match matchLit componentNameRegex code with
    | Some m =>
        match orElse (orElse (capture code m 1) (capture code m 2)) (capture code m 3) with
        | Some (ch :: chs) =>
            let componentName := ch :: chs in
            if negb (testLit pascalCaseRegex componentName)
            then warnings ++ [js "Component name should be PascalCase: " ++ componentName]
            else warnings
        | _ => warnings
        end
    | None => warnings
    end in
  (errors, warnings).

(** [use[A-Z]\w*]. *)
Definition hookRegex : regex := seqs [lit "use"; upper_; star w_].

(** [(?:function|const\s+\w+\s*=)]. *)
Definition functionLineRegex : regex :=
  Alt (lit "function") (seqs [lit "const"; plus s_; plus w_; star s_; lit "="]).

(** [style\s*=\s*\{\{]. *)
Definition inlineStyleRegex : regex :=
  seqs [lit "style"; star s_; lit "="; star s_; lit "{{"].

(** [\.map\s*\(]. *)
Definition mapCallRegex : regex := seqs [lit ".map"; star s_; lit "("].

(** [<\w+[^>]*key=]. *)
Definition keyPropRegex : regex := seqs [lit "<"; plus w_; star (notc 62); lit "key="].

(** The loop over the lines of [validateReactPatterns]; it leaves at the
    first warning. *)
Fixpoint hookLoop (lines : list jsstring) (inFunction : bool) (braceCount : Z)
    (warnings : list jsstring) : list jsstring :=
  match lines with
  | [] => warnings
  | line :: lines' =>
      let inFunction := if testLit functionLineRegex line then true else inFunction in
      let braceCount := (braceCount + countMatches (lit "{") line)%Z in
      let braceCount := (braceCount - countMatches (lit "}") line)%Z in
      if inFunction && (1 <? braceCount)%Z && testLit hookRegex line
      then warnings ++ [js "Hooks should be called at the top level of components"]
      else hookLoop lines' inFunction braceCount warnings
  end.

(** [validateReactPatterns(code, warnings)]. *)
Definition validateReactPatterns (code : jsstring) (warnings : list jsstring)
    : list jsstring :=
  let hookCalls := matchAll hookRegex code in
  let warnings :=
    if (0 <? Z.of_nat (length hookCalls))%Z
    then hookLoop (split 10 code) false 0%Z warnings
    else warnings in
  let warnings :=
    if testLit inlineStyleRegex code
    then warnings ++ [js "Inline styles detected - prefer Tailwind CSS classes"]
    else warnings in
  if testLit mapCallRegex code && negb (testLit keyPropRegex code)
  then warnings ++ [js "Missing key props in mapped elements"]
  else warnings.

Definition complexityKeywords : list jsstring :=
  [js "if"; js "else"; js "while"; js "for"; js "switch"; js "case";
   js "&&"; js "||"; js "?"].

Section Engine.

(** The message of the SyntaxError with which the host's RegExp
    constructor refuses a quantifier that has nothing to repeat; its
    wording is the engine's. *)
Variable nothingToRepeat : jsstring.

(** [new RegExp(`\\b${keyword}\\b`, 'g')] for the keywords of
    [complexityKeywords].  The keyword is pasted into the pattern text as
    it is.  Letters and [&] stand for themselves.  In [\b||\b] the bars
    are alternation: a word boundary, or the empty pattern, or a word
    boundary.  In [\b?\b] the question mark is a quantifier that follows
    an assertion; an Assertion is a whole Term of the pattern grammar
    (ECMA-262 22.2.1 and B.1.2, where only the lookaheads are
    quantifiable), nothing is left for the quantifier to repeat, and the
    constructor throws a SyntaxError. *)
Definition keywordRegExp (keyword : jsstring) : exn + regex :=
  if eqs keyword (js "?") then inl (SyntaxError nothingToRepeat)
  else if eqs keyword (js "||") then inr (Alt WordB (Alt Empty WordB))
  else inr (seqs [WordB; seqs (List.map chr keyword); WordB]).

(** The loop over the keywords of [validateSizeAndComplexity]; a throwing
    constructor leaves it. *)
Fixpoint complexityLoop (keywords : list jsstring) (code : jsstring)
    (complexity : Z) : exn + Z :=
  match keywords with
  | [] => inr complexity
  | keyword :: keywords' =>
      match keywordRegExp keyword with
      | inl e => inl e
      | inr regex =>
          complexityLoop keywords' code (complexity + countMatches regex code)%Z
      end
  end.

(** [validateSizeAndComplexity(code, warnings)]: the warnings after the
    call, and what it threw if it did. *)
Definition validateSizeAndComplexity (code : jsstring) (warnings : list jsstring)
    : list jsstring * option exn :=
  let lines := Z.of_nat (length (split 10 code)) in
  let warnings :=
    if (200 <? lines)%Z
    then warnings ++ [js "Component is quite large - consider breaking it into smaller components"]
    else warnings in
  match complexityLoop complexityKeywords code 1%Z with
  | inl e => (warnings, Some e)
  | inr complexity =>
      if (20 <? complexity)%Z
      then (warnings ++ [js "High cyclomatic complexity detected - consider simplifying logic"], None)
      else (warnings, None)
  end.

End Engine.

(** [export\s+default\s+(\w+);?$] with flag m. *)
Definition exportMatchRegex : regex :=
  seqs [lit "export"; plus s_; lit "default"; plus s_; Group 1 (plus w_);
        opt (lit ";"); Eol true].

(** [export\s+default\s+\w+;?$] with flag m. *)
Definition exportReplaceRegex : regex :=
  seqs [lit "export"; plus s_; lit "default"; plus s_; plus w_;
        opt (lit ";"); Eol true].

(** [s.replace(r, replacement)] for a pattern without flag g and a
    replacement text without [$]: the first match is replaced. *)
Definition replaceFirst (r : regex) (s replacement : jsstring) : jsstring :=
  match search r s 0 with
  | Some m => firstn (mstart m) s ++ replacement ++ skipn (mend m) s
  | None => s
  end.

(** The text [wrapWithErrorBoundary] puts in place of the export
    statement. *)
Definition safeComponentText (originalComponent componentName : jsstring) : jsstring :=
  join nl [
    js "const " ++ originalComponent ++ js " = " ++ componentName ++ js ";";
    [];
    js "const SafeComponent = (props) => (";
    js "  <ErrorBoundary";
    js "    fallback={";
    jsq "      <div className=~p-4 bg-red-50 border border-red-200 text-red-700 rounded-lg~>";
    jsq "        <h3 className=~font-medium mb-2~>Component Error</h3>";
    jsq "        <p className=~text-sm~>This component failed to render safely.</p>";
    js "      </div>";
    js "    }";
    js "    onError={(error) => console.error('Panel component error:', error)}";
    js "  >";
    js "    <" ++ originalComponent ++ js " {...props} />";
    js "  </ErrorBoundary>";
    js ");";
    [];
    js "export default SafeComponent;"
  ].

(** [wrapWithErrorBoundary(code)]. *)
Definition wrapWithErrorBoundary (code : jsstring) : jsstring :=
  match matchLit exportMatchRegex code with
  | None => code
  | Some exportMatch =>
      let componentName := default [] (capture code exportMatch 1) in
      let originalComponent := js "Original" ++ componentName in
      replaceFirst exportReplaceRegex code
        (safeComponentText originalComponent componentName)
  end.

(** [sanitizeCode(code)]. *)
Definition sanitizeCode (code : jsstring) : jsstring :=
  let sanitized := wrapWithErrorBoundary code in
  if negb (includes sanitized (js "import { ErrorBoundary }"))
  then js "import React from 'react';" ++ nl
       ++ js "import { ErrorBoundary } from 'react-error-boundary';" ++ nl ++ nl
       ++ sanitized
  else sanitized.

(** [validateJSX(code)]: the result the promise resolves with, and the
    validator after the call.  The arrays [errors] and [warnings] are
    threaded through the checks; what a check pushed before it threw is
    still in them when the [catch] block reads them. *)
Definition validateJSX (nothingToRepeat : jsstring) (v : t) (code : jsstring)
    : SecurityValidationResult * t :=
  let errors := [] in
  let warnings := [] in
  let errors := validateBasicStructure v code errors in
  let '(v, errors) := checkForbiddenPatterns v code errors in
  let '(errors, warnings) := validateImports v code errors warnings in
  let '(errors, warnings) := validateComponentStructure code errors warnings in
  let warnings := validateReactPatterns code warnings in
  match validateSizeAndComplexity nothingToRepeat code warnings with
  | (warnings, Some error) =>
      (Result false [js "Validation error: " ++ exnToString error] warnings None, v)
  | (warnings, None) =>
      if (0 <? Z.of_nat (length errors))%Z
      then (Result false errors warnings None, v)
      else (Result true [] warnings (Some (sanitizeCode code)), v)
  end.

End CodeValidator.

(** The sources of the example scenarios. *)
Module ValidatorTests.
Import CodeValidator.

(** [eval] applied to the string literal [1+1]. *)
Definition evalSource : jsstring := js "eval(" ++ dq ++ js "1+1" ++ dq ++ js ")".
Definition xSource : jsstring := js "const X = () => <div>Hi</div>; export default X;".

(** A component that passes every structure and security check. *)
Definition goodSource : jsstring := join nl [
  js "import React from 'react';";
  js "const Hello = () => { return <div>Hi</div>; };";
  js "export default Hello;" ].



End ValidatorTests.

(** ** The browser: object URLs and dispatched events *)

Module Browser.

(** The blob URL store: the texts behind the live object URLs, and the
    count of URLs handed out, from which the next one is made. *)
Record BlobStore : Type := Blobs {
  nextBlob : N;
  live : gmap jsstring jsstring
}.

Definition blobUrl (n : N) : jsstring := js "blob:" ++ numberToString 10 (Z.of_N n).

(** [URL.createObjectURL(new Blob([text]))]: a URL never handed out
    before. *)
Definition createObjectURL (b : BlobStore) (text : jsstring) : jsstring * BlobStore :=
  let url := blobUrl (nextBlob b) in
  (url, Blobs (nextBlob b + 1) (<[url := text]> (live b))).

(** [URL.revokeObjectURL(url)]; a URL that is not live is left alone. *)
Definition revokeObjectURL (b : BlobStore) (url : jsstring) : BlobStore :=
  Blobs (nextBlob b) (delete url (live b)).

(** What the pipeline sends out: the events given to
    [window.dispatchEvent], by name and detail, and the calls of
    [import.meta.hot.invalidate()]. *)
Inductive Event : Type :=
  | PanelHmrUpdate (panelId jsxCode : jsstring) (timestamp : Z)
  | PanelHmrError (panelId error : jsstring)
  | HotInvalidate.

(** What the pipeline sees of its host: the blob store and what was sent
    out so far, the oldest first. *)
Record World : Type := World_ {
  store : BlobStore;
  dispatched : list Event
}.

Definition dispatchEvent (w : World) (e : Event) : World :=
  World_ (store w) (dispatched w ++ [e]).

Definition withStore (w : World) (b : BlobStore) : World :=
  World_ b (dispatched w).

(** The default export of an imported module, as the loaders look at it:
    falsy, not a function, or a component. *)
Inductive moduleDefault (Component : Type) : Type :=
  | NoDefault
  | NotAFunction
  | Callable (c : Component).
Arguments NoDefault {Component}.
Arguments NotAFunction {Component}.
Arguments Callable {Component} c.

(** [ComponentCacheEntry]. *)
Record ComponentCacheEntry (Component : Type) : Type := CacheEntry {
  component : Component;
  moduleUrl : jsstring;
  lastUpdated : Z;
  compiledCode : jsstring
}.
Arguments CacheEntry {Component}.
Arguments component {Component}.
Arguments moduleUrl {Component}.
Arguments lastUpdated {Component}.
Arguments compiledCode {Component}.

End Browser.
Import Browser.

(** ** The compiler: [RuntimeJSXCompiler] *)

Module Compiler.

(** [CompilationResult]. *)
Record CompilationResult : Type := Compilation {
  success : bool;
  code : option jsstring;
  moduleUrl : option jsstring;
  error : option exn;
  warnings : option (list jsstring)
}.

(** The module text [createModuleBlob] builds. *)
Definition moduleCode (compiledCode componentName : jsstring) : jsstring :=
  join nl [
    [];
    js "      // Generated panel module: " ++ componentName;
    js "      import React from 'react';";
    js "      import { jsx as _jsx, jsxs as _jsxs, Fragment as _Fragment } from 'react/jsx-runtime';";
    js "      ";
    js "      " ++ compiledCode;
    js "      ";
    js "      // Ensure the component is exported";
    js "      const ComponentToExport = typeof " ++ componentName
      ++ js " !== 'undefined' ? " ++ componentName ++ js " : ";
    js "                                typeof Component !== 'undefined' ? Component :";
    js "                                (() => React.createElement('div', { className: 'p-4 text-red-500' }, ";
    js "                                  'Error: No valid component found in generated code'));";
    js "      ";
    js "      export default ComponentToExport;";
    js "      ";
    js "      // HMR support";
    js "      if (import.meta.hot) {";
    js "        import.meta.hot.accept();";
    js "      }";
    js "    "
  ].

(** [createModuleBlob(compiledCode, componentName)]. *)
Definition createModuleBlob (b : BlobStore) (compiledCode componentName : jsstring)
    : jsstring * BlobStore :=
  createObjectURL b (moduleCode compiledCode componentName).

Section Babel.

(** [Babel.transform(jsxCode, options)] with the compiler's options: it
    throws, or returns an object whose [code] may be missing. *)
Variable babelTransform : jsstring -> exn + option jsstring.

(** The [try] block of [compileComponent]: what it returns or throws. *)
Definition compileBody (b : BlobStore) (jsxCode componentName : jsstring)
    : (exn + CompilationResult) * BlobStore :=
  if eqs (trim jsxCode) [] then (inl (Error (js "JSX code cannot be empty")), b)
  else
    match babelTransform jsxCode with
    | inl e => (inl e, b)
    | inr None | inr (Some []) =>
        (inl (Error (js "Compilation failed: no code generated")), b)
    | inr (Some resultCode) =>
        let '(url, b') := createModuleBlob b resultCode componentName in
        (inr (Compilation true (Some resultCode) (Some url) None (Some [])), b')
    end.

(** [compileComponent(jsxCode, componentName)]: the [catch] block turns
    what the body threw into a failure result. *)
Definition compileComponent (b : BlobStore) (jsxCode componentName : jsstring)
    : (exn + CompilationResult) * BlobStore :=
  match compileBody b jsxCode componentName with
  | (inr result, b') => (inr result, b')
  | (inl e, b') => (inr (Compilation false None None (Some e) None), b')
  end.

(** [validateSyntax(jsxCode)]. *)
Definition validateSyntax (jsxCode : jsstring) : bool :=
  match babelTransform jsxCode with
  | inl _ => false
  | inr _ => true
  end.

End Babel.

(** [[A-Z][a-zA-Z0-9]*]. *)
Definition pascalName : regex := Seq upper_ (star alnum_).

(** [extractComponentName(jsxCode)]. *)
Definition extractComponentName (jsxCode : jsstring) : jsstring :=
  let keyword := Alt (lit "function") (Alt (lit "const") (Alt (lit "let") (lit "var"))) in
  let binder := Alt (lit "const") (Alt (lit "let") (lit "var")) in
  match matchLit (seqs [keyword; plus s_; Group 1 pascalName]) jsxCode with
  | Some functionMatch => default [] (capture jsxCode functionMatch 1)
  | None =>
      match matchLit (seqs [binder; plus s_; Group 1 pascalName; star s_; lit "="]) jsxCode with
      | Some arrowMatch => default [] (capture jsxCode arrowMatch 1)
      | None =>
          match matchLit (seqs [lit "export"; plus s_; lit "default"; plus s_;
                                Group 1 pascalName]) jsxCode with
          | Some exportMatch => default [] (capture jsxCode exportMatch 1)
          | None => js "Component"
          end
      end
  end.

(** [extractDependencies(jsxCode)]. *)
Definition extractDependencies (jsxCode : jsstring) : list jsstring :=
  List.map (fun m => default [] (capture jsxCode m 1))
    (matchAll (seqs [lit "import"; plus s_; lazy dot_; plus s_; lit "from"; plus s_;
                     quote_; Group 1 (plus notquote_); quote_]) jsxCode).

(** [cleanupModuleUrl(moduleUrl)]. *)
Definition cleanupModuleUrl (b : BlobStore) (moduleUrl : jsstring) : BlobStore :=
  if startsWith (js "blob:") moduleUrl then revokeObjectURL b moduleUrl else b.

End Compiler.

(** ** The registry: [EnhancedPanelRegistry] *)

Module Registry.

(** [PanelMetadata]. *)
Record PanelMetadata : Type := Metadata {
  createdAt : Z;
  updatedAt : Z;
  creator : jsstring;
  dependencies : list jsstring;
  tags : option (list jsstring);
  description : option jsstring;
  panelType : option jsstring;
  error : option jsstring;
  warnings : option (list jsstring)
}.

(** [Partial<PanelMetadata>]: each property may be absent. *)
Record PartialMetadata : Type := Partial {
  createdAt' : option Z;
  updatedAt' : option Z;
  creator' : option jsstring;
  dependencies' : option (list jsstring);
  tags' : option (list jsstring);
  description' : option jsstring;
  panelType' : option jsstring;
  error' : option jsstring;
  warnings' : option (list jsstring)
}.

(** The default argument [{}]. *)
Definition noMetadata : PartialMetadata :=
  Partial None None None None None None None None None.

(** [{ createdAt, updatedAt, creator, dependencies, ...metadata }]: the
    properties spread last win. *)
Definition spreadOver (createdAt updatedAt : Z) (creator : jsstring)
    (dependencies : list jsstring) (metadata : PartialMetadata) : PanelMetadata :=
  Metadata (default createdAt (createdAt' metadata))
           (default updatedAt (updatedAt' metadata))
           (default creator (creator' metadata))
           (default dependencies (dependencies' metadata))
           (tags' metadata) (description' metadata) (panelType' metadata)
           (error' metadata) (warnings' metadata).

(** [{ ...existingPanel.metadata, updatedAt }]. *)
Definition refreshed (existing : PanelMetadata) (updatedAt : Z) : PartialMetadata :=
  Partial (Some (createdAt existing)) (Some updatedAt) (Some (creator existing))
          (Some (dependencies existing)) (tags existing) (description existing)
          (panelType existing) (error existing) (warnings existing).

(** [PanelDefinition]. *)
Record PanelDefinition (Component : Type) : Type := Panel {
  id : jsstring;
  name : jsstring;
  jsxCode : jsstring;
  compiledCode : option jsstring;
  component : option Component;
  metadata : PanelMetadata
}.
Arguments Panel {Component}.
Arguments id {Component}.
Arguments name {Component}.
Arguments jsxCode {Component}.
Arguments compiledCode {Component}.
Arguments component {Component}.
Arguments metadata {Component}.

(** The registry object: its two maps.  The window listeners the
    constructor installs call [updatePanel] and write to the console; the
    FinalizationRegistry callback runs when the collector pleases and
    only revokes an object URL.  Neither writes a map otherwise than
    through the methods below. *)
Record t (Component : Type) : Type := Registry_ {
  panels : gmap jsstring (PanelDefinition Component);
  componentCache : gmap jsstring (ComponentCacheEntry Component)
}.
Arguments Registry_ {Component}.
Arguments panels {Component}.
Arguments componentCache {Component}.

(** The registry right after its constructor. *)
Definition new {Component : Type} : t Component := Registry_ ∅ ∅.

(** [memoryUsage] of [getStats]: twice the length of each cached text. *)
Definition memoryUsage {Component : Type} (r : t Component) : Z :=
  map_fold (fun _ cache total => (total + len (Browser.compiledCode cache) * 2)%Z)
           0%Z (componentCache r).

(** What [getStats()] returns. *)
Record Stats : Type := Stats_ {
  totalPanels : nat;
  cachedComponents : nat;
  memoryUsageOf : Z
}.

(** [getStats()]. *)
Definition getStats {Component : Type} (r : t Component) : Stats :=
  Stats_ (size (panels r)) (size (componentCache r)) (memoryUsage r).

(** [getPanel(id)]. *)
Definition getPanel {Component : Type} (r : t Component) (id : jsstring)
    : option (PanelDefinition Component) :=
  panels r !! id.

(** [getComponent(id)]. *)
Definition getComponent {Component : Type} (r : t Component) (id : jsstring)
    : option Component :=
  Browser.component <$> componentCache r !! id.

(** The old URL [updatePanel] and [removePanel] give to
    [cleanupModuleUrl]: that of the cached entry, if it has one and it is
    not the empty string. *)
Definition cleanupCached {Component : Type} (r : t Component) (w : World)
    (id : jsstring) : World :=
  match componentCache r !! id with
  | Some cache =>
      match Browser.moduleUrl cache with
      | [] => w
      | url => withStore w (Compiler.cleanupModuleUrl (store w) url)
      end
  | None => w
  end.

(** [removePanel(id)]. *)
Definition removePanel {Component : Type} (r : t Component) (w : World)
    (id : jsstring) : t Component * World :=
  let w := cleanupCached r w id in
  (Registry_ (delete id (panels r)) (delete id (componentCache r)), w).

(** The message of the Error thrown for an unusable compilation result:
    [error?.message] printed into the template. *)
Definition compilationFailed (result : Compiler.CompilationResult) : exn :=
  Error (js "Compilation failed: "
         ++ match Compiler.error result with
            | Some e => message e
            | None => js "undefined"
            end).

(** [success] and a [moduleUrl] that is not falsy. *)
Definition usableUrl (result : Compiler.CompilationResult) : option jsstring :=
  if Compiler.success result then
    match Compiler.moduleUrl result with
    | Some (c :: url) => Some (c :: url)
    | _ => None
    end
  else None.

Section Host.

Context {Component : Type}.

(** [Babel.transform] and the dynamic [import()] of the host: the import
    is given the specifier and sees the blob store. *)
Variable babelTransform : jsstring -> exn + option jsstring.
Variable dynamicImport : jsstring -> BlobStore -> exn + moduleDefault Component.

(** [loadComponent(moduleUrl)]; whatever its [try] block throws, its own
    errors included, is wrapped by the [catch] block. *)
Definition loadComponent (w : World) (moduleUrl : jsstring) (now : Z)
    : exn + Component :=
  let body :=
    match dynamicImport (moduleUrl ++ js "?t=" ++ numberToString 10 now) (store w) with
    | inl e => inl e
    | inr NoDefault => inl (Error (js "Module does not export a default component"))
    | inr NotAFunction => inl (Error (js "Exported default is not a valid React component"))
    | inr (Callable c) => inr c
    end in
  match body with
  | inl e => inl (Error (js "Component loading failed: " ++ exnToString e))
  | inr c => inr c
  end.

(** [registerPanelFromJSX(id, jsxCode, metadata)] at clock reading [now]:
    what the promise settles with, the registry and the world after it.
    The [catch] block rethrows what it caught.  The two [set] calls run
    in one synchronous stretch, after the last [await]. *)
Definition registerPanelFromJSX (r : t Component) (w : World)
    (id jsxCode : jsstring) (metadata : PartialMetadata) (now : Z)
    : (exn + Component) * t Component * World :=
  let '(compiled, b) := Compiler.compileComponent babelTransform (store w) jsxCode id in
  let w := withStore w b in
  match compiled with
  | inl e => (inl e, r, w)
  | inr compilationResult =>
      match usableUrl compilationResult with
      | None => (inl (compilationFailed compilationResult), r, w)
      | Some url =>
          match loadComponent w url now with
          | inl e => (inl e, r, w)
          | inr component =>
              let panelDefinition :=
                Panel id (Compiler.extractComponentName jsxCode) jsxCode
                      (Compiler.code compilationResult) (Some component)
                      (spreadOver now now (js "ai")
                         (Compiler.extractDependencies jsxCode) metadata) in
              let cache :=
                CacheEntry component url now
                           (default [] (Compiler.code compilationResult)) in
              (inr component,
               Registry_ (<[id := panelDefinition]> (panels r))
                         (<[id := cache]> (componentCache r)),
               w)
          end
      end
  end.

(** [updatePanel(id, jsxCode)] at clock reading [now].  The source reads
    the clock more than once in a call: for [updatedAt] before the
    compilation, for [lastUpdated] and for the timestamp of the event
    after the load.  The call is given one reading for them; no property
    below says that any two of these values are equal. *)
Definition updatePanel (r : t Component) (w : World) (id jsxCode : jsstring) (now : Z)
    : (exn + Component) * t Component * World :=
  match panels r !! id with
  | None => (inl (Error (js "Panel " ++ id ++ js " not found")), r, w)
  | Some existingPanel =>
      let w := cleanupCached r w id in
      match registerPanelFromJSX r w id jsxCode
              (refreshed (metadata existingPanel) now) now with
      | (inl e, r', w') => (inl e, r', w')
      | (inr component, r', w') =>
          (inr component, r', dispatchEvent w' (PanelHmrUpdate id jsxCode now))
      end
  end.

(** The calls a client makes, and a run of them one after the other. *)
Inductive call : Type :=
  | RegisterPanelFromJSX (id jsxCode : jsstring) (metadata : PartialMetadata) (now : Z)
  | UpdatePanel (id jsxCode : jsstring) (now : Z)
  | RemovePanel (id : jsstring).

Definition perform (rw : t Component * World) (c : call) : t Component * World :=
  let '(r, w) := rw in
  match c with
  | RegisterPanelFromJSX id jsxCode metadata now =>
      let '(_, r', w') := registerPanelFromJSX r w id jsxCode metadata now in (r', w')
  | UpdatePanel id jsxCode now =>
      let '(_, r', w') := updatePanel r w id jsxCode now in (r', w')
  | RemovePanel id => removePanel r w id
  end.

Definition performAll (rw : t Component * World) (cs : list call)
    : t Component * World :=
  fold_left perform cs rw.

End Host.

End Registry.

(** ** The hot-replacement manager: [DynamicHMRManager] *)

Module HMR.

(** The manager object: the cache, the set of identities with an update
    under way, and whether [import.meta.hot] was there. *)
Record t (Component : Type) : Type := Manager {
  componentCache : gmap jsstring (ComponentCacheEntry Component);
  updateQueue : gset jsstring;
  viteHMR : bool
}.
Arguments Manager {Component}.
Arguments componentCache {Component}.
Arguments updateQueue {Component}.
Arguments viteHMR {Component}.

(** How a call of [updateComponent] went: it returned at the guard, it
    reached the end of the [try] block, or the [catch] block took over. *)
Inductive outcome : Type :=
  | Dropped
  | Updated
  | Caught (e : exn).

(** A call of [updateComponent] that is suspended at one of its two
    [await]s, with what the awaited promise holds. *)
Inductive pending (Component : Type) : Type :=
  | AwaitCompile (panelId : jsstring) (compiled : exn + Compiler.CompilationResult)
  | AwaitLoad (panelId : jsstring) (compilationResult : Compiler.CompilationResult)
              (moduleUrl : jsstring) (loaded : exn + Component).
Arguments AwaitCompile {Component}.
Arguments AwaitLoad {Component}.

(** Where a stretch of a call ends: at an [await], or with the promise of
    the call settled. *)
Inductive progress (Component : Type) : Type :=
  | Suspended (p : pending Component)
  | Settled (how : outcome) (promise : exn + unit).
Arguments Suspended {Component}.
Arguments Settled {Component}.

Definition panelOf {Component : Type} (p : pending Component) : jsstring :=
  match p with
  | AwaitCompile panelId _ => panelId
  | AwaitLoad panelId _ _ _ => panelId
  end.

(** [getComponent], [hasComponent]. *)
Definition getComponent {Component : Type} (m : t Component) (panelId : jsstring)
    : option (ComponentCacheEntry Component) :=
  componentCache m !! panelId.

Definition hasComponent {Component : Type} (m : t Component) (panelId : jsstring) : bool :=
  bool_decide (is_Some (componentCache m !! panelId)).

(** [removeComponent(panelId)]. *)
Definition removeComponent {Component : Type} (m : t Component) (w : World)
    (panelId : jsstring) : t Component * World :=
  let w :=
    match componentCache m !! panelId with
    | Some cache =>
        match Browser.moduleUrl cache with
        | [] => w
        | url => withStore w (Compiler.cleanupModuleUrl (store w) url)
        end
    | None => w
    end in
  (Manager (delete panelId (componentCache m)) (updateQueue m) (viteHMR m), w).

(** [handleUpdateFailure(panelId, error)]: one [panel-hmr-error] event;
    the overlay of development mode only writes to the console.  It
    returns normally. *)
Definition handleUpdateFailure (w : World) (panelId : jsstring) (error : exn)
    : (exn + unit) * World :=
  (inr tt, dispatchEvent w (PanelHmrError panelId (message error))).

(** The [finally] block: [updateQueue.delete(panelId)]. *)
Definition finallyBlock {Component : Type} (m : t Component) (panelId : jsstring)
    : t Component :=
  Manager (componentCache m) (updateQueue m ∖ {[panelId]}) (viteHMR m).

(** The [catch] block followed by the [finally] block. *)
Definition catchBlock {Component : Type} (m : t Component) (w : World)
    (panelId : jsstring) (error : exn) : progress Component * t Component * World :=
  let '(promise, w) := handleUpdateFailure w panelId error in
  (Settled (Caught error) promise, finallyBlock m panelId, w).

(** [triggerHotUpdate(panelId)]: the [panel-hmr-update] event, its
    [jsxCode] empty, and the invalidation when Vite is there. *)
Definition triggerHotUpdate {Component : Type} (m : t Component) (w : World)
    (panelId : jsstring) (now : Z) : World :=
  let w := dispatchEvent w (PanelHmrUpdate panelId [] now) in
  if viteHMR m then dispatchEvent w HotInvalidate else w.

Section Host.

Context {Component : Type}.
Variable babelTransform : jsstring -> exn + option jsstring.
Variable dynamicImport : jsstring -> BlobStore -> exn + moduleDefault Component.

(** [loadComponentFromUrl(moduleUrl)]. *)
Definition loadComponentFromUrl (w : World) (moduleUrl : jsstring) (now : Z)
    : exn + Component :=
  Registry.loadComponent dynamicImport w moduleUrl now.

(** The call of [updateComponent(panelId, newJSXCode)] up to its first
    [await]: the guard, whose [return] sits inside the [try] and so runs
    the [finally] block; the mark in [updateQueue]; and the body of
    [compileComponent], which has no [await] of its own. *)
Definition start (m : t Component) (w : World) (panelId newJSXCode : jsstring)
    : progress Component * t Component * World :=
  if bool_decide (panelId ∈ updateQueue m) then
    (Settled Dropped (inr tt), finallyBlock m panelId, w)
  else
    let m := Manager (componentCache m) ({[panelId]} ∪ updateQueue m) (viteHMR m) in
    let '(compiled, b) :=
      Compiler.compileComponent babelTransform (store w) newJSXCode panelId in
    (Suspended (AwaitCompile panelId compiled), m, withStore w b).

(** The call from an [await] on, at clock reading [now], up to the next
    [await] or to its end. *)
Definition resume (m : t Component) (w : World) (p : pending Component) (now : Z)
    : progress Component * t Component * World :=
  match p with
  | AwaitCompile panelId (inl e) => catchBlock m w panelId e
  | AwaitCompile panelId (inr compilationResult) =>
      match Registry.usableUrl compilationResult with
      | None => catchBlock m w panelId (Registry.compilationFailed compilationResult)
      | Some url =>
          let w :=
            match componentCache m !! panelId with
            | Some oldCache =>
                match Browser.moduleUrl oldCache with
                | [] => w
                | old => withStore w (Compiler.cleanupModuleUrl (store w) old)
                end
            | None => w
            end in
          (Suspended (AwaitLoad panelId compilationResult url
                                (loadComponentFromUrl w url now)), m, w)
      end
  | AwaitLoad panelId _ _ (inl e) => catchBlock m w panelId e
  | AwaitLoad panelId compilationResult url (inr newComponent) =>
      let cache :=
        CacheEntry newComponent url now
                   (default [] (Compiler.code compilationResult)) in
      let m := Manager (<[panelId := cache]> (componentCache m))
                       (updateQueue m) (viteHMR m) in
      let w := triggerHotUpdate m w panelId now in
      (Settled Updated (inr tt), finallyBlock m panelId, w)
  end.

(** A call that nothing interleaves with: its stretches one after the
    other.  Two resumptions reach the end. *)
Fixpoint finish (fuel : nat) (s : progress Component * t Component * World) (now : Z)
    : progress Component * t Component * World :=
  match fuel, s with
  | S fuel', (Suspended p, m, w) => finish fuel' (resume m w p now) now
  | _, _ => s
  end.

Definition updateComponent (m : t Component) (w : World)
    (panelId newJSXCode : jsstring) (now : Z)
    : progress Component * t Component * World :=
  finish 2 (start m w panelId newJSXCode) now.

(** The manager with the calls of [updateComponent] that are under way,
    the oldest first. *)
Record system : Type := System {
  manager : t Component;
  world : World;
  inFlight : list (pending Component)
}.

(** What the event loop runs next: a new call, or the resumption of the
    [i]-th suspended call. *)
Inductive action : Type :=
  | Call (panelId newJSXCode : jsstring)
  | Resume (i : nat) (now : Z).

Definition settle (s : system) (r : progress Component * t Component * World)
    (others : list (pending Component)) : system :=
  let '(pr, m, w) := r in
  match pr with
  | Suspended p => System m w (others ++ [p])
  | Settled _ _ => System m w others
  end.

Definition act (s : system) (a : action) : system :=
  match a with
  | Call panelId newJSXCode =>
      settle s (start (manager s) (world s) panelId newJSXCode) (inFlight s)
  | Resume i now =>
      match inFlight s !! i with
      | Some p => settle s (resume (manager s) (world s) p now) (delete i (inFlight s))
      | None => s
      end
  end.

Definition actAll (s : system) (l : list action) : system := fold_left act l s.

(** The calls for [panelId] that are under way. *)
Definition inFlightFor (s : system) (panelId : jsstring) : nat :=
  length (filter (fun p => panelOf p = panelId) (inFlight s)).

End Host.

(** [getTotalUpdates()]: the cached entries whose [lastUpdated] is not
    falsy, counted by a [reduce] over the values of the cache. *)
Definition getTotalUpdates {Component : Type} (m : t Component) : Z :=
  map_fold (fun _ cache total =>
              (total + (if (Browser.lastUpdated cache =? 0)%Z then 0 else 1))%Z)
           0%Z (componentCache m).

(** What [getStats()] returns; [isConnected] was set by the constructor
    together with [viteHMR]. *)
Record Stats : Type := Stats_ {
  cachedComponents : nat;
  pendingUpdates : nat;
  totalUpdates : Z;
  isConnected : bool
}.

(** [getStats()]. *)
Definition getStats {Component : Type} (m : t Component) : Stats :=
  Stats_ (size (componentCache m)) (size (updateQueue m)) (getTotalUpdates m) (viteHMR m).

(** [cleanup()]: the loop hands every cached module URL that is not the
    empty string to [cleanupModuleUrl]; then both collections are
    cleared.  The two [removeEventListener] calls are given functions
    that [bind] has just made, which no listener list holds. *)
Definition cleanup {Component : Type} (m : t Component) (w : World)
    : t Component * World :=
  let b :=
    map_fold (fun _ cache b =>
                match Browser.moduleUrl cache with
                | [] => b
                | url => Compiler.cleanupModuleUrl b url
                end)
             (store w) (componentCache m) in
  (Manager ∅ ∅ (viteHMR m), withStore w b).

End HMR.

(** ** The identity of a generated panel: [AIComponentGenerator] *)

Module Generator.

(** ToInt32: the number reduced to the signed 32-bit range. *)
Definition toInt32 (z : Z) : Z := ((z + 2 ^ 31) mod 2 ^ 32 - 2 ^ 31)%Z.

(** The loop of [simpleHash]: [hash << 5] and [hash & hash] work on the
    32-bit value, the subtraction and the addition on the numbers. *)
Fixpoint hashLoop (chars : jsstring) (hash : Z) : Z :=
  match chars with
  | [] => hash
  | char :: chars' =>
      let hash := (toInt32 (Z.shiftl (toInt32 hash) 5) - hash + Z.of_N char)%Z in
      let hash := Z.land (toInt32 hash) (toInt32 hash) in
      hashLoop chars' hash
  end.

(** [simpleHash(str)]. *)
Definition simpleHash (str : jsstring) : jsstring :=
  numberToString 16 (Z.abs (hashLoop str 0%Z)).

(** [generatePanelId(prompt)] when [Date.now()] reads [timestamp]. *)
Definition generatePanelId (prompt : jsstring) (timestamp : Z) : jsstring :=
  js "ai-panel-" ++ simpleHash prompt ++ js "-" ++ numberToString 10 timestamp.

(** A generation request as the orchestrator sees it: the prompt and the
    clock reading at which [generateComponent] was entered. *)
Record request : Type := Request { prompt : jsstring; enteredAt : Z }.

Definition identityOf (q : request) : jsstring :=
  generatePanelId (prompt q) (enteredAt q).

End Generator.

(** ** The model client: [OllamaClient] *)

Module Ollama.

(** The client object: what the check of availability left in
    [isAvailable], and the model in use. *)
Record t : Type := Client { isAvailable : bool; defaultModel : jsstring }.

(** [ComponentGenerationRequest]; its [context] is never read. *)
Record ComponentGenerationRequest : Type := Request {
  prompt : jsstring;
  panelType : option jsstring
}.

(** Three backticks, [(?:jsx?|typescript|tsx?)?], [\n?], group 1 of
    [[\s\S]*?], three backticks. *)
Definition codeBlockRegex : regex :=
  seqs [lit "```";
        opt (Alt (Seq (lit "js") (opt (lit "x")))
                 (Alt (lit "typescript") (Seq (lit "ts") (opt (lit "x")))));
        opt (chr 10); Group 1 (lazy any_); lit "```"].

(** [(import React[\s\S]*?export default \w+;?)]. *)
Definition componentRegex : regex :=
  Group 1 (seqs [lit "import React"; lazy any_; lit "export default "; plus w_;
                 opt (lit ";")]).

(** [^] and three backticks, [[\w]*], [\n?]. *)
Definition openingFenceRegex : regex :=
  seqs [Bol false; lit "```"; star w_; opt (chr 10)].

(** [\n?], three backticks and [$]. *)
Definition closingFenceRegex : regex :=
  seqs [opt (chr 10); lit "```"; Eol false].

(** [extractJSXFromResponse(response)]. *)
Definition extractJSXFromResponse (response : jsstring) : jsstring :=
  match matchLit codeBlockRegex response with
  | Some codeMatch => trim (default [] (capture response codeMatch 1))
  | None =>
      match matchLit componentRegex response with
      | Some componentMatch => trim (default [] (capture response componentMatch 1))
      | None =>
          trim (CodeValidator.replaceFirst closingFenceRegex
                  (CodeValidator.replaceFirst openingFenceRegex response []) [])
      end
  end.

(** The patterns [validateGeneratedCode] refuses: RegExp literals without
    flag g, the last one with flag i. *)
Definition forbiddenPatterns : list RegExp.t := [
  CodeValidator.plain "eval\s*\(" (seqs [lit "eval"; star s_; lit "("]);
  CodeValidator.plain "Function\s*\(" (seqs [lit "Function"; star s_; lit "("]);
  CodeValidator.plain "document\.write" (lit "document.write");
  CodeValidator.plain "innerHTML\s*=" (seqs [lit "innerHTML"; star s_; lit "="]);
  CodeValidator.plain "window\.parent" (lit "window.parent");
  CodeValidator.plain "window\.top" (lit "window.top");
  CodeValidator.plain "localStorage" (lit "localStorage");
  CodeValidator.plain "sessionStorage" (lit "sessionStorage");
  CodeValidator.plain "<script" (liti "<script")
].

(** The loop over the patterns: the first that is found throws. *)
Fixpoint forbiddenLoop (pats : list RegExp.t) (code : jsstring) : option exn :=
  match pats with
  | [] => None
  | pattern :: pats' =>
      if fst (test pattern code)
      then Some (Error (js "Generated code contains forbidden pattern: " ++ source pattern))
      else forbiddenLoop pats' code
  end.

(** [validateGeneratedCode(code)]: what it throws, if it does. *)
Definition validateGeneratedCode (code : jsstring) : option exn :=
  if negb (includes code (js "import React"))
  then Some (Error (js "Generated code must import React"))
  else if negb (includes code (js "export default"))
  then Some (Error (js "Generated code must have a default export"))
  else
    match forbiddenLoop forbiddenPatterns code with
    | Some e => Some e
    | None =>
        if (len code <? 50)%Z
        then Some (Error (js "Generated code appears to be too short"))
        else if (10000 <? len code)%Z
        then Some (Error (js "Generated code is too long (>10KB)"))
        else None
    end.

(** [generateComponent(request)], given what the awaited [callOllamaAPI]
    settles with: the text of the service's answer, or what the call
    threw.  The prompt that [buildSystemPrompt] and the request make goes
    to the service and nowhere else.  The [catch] block wraps whatever the
    [try] block throws. *)
Definition generateComponent (client : t) (request : ComponentGenerationRequest)
    (response : exn + jsstring) : exn + jsstring :=
  if negb (isAvailable client)
  then inl (Error (js "Ollama service is not available. Please ensure Ollama is running on localhost:11434"))
  else
    let body :=
      match response with
      | inl e => inl e
      | inr generatedCode =>
          let cleanedCode := extractJSXFromResponse generatedCode in
          match validateGeneratedCode cleanedCode with
          | Some e => inl e
          | None => inr cleanedCode
          end
      end in
    match body with
    | inl error => inl (Error (js "Component generation failed: " ++ exnToString error))
    | inr cleanedCode => inr cleanedCode
    end.

(** [isServiceAvailable()], [getCurrentModel()], [setModel(model)]. *)
Definition isServiceAvailable (client : t) : bool := isAvailable client.
Definition getCurrentModel (client : t) : jsstring := defaultModel client.
Definition setModel (client : t) (model : jsstring) : t := Client (isAvailable client) model.

End Ollama.

(** ** The orchestrator: [AIComponentGenerator] *)

Module AIComponentGenerator.

(** [ComponentGenerationAttempt]; the timestamp is the reading of the
    clock that [new Date()] holds. *)
Module Attempt.
Record t : Type := Make {
  timestamp : Z;
  prompt : jsstring;
  generatedCode : option jsstring;
  finalCode : option jsstring;
  error : option jsstring;
  success : bool;
  warnings : option (list jsstring)
}.
End Attempt.

(** The [metadata] of what [generateComponent] resolves with: that of a
    generated component, or that of the fallback, which has [isFallback]
    true. *)
Inductive resultMetadata : Type :=
  | OfGeneration (prompt : jsstring) (panelType : option jsstring)
                 (warnings : list jsstring) (model : jsstring)
  | OfFallback (originalError prompt : jsstring).

(** What [generateComponent] resolves with. *)
Record generated (Component : Type) : Type := Generated {
  component : Component;
  panelId : jsstring;
  jsxCode : jsstring;
  metadata : resultMetadata
}.
Arguments Generated {Component}.
Arguments component {Component}.
Arguments panelId {Component}.
Arguments jsxCode {Component}.
Arguments metadata {Component}.

(** The generator with the three objects it works on, which are the
    default instances of their modules, and the [ai-component-generated]
    events it gave to [window.dispatchEvent], the oldest first, each with
    its [panelId], [jsxCode] and [component]. *)
Record t (Component : Type) : Type := Generator_ {
  ollama : Ollama.t;
  validator : CodeValidator.t;
  panelRegistry : Registry.t Component;
  generationHistory : gmap jsstring (list Attempt.t);
  emitted : list (jsstring * jsstring * Component)
}.
Arguments Generator_ {Component}.
Arguments ollama {Component}.
Arguments validator {Component}.
Arguments panelRegistry {Component}.
Arguments generationHistory {Component}.
Arguments emitted {Component}.

(** The readings of the clock in a call of [generateComponent]: in
    [generatePanelId]; in the registration of the generated code; in
    [new Date()] of the recorded attempt; in the registration of the
    fallback. *)
Record readings : Type := Readings {
  enteredAt : Z;
  registeredAt : Z;
  recordedAt : Z;
  fallbackAt : Z
}.

(** [recordGenerationAttempt(panelId, attempt)] on the history map: the
    array of the identity, made if it is missing, gets the attempt at
    its end and loses what comes before its last ten. *)
Definition recordAttempt (generationHistory : gmap jsstring (list Attempt.t))
    (panelId : jsstring) (attempt : Attempt.t) : gmap jsstring (list Attempt.t) :=
  let history := default [] (generationHistory !! panelId) ++ [attempt] in
  let history :=
    if (10 <? length history)%nat
    then skipn (length history - 10) history
    else history in
  <[panelId := history]> generationHistory.

(** [createFallbackComponent(prompt, errorMessage)]. *)
Definition createFallbackComponent (prompt errorMessage : jsstring) : jsstring :=
  join nl [
    [];
    js "import React from 'react';";
    [];
    js "const FallbackComponent = () => {";
    js "  return (";
    jsq "    <div className=~p-6 bg-yellow-50 border border-yellow-200 rounded-lg~>";
    jsq "      <div className=~flex items-start~>";
    jsq "        <div className=~flex-shrink-0~>";
    jsq "          <svg className=~h-5 w-5 text-yellow-400~ viewBox=~0 0 20 20~ fill=~currentColor~>";
    jsq "            <path fillRule=~evenodd~ d=~M8.257 3.099c.765-1.36 2.722-1.36 3.486 0l5.58 9.92c.75 1.334-.213 2.98-1.742 2.98H4.42c-1.53 0-2.493-1.646-1.743-2.98l5.58-9.92zM11 13a1 1 0 11-2 0 1 1 0 012 0zm-1-8a1 1 0 00-1 1v3a1 1 0 002 0V6a1 1 0 00-1-1z~ clipRule=~evenodd~ />";
    js "          </svg>";
    js "        </div>";
    jsq "        <div className=~ml-3~>";
    jsq "          <h3 className=~text-sm font-medium text-yellow-800~>";
    js "            Component Generation Failed";
    js "          </h3>";
    jsq "          <div className=~mt-2 text-sm text-yellow-700~>";
    js "            <p><strong>Request:</strong> " ++ prompt ++ js "</p>";
    jsq "            <p className=~mt-1~><strong>Error:</strong> " ++ errorMessage ++ js "</p>";
    js "          </div>";
    jsq "          <div className=~mt-4~>";
    js "            <button ";
    js "              onClick={() => window.location.reload()}";
    jsq "              className=~text-sm bg-yellow-100 text-yellow-800 px-3 py-1 rounded hover:bg-yellow-200~";
    js "            >";
    js "              Try Again";
    js "            </button>";
    js "          </div>";
    js "        </div>";
    js "      </div>";
    js "    </div>";
    js "  );";
    js "};";
    [];
    js "export default FallbackComponent;";
    js "    "
  ].

Section Host.

Context {Component : Type}.

(** [String.prototype.toLowerCase] of the engine. *)
Variable toLowerCase : jsstring -> jsstring.

(** The message of the engine's SyntaxError, [Babel.transform] and the
    dynamic [import()], as the validator and the registry take them. *)
Variable nothingToRepeat : jsstring.
Variable babelTransform : jsstring -> exn + option jsstring.
Variable dynamicImport : jsstring -> BlobStore -> exn + moduleDefault Component.

(** The keywords of [extractTags], in the order of [Object.entries]. *)
Definition typeKeywords : list (jsstring * list jsstring) := [
  (js "form", [js "form"; js "input"; js "submit"; js "validation"]);
  (js "chart", [js "chart"; js "graph"; js "visualization"; js "data"; js "plot"]);
  (js "table", [js "table"; js "grid"; js "list"; js "rows"; js "columns"]);
  (js "card", [js "card"; js "widget"; js "panel"; js "display"]);
  (js "button", [js "button"; js "click"; js "action"]);
  (js "modal", [js "modal"; js "popup"; js "dialog"; js "overlay"]);
  (js "navigation", [js "nav"; js "menu"; js "navigation"; js "links"]);
  (js "dashboard", [js "dashboard"; js "metrics"; js "overview"; js "summary"])
].

(** [extractTags(prompt)]. *)
Definition extractTags (prompt : jsstring) : list jsstring :=
  let lowerPrompt := toLowerCase prompt in
  List.map fst
    (List.filter (fun entry => existsb (fun keyword => includes lowerPrompt keyword)
                                       (snd entry))
                 typeKeywords)
  ++ [js "ai-generated"].

(** [recordGenerationAttempt(panelId, attempt)]. *)
Definition recordGenerationAttempt (g : t Component) (panelId : jsstring)
    (attempt : Attempt.t) : t Component :=
  Generator_ (ollama g) (validator g) (panelRegistry g)
             (recordAttempt (generationHistory g) panelId attempt) (emitted g).

(** [emitGenerationEvent(panelId, jsxCode, component)]. *)
Definition emitGenerationEvent (g : t Component) (panelId jsxCode : jsstring)
    (component : Component) : t Component :=
  Generator_ (ollama g) (validator g) (panelRegistry g) (generationHistory g)
             (emitted g ++ [(panelId, jsxCode, component)]).

Definition withRegistry (g : t Component) (r : Registry.t Component) : t Component :=
  Generator_ (ollama g) (validator g) r (generationHistory g) (emitted g).

Definition withValidator (g : t Component) (v : CodeValidator.t) : t Component :=
  Generator_ (ollama g) v (panelRegistry g) (generationHistory g) (emitted g).

(** [handleGenerationFailure(request, panelId, error)] at clock reading
    [now]. *)
Definition handleGenerationFailure (g : t Component) (w : World)
    (request : Ollama.ComponentGenerationRequest) (panelId : jsstring) (error : exn)
    (now : Z) : (exn + generated Component) * t Component * World :=
  let fallbackJSX := createFallbackComponent (Ollama.prompt request) (message error) in
  match Registry.registerPanelFromJSX babelTransform dynamicImport (panelRegistry g) w
          panelId fallbackJSX
          (Registry.Partial None None (Some (js "ai")) None
             (Some [js "fallback"; js "error"])
             (Some (js "Fallback for: " ++ Ollama.prompt request))
             None (Some (message error)) None)
          now with
  | (inr component, r, w) =>
      (inr (Generated component panelId fallbackJSX
              (OfFallback (message error) (Ollama.prompt request))),
       withRegistry g r, w)
  | (inl fallbackError, r, w) =>
      (inl (Error (js "Generation failed and fallback failed: " ++ message error)),
       withRegistry g r, w)
  end.

(** The [try] block of [generateComponent]: what it returns or throws. *)
Definition generateBody (g : t Component) (w : World)
    (request : Ollama.ComponentGenerationRequest) (panelId : jsstring)
    (clock : readings) (response : exn + jsstring)
    : (exn + generated Component) * t Component * World :=
  if negb (Ollama.isServiceAvailable (ollama g))
  then (inl (Error (js "AI service is not available. Please ensure Ollama is running.")),
        g, w)
  else
    match Ollama.generateComponent (ollama g) request response with
    | inl e => (inl e, g, w)
    | inr jsxCode =>
        let '(validationResult, v) :=
          CodeValidator.validateJSX nothingToRepeat (validator g) jsxCode in
        let g := withValidator g v in
        if negb (CodeValidator.isValid validationResult)
        then (inl (Error (js "Code validation failed: "
                          ++ join (js ", ") (CodeValidator.errors validationResult))),
              g, w)
        else
          let finalCode :=
            match CodeValidator.sanitizedCode validationResult with
            | Some (ch :: sanitized) => ch :: sanitized
            | _ => jsxCode
            end in
          match Registry.registerPanelFromJSX babelTransform dynamicImport
                  (panelRegistry g) w panelId finalCode
                  (Registry.Partial None None (Some (js "ai")) None
                     (Some (extractTags (Ollama.prompt request)))
                     (Some (Ollama.prompt request))
                     (Ollama.panelType request) None None)
                  (registeredAt clock) with
          | (inl e, r, w) => (inl e, withRegistry g r, w)
          | (inr component, r, w) =>
              let g := withRegistry g r in
              let g :=
                recordGenerationAttempt g panelId
                  (Attempt.Make (recordedAt clock) (Ollama.prompt request)
                     (Some jsxCode) (Some finalCode) None true
                     (Some (CodeValidator.warnings validationResult))) in
              let g := emitGenerationEvent g panelId finalCode component in
              (inr (Generated component panelId finalCode
                      (OfGeneration (Ollama.prompt request) (Ollama.panelType request)
                         (CodeValidator.warnings validationResult)
                         (Ollama.getCurrentModel (ollama g)))),
               g, w)
          end
    end.

(** [generateComponent(request)], for a call that nothing interleaves
    with, given the readings of the clock and what the service answers:
    what the promise settles with, the generator and the world after
    it. *)
Definition generateComponent (g : t Component) (w : World)
    (request : Ollama.ComponentGenerationRequest) (clock : readings)
    (response : exn + jsstring)
    : (exn + generated Component) * t Component * World :=
  let panelId := Generator.generatePanelId (Ollama.prompt request) (enteredAt clock) in
  match generateBody g w request panelId clock response with
  | (inr result, g, w) => (inr result, g, w)
  | (inl error, g, w) =>
      let g :=
        recordGenerationAttempt g panelId
          (Attempt.Make (recordedAt clock) (Ollama.prompt request)
             (Some []) (Some []) (Some (message error)) false None) in
      handleGenerationFailure g w request panelId error (fallbackAt clock)
  end.

(** [regenerateComponent(panelId, newPrompt)]; its own [throw] rejects
    the promise before anything else is done. *)
Definition regenerateComponent (g : t Component) (w : World) (panelId : jsstring)
    (newPrompt : option jsstring) (clock : readings) (response : exn + jsstring)
    : (exn + generated Component) * t Component * World :=
  let history := default [] (generationHistory g !! panelId) in
  match nth_error history (length history - 1) with
  | None =>
      (inl (Error (js "No generation history found for panel: " ++ panelId)), g, w)
  | Some lastAttempt =>
      let prompt :=
        match newPrompt with
        | Some (ch :: given) => ch :: given
        | _ => Attempt.prompt lastAttempt
        end in
      let existingPanel := Registry.getPanel (panelRegistry g) panelId in
      let request :=
        Ollama.Request prompt
          (match existingPanel with
           | Some panel => Registry.panelType (Registry.metadata panel)
           | None => None
           end) in
      generateComponent g w request clock response
  end.

(** The prompt [improveComponent] makes; a description that is missing
    prints as [undefined]. *)
Definition improvementPrompt (feedback jsxCode : jsstring) (description : option jsstring)
    : jsstring :=
  join nl [
    [];
    js "Improve the following React component based on this feedback: " ++ dq
      ++ feedback ++ dq;
    [];
    js "Current component code:";
    jsxCode;
    [];
    js "Original requirement: " ++ default (js "undefined") description;
    [];
    js "Please provide an improved version that addresses the feedback while maintaining the original functionality.";
    js "    "
  ].

(** [improveComponent(panelId, feedback)]. *)
Definition improveComponent (g : t Component) (w : World) (panelId feedback : jsstring)
    (clock : readings) (response : exn + jsstring)
    : (exn + generated Component) * t Component * World :=
  match Registry.getPanel (panelRegistry g) panelId with
  | None => (inl (Error (js "Panel " ++ panelId ++ js " not found")), g, w)
  | Some existingPanel =>
      let request :=
        Ollama.Request
          (improvementPrompt feedback (Registry.jsxCode existingPanel)
             (Registry.description (Registry.metadata existingPanel)))
          (Registry.panelType (Registry.metadata existingPanel)) in
      generateComponent g w request clock response
  end.

End Host.

End AIComponentGenerator.

(** ** A host for the scenarios *)

Module Scenario.

(** A host in which every source transpiles to itself and every import
    yields a component, here named by the specifier it came from. *)
Definition babel (jsxCode : jsstring) : exn + option jsstring := inr (Some jsxCode).
Definition import (specifier : jsstring) (b : BlobStore)
    : exn + moduleDefault jsstring :=
  inr (Callable specifier).

(** No object URL handed out, no event dispatched. *)
Definition emptyWorld : World := World_ (Blobs 0 ∅) [].

(** The manager right after its constructor, without Vite. *)
Definition emptySystem : HMR.system (Component := jsstring) :=
  HMR.System (HMR.Manager ∅ ∅ false) emptyWorld [].

End Scenario.

(** ** The vocabulary of the properties *)

(** [y] is where a matcher that started at [x] can stand: further on in
    the same string. *)
Definition ahead (x y : cursor) : Prop :=
  (pos x <= pos y)%nat
  /\ (pos y + length (rest y) = pos x + length (rest x))%nat.

(** A matcher that looks at its continuation only ahead of where it
    starts. *)
Definition local (rm : (cursor -> caps -> outcome) -> cursor -> caps -> outcome) : Prop :=
  forall k k' x c,
    (forall y d, ahead x y -> k y d = k' y d) -> rm k x c = rm k' x c.

(** A matcher that fails when its continuation always fails. *)
Definition strict (rm : (cursor -> caps -> outcome) -> cursor -> caps -> outcome) : Prop :=
  forall x c, rm (fun _ _ => None) x c = None.

(** A continuation whose matches end at or after the cursor it is given. *)
Definition forward (k : cursor -> caps -> outcome) : Prop :=
  forall y d e d', k y d = Some (e, d') -> (pos y <= e)%nat.

(** The pattern without its capture groups. *)
Fixpoint ungroup (r : regex) : regex :=
  match r with
  | Seq r1 r2 => Seq (ungroup r1) (ungroup r2)
  | Alt r1 r2 => Alt (ungroup r1) (ungroup r2)
  | Star g r1 => Star g (ungroup r1)
  | Group _ r1 => ungroup r1
  | _ => r
  end.

(** Two outcomes of the matcher that end at the same index. *)
Definition sameEnd (a b : outcome) : Prop := option_map fst a = option_map fst b.

(** Where a match starts and ends. *)
Definition span (m : matched) : nat * nat := (mstart m, mend m).

(** A string matches a pattern when a search from its start finds a
    match. *)
Definition matches (p : RegExp.t) (code : jsstring) : Prop :=
  is_Some (search (pattern p) code 0).

(** The first entry of the deny-list: [/eval\s*\(/gi]. *)
Definition evalPattern : RegExp.t :=
  CodeValidator.gi "eval\s*\(" (CodeValidator.calli "eval").

(** What [validateSizeAndComplexity] leaves in [warnings] before it
    throws. *)
Definition sizeWarnings (code : jsstring) (warnings : list jsstring) : list jsstring :=
  if (200 <? Z.of_nat (length (split 10 code)))%Z
  then warnings ++ [js "Component is quite large - consider breaking it into smaller components"]
  else warnings.

(** The warnings of a call of [validateJSX] that ends in its [catch]
    block: they depend on the source only. *)
Definition warningsOf (code : jsstring) : list jsstring :=
  sizeWarnings code
    (CodeValidator.validateReactPatterns code
       (snd (CodeValidator.validateComponentStructure code []
               (snd (CodeValidator.validateImports CodeValidator.new code [] []))))).

(** The import lines [sanitizeCode] puts in front. *)
Definition safetyImports : jsstring :=
  js "import React from 'react';" ++ nl
  ++ js "import { ErrorBoundary } from 'react-error-boundary';" ++ nl ++ nl.

(** The message V8 gives the SyntaxError. *)
Definition v8NothingToRepeat : jsstring :=
  js "Invalid regular expression: /\b?\b/g: Nothing to repeat".

(** The example scenario as the specification states it: the source is
    accepted, without errors, and the sanitized code holds [X]. *)
Definition xSourceAccepted (nothingToRepeat : jsstring) : Prop :=
  let result :=
    fst (CodeValidator.validateJSX nothingToRepeat CodeValidator.new ValidatorTests.xSource) in
  CodeValidator.isValid result = true
  /\ CodeValidator.errors result = []
  /\ exists s, CodeValidator.sanitizedCode result = Some s /\ includes s (js "X") = true.

(** The value of a digit character, and of a string of digits. *)
Definition digitValue (c : N) : N := if c <? 58 then c - 48 else c - 87.

Definition valueOf (radix : N) (digits : jsstring) (v : N) : N :=
  fold_left (fun v c => v * radix + digitValue c) digits v.

(** The blob store [b'] is [b], or [b] with one object URL created. *)
Definition grownFrom (b b' : BlobStore) : Prop :=
  b' = b \/ exists text, b' = snd (createObjectURL b text).

(** The two maps of the registry hold the same identities. *)
Definition synced {Component : Type} (r : Registry.t Component) : Prop :=
  dom (Registry.panels r) = dom (Registry.componentCache r).

(** The depth of the parentheses of a text: the opening ones less the
    closing ones. *)
Definition parenDepth (s : jsstring) : Z :=
  (Z.of_nat (count_occ N.eq_dec s 40%N) - Z.of_nat (count_occ N.eq_dec s 41%N))%Z.

(** Parentheses that pair up: no closing one comes before its opening
    one, and none stays open. *)
Definition wellNested (s : jsstring) : Prop :=
  parenDepth s = 0%Z /\ forall n, (0 <= parenDepth (firstn n s))%Z.

(** A closing parenthesis that comes before its opening one. *)
Definition surplusClosing (s : jsstring) : Prop :=
  exists n, (parenDepth (firstn n s) < 0)%Z.

(** The world after [updateComponent] handed the module URL of the
    cached entry of an identity, if there is one, to
    [cleanupModuleUrl]. *)
Definition releasedOld {Component : Type} (m : HMR.t Component) (w : World)
    (panelId : jsstring) : World :=
  match HMR.componentCache m !! panelId with
  | Some oldCache =>
      match Browser.moduleUrl oldCache with
      | [] => w
      | old => withStore w (Compiler.cleanupModuleUrl (store w) old)
      end
  | None => w
  end.

(** The polynomial of a string in 31, as [String.hashCode] of Java has
    it, before any reduction. *)
Definition poly31 (chars : jsstring) (acc : Z) : Z :=
  fold_left (fun acc ch => (31 * acc + Z.of_N ch)%Z) chars acc.

(** The signed 32-bit range. *)
Definition int32 (z : Z) : Prop := (- 2 ^ 31 <= z < 2 ^ 31)%Z.

(** The last [n] elements of a list, all of it when it has fewer. *)
Definition lastN {A : Type} (n : nat) (l : list A) : list A :=
  skipn (length l - n) l.

(** A run of [recordGenerationAttempt] calls, and the attempts of the run
    that are for one identity, in the order of the calls. *)
Definition recordAll {Component : Type} (g : AIComponentGenerator.t Component)
    (calls : list (jsstring * AIComponentGenerator.Attempt.t))
    : AIComponentGenerator.t Component :=
  fold_left (fun g call =>
               AIComponentGenerator.recordGenerationAttempt g (fst call) (snd call))
            calls g.

Definition attemptsFor (panelId : jsstring)
    (calls : list (jsstring * AIComponentGenerator.Attempt.t))
    : list AIComponentGenerator.Attempt.t :=
  List.map snd (List.filter (fun call => eqs (fst call) panelId) calls).

(** The error [generateComponent] throws on for the validator's
    rejection. *)
Definition validationFailed (nothingToRepeat : jsstring) : exn :=
  Error (js "Code validation failed: Validation error: "
         ++ exnToString (SyntaxError nothingToRepeat)).

(** * Properties *)

(** ** Strings *)

Section StringFacts.

Lemma eqs_refl (a : jsstring) : eqs a a = true.
Proof.
  induction a as [|x a IH]; simpl; [reflexivity|].
  rewrite N.eqb_refl. exact IH.
Qed.

Lemma eqs_eq (a b : jsstring) : eqs a b = true <-> a = b.
Proof.
  split; [|intros ->; apply eqs_refl].
  revert b; induction a as [|x a IH]; intros [|y b]; simpl; try discriminate; auto.
  intros H. apply andb_prop in H as [Hx Hab].
  apply N.eqb_eq in Hx. f_equal; auto.
Qed.

Lemma startsWith_app (p t : jsstring) : startsWith p (p ++ t) = true.
Proof.
  induction p as [|x p IH]; simpl; [reflexivity|].
  rewrite N.eqb_refl. exact IH.
Qed.

Lemma startsWith_inv (p s : jsstring) :
  startsWith p s = true -> exists t, s = p ++ t.
Proof.
  revert s; induction p as [|x p IH]; intros s H; simpl in *.
  - exists s; reflexivity.
  - destruct s as [|y s]; [discriminate|].
    apply andb_prop in H as [Hx Hp]. apply N.eqb_eq in Hx. subst y.
    destruct (IH _ Hp) as [t ->]. exists t; reflexivity.
Qed.

(** What [includes] finds is a piece of the string, and every piece is
    found. *)
Lemma includes_infix (a p b : jsstring) : includes (a ++ p ++ b) p = true.
Proof.
  induction a as [|x a IH]; simpl.
  - destruct p as [|y p]; simpl.
    + destruct b; reflexivity.
    + rewrite N.eqb_refl, startsWith_app. reflexivity.
  - rewrite IH. apply orb_true_r.
Qed.

Lemma includes_inv (s p : jsstring) :
  includes s p = true -> exists a b, s = a ++ p ++ b.
Proof.
  induction s as [|x s IH]; simpl; intros H.
  - rewrite orb_false_r in H. apply startsWith_inv in H as [t Ht].
    exists [], t. exact Ht.
  - apply orb_prop in H as [H|H].
    + apply startsWith_inv in H as [t Ht]. exists [], t. exact Ht.
    + destruct (IH H) as (a & b & ->). exists (x :: a), b. reflexivity.
Qed.

Lemma includes_app_r (a s p : jsstring) :
  includes s p = true -> includes (a ++ s) p = true.
Proof.
  intros H. apply includes_inv in H as (u & v & ->).
  rewrite app_assoc. apply includes_infix.
Qed.

Lemma includes_app_l (s b p : jsstring) :
  includes s p = true -> includes (s ++ b) p = true.
Proof.
  intros H. apply includes_inv in H as (u & v & ->).
  rewrite <- !app_assoc. apply includes_infix.
Qed.

Lemma substring_infix (s : jsstring) (i j : nat) :
  exists a b, s = a ++ substring s i j ++ b.
Proof.
  unfold substring. exists (firstn i s), (skipn (j - i) (skipn i s)).
  rewrite firstn_skipn, firstn_skipn. reflexivity.
Qed.

Lemma trimStart_blank (s : jsstring) :
  Forall (fun c => isSpace c = true) s -> trimStart s = [].
Proof.
  induction 1 as [|c s Hc _ IH]; simpl; [reflexivity|].
  rewrite Hc. exact IH.
Qed.

(** [trim] leaves nothing of a string of white space. *)
Lemma trim_blank (s : jsstring) :
  Forall (fun c => isSpace c = true) s -> trim s = [].
Proof.
  intros H. unfold trim, trimEnd. rewrite (trimStart_blank s H). reflexivity.
Qed.

(** And only of such a string. *)
Lemma trimStart_nil_inv (s : jsstring) :
  trimStart s = [] -> Forall (fun c => isSpace c = true) s.
Proof.
  induction s as [|c s IH]; simpl; intros H; [constructor|].
  destruct (isSpace c) eqn:Hc; [|discriminate].
  constructor; auto.
Qed.

Lemma trim_nil_inv (s : jsstring) :
  trim s = [] -> Forall (fun c => isSpace c = true) s.
Proof.
  unfold trim, trimEnd. intros H.
  assert (Hr : trimStart (rev (trimStart s)) = []).
  { rewrite <- (rev_involutive (trimStart (rev (trimStart s)))), H. reflexivity. }
  apply trimStart_nil_inv in Hr.
  assert (Hs : Forall (fun c => isSpace c = true) (trimStart s)).
  { rewrite <- (rev_involutive (trimStart s)). apply Forall_rev. exact Hr. }
  clear H Hr. induction s as [|c s IH]; simpl in *; [constructor|].
  destruct (isSpace c) eqn:Hc.
  - constructor; auto.
  - exfalso. inversion Hs; congruence.
Qed.

End StringFacts.

(** *** The fuel of the matcher is enough *)

Section MatcherFuel.

Lemma ahead_refl (x : cursor) : ahead x x.
Proof. split; reflexivity. Qed.

Lemma ahead_trans (x y z : cursor) : ahead x y -> ahead y z -> ahead x z.
Proof. unfold ahead. lia. Qed.

Lemma starLoop_local rm (g : bool) (fuel : nat) :
  local rm ->
  forall k k' x c,
    (forall y d, ahead x y -> k y d = k' y d) ->
    starLoop rm g k fuel x c = starLoop rm g k' fuel x c.
Proof.
  intros Hrm. induction fuel as [|fuel IH]; intros k k' x c Hk; cbn [starLoop].
  - apply Hk, ahead_refl.
  - rewrite (Hk x c (ahead_refl x)).
    rewrite (Hrm _ (fun y c' => if Nat.eqb (pos y) (pos x) then None
                                else starLoop rm g k' fuel y c') x c); [reflexivity|].
    intros y d Hy. destruct (Nat.eqb (pos y) (pos x)); [reflexivity|].
    apply IH. intros z e Hz. apply Hk. eapply ahead_trans; eauto.
Qed.

Lemma rmatch_local (r : regex) : local (rmatch r).
Proof.
  induction r as [|p|r1 IH1 r2 IH2|r1 IH1 r2 IH2|g r1 IH1|n r1 IH1| |m|m];
    intros k k' x c Hk; cbn [rmatch].
  - apply Hk, ahead_refl.
  - destruct (rest x) as [|ch tl] eqn:Hrest; [reflexivity|].
    destruct (p ch); [|reflexivity].
    apply Hk. unfold ahead. rewrite Hrest. simpl. lia.
  - apply IH1. intros y d Hy. apply IH2. intros z e Hz.
    apply Hk. eapply ahead_trans; eauto.
  - rewrite (IH1 k k' x c Hk), (IH2 k k' x c Hk). reflexivity.
  - apply starLoop_local; assumption.
  - apply IH1. intros y d Hy. apply Hk, Hy.
  - rewrite (Hk x c (ahead_refl x)). reflexivity.
  - rewrite (Hk x c (ahead_refl x)). reflexivity.
  - rewrite (Hk x c (ahead_refl x)). reflexivity.
Qed.

Lemma starLoop_strict rm (g : bool) (fuel : nat) :
  local rm -> strict rm ->
  forall x c, starLoop rm g (fun _ _ => None) fuel x c = None.
Proof.
  intros Hlocal Hstrict. induction fuel as [|fuel IH]; intros x c; cbn [starLoop].
  - reflexivity.
  - rewrite (Hlocal _ (fun _ _ => None) x c).
    + rewrite Hstrict. destruct g; reflexivity.
    + intros y d _. destruct (Nat.eqb (pos y) (pos x)); [reflexivity|apply IH].
Qed.

Lemma rmatch_strict (r : regex) : strict (rmatch r).
Proof.
  induction r as [|p|r1 IH1 r2 IH2|r1 IH1 r2 IH2|g r1 IH1|n r1 IH1| |m|m];
    intros x c; cbn [rmatch].
  - reflexivity.
  - destruct (rest x) as [|ch tl]; [reflexivity|]. destruct (p ch); reflexivity.
  - rewrite (rmatch_local r1 _ (fun _ _ => None) x c); [apply IH1|].
    intros y d _. apply IH2.
  - rewrite IH1. apply IH2.
  - apply starLoop_strict; [apply rmatch_local|assumption].
  - apply IH1.
  - destruct (xorb _ _); reflexivity.
  - destruct (isLineStart m x); reflexivity.
  - destruct (isLineEnd m x); reflexivity.
Qed.

(** One more unit of fuel than there are units left changes nothing. *)
Lemma starLoop_fuel rm (g : bool) (k : cursor -> caps -> outcome) :
  local rm -> strict rm ->
  forall fuel x c,
    (length (rest x) <= fuel)%nat ->
    starLoop rm g k (S fuel) x c = starLoop rm g k fuel x c.
Proof.
  intros Hlocal Hstrict. induction fuel as [|fuel IH]; intros x c Hlen.
  - cbn [starLoop].
    rewrite (Hlocal _ (fun _ _ => None) x c).
    + rewrite Hstrict. destruct g; [reflexivity|]. destruct (k x c); reflexivity.
    + intros y d [Hle Hsum].
      destruct (Nat.eqb_spec (pos y) (pos x)); [reflexivity|]. lia.
  - change (starLoop rm g k (S (S fuel)) x c)
      with (let again :=
              rm (fun y c' => if Nat.eqb (pos y) (pos x) then None
                              else starLoop rm g k (S fuel) y c') in
            if g then match again x c with Some y => Some y | None => k x c end
            else match k x c with Some y => Some y | None => again x c end).
    change (starLoop rm g k (S fuel) x c)
      with (let again :=
              rm (fun y c' => if Nat.eqb (pos y) (pos x) then None
                              else starLoop rm g k fuel y c') in
            if g then match again x c with Some y => Some y | None => k x c end
            else match k x c with Some y => Some y | None => again x c end).
    cbv zeta.
    rewrite (Hlocal _ (fun y c' => if Nat.eqb (pos y) (pos x) then None
                                   else starLoop rm g k fuel y c') x c); [reflexivity|].
    intros y d [Hle Hsum].
    destruct (Nat.eqb_spec (pos y) (pos x)); [reflexivity|].
    apply IH. lia.
Qed.

(** The star of [rmatch] gives what any larger fuel gives. *)
Lemma star_fuel_enough (g : bool) (r : regex) (k : cursor -> caps -> outcome)
    (x : cursor) (c : caps) (extra : nat) :
  starLoop (rmatch r) g k (length (rest x) + extra) x c = rmatch (Star g r) k x c.
Proof.
  cbn [rmatch]. induction extra as [|extra IH].
  - rewrite Nat.add_0_r. reflexivity.
  - rewrite Nat.add_succ_r, <- IH.
    apply starLoop_fuel; [apply rmatch_local|apply rmatch_strict|lia].
Qed.

End MatcherFuel.

Section MatchAllFuel.

Lemma starLoop_forward rm (g : bool) (k : cursor -> caps -> outcome) (fuel : nat) :
  (forall k', forward k' -> forward (rm k')) ->
  forward k -> forward (starLoop rm g k fuel).
Proof.
  intros Hrm Hk. induction fuel as [|fuel IH]; intros x c e c'; cbn [starLoop].
  - apply Hk.
  - assert (Hagain : forward (rm (fun y d => if Nat.eqb (pos y) (pos x) then None
                                             else starLoop rm g k fuel y d))).
    { apply Hrm. intros y d e0 d0.
      destruct (Nat.eqb (pos y) (pos x)); [discriminate|apply IH]. }
    destruct g.
    + destruct (rm _ x c) as [[e1 c1]|] eqn:H1.
      * intros H; injection H as <- <-. exact (Hagain _ _ _ _ H1).
      * apply Hk.
    + destruct (k x c) as [[e1 c1]|] eqn:H1.
      * intros H; injection H as <- <-. exact (Hk _ _ _ _ H1).
      * apply Hagain.
Qed.

Lemma rmatch_forward (r : regex) :
  forall k, forward k -> forward (rmatch r k).
Proof.
  induction r as [|p|r1 IH1 r2 IH2|r1 IH1 r2 IH2|g r1 IH1|n r1 IH1| |m|m];
    intros k Hk x c e c'; cbn [rmatch].
  - apply Hk.
  - destruct (rest x) as [|ch tl]; [discriminate|].
    destruct (p ch); [|discriminate].
    intros H. apply Hk in H. simpl in H. lia.
  - apply IH1, IH2, Hk.
  - destruct (rmatch r1 k x c) as [[e1 c1]|] eqn:H1.
    + intros H; injection H as <- <-. exact (IH1 k Hk _ _ _ _ H1).
    + apply IH2, Hk.
  - apply starLoop_forward; assumption.
  - intros H. pose proof (IH1 (fun y d => k y ((n, (pos x, pos y)) :: d))) as IH.
    eapply IH; [|exact H]. intros y d e0 d0. apply Hk.
  - destruct (xorb _ _); [apply Hk|discriminate].
  - destruct (isLineStart m x); [apply Hk|discriminate].
  - destruct (isLineEnd m x); [apply Hk|discriminate].
Qed.

Lemma searchFrom_span (r : regex) (l : jsstring) :
  forall i pv m, searchFrom r i pv l = Some m ->
                 (i <= mstart m)%nat /\ (mstart m <= mend m)%nat.
Proof.
  assert (Hat : forall x m, matchAt r x = Some m ->
                            mstart m = pos x /\ (pos x <= mend m)%nat).
  { intros x m. unfold matchAt.
    destruct (rmatch r _ x []) as [[e c]|] eqn:H; [|discriminate].
    intros Hm; injection Hm as <-. simpl. split; [reflexivity|].
    eapply (rmatch_forward r (fun y c0 => Some (pos y, c0))); [|exact H].
    intros y d e0 d0 H0; injection H0 as <- _. reflexivity. }
  induction l as [|ch tl IH]; intros i pv m; simpl.
  - destruct (matchAt r _) as [m0|] eqn:H; [|discriminate].
    intros Hm; injection Hm as <-. apply Hat in H. simpl in H. lia.
  - destruct (matchAt r _) as [m0|] eqn:H.
    + intros Hm; injection Hm as <-. apply Hat in H. simpl in H. lia.
    + intros Hm. apply IH in Hm. lia.
Qed.

(** A search from index [i] finds a match that starts at [i] or later and
    does not end before it starts. *)
Lemma search_span (r : regex) (s : jsstring) (i : nat) (m : matched) :
  search r s i = Some m -> (i <= mstart m)%nat /\ (mstart m <= mend m)%nat.
Proof. unfold search. apply searchFrom_span. Qed.

Lemma matchAllFrom_fuel (r : regex) (s : jsstring) :
  forall fuel i,
    (S (S (length s)) <= fuel + i)%nat ->
    matchAllFrom (S fuel) r s i = matchAllFrom fuel r s i.
Proof.
  induction fuel as [|fuel IH]; intros i Hi.
  - cbn [matchAllFrom]. destruct (Nat.ltb_spec (length s) i); [reflexivity|lia].
  - change (matchAllFrom (S (S fuel)) r s i)
      with (if Nat.ltb (length s) i then []
            else match search r s i with
                 | None => []
                 | Some m =>
                     m :: matchAllFrom (S fuel) r s
                            (if Nat.eqb (mend m) (mstart m) then S (mend m) else mend m)
                 end).
    change (matchAllFrom (S fuel) r s i)
      with (if Nat.ltb (length s) i then []
            else match search r s i with
                 | None => []
                 | Some m =>
                     m :: matchAllFrom fuel r s
                            (if Nat.eqb (mend m) (mstart m) then S (mend m) else mend m)
                 end).
    destruct (Nat.ltb (length s) i); [reflexivity|].
    destruct (search r s i) as [m|] eqn:Hm; [|reflexivity].
    apply search_span in Hm as [H1 H2]. f_equal. apply IH.
    destruct (Nat.eqb_spec (mend m) (mstart m)); lia.
Qed.

(** [matchAll] gives what any larger fuel gives: it enumerates every
    match. *)
Lemma matchAll_fuel_enough (r : regex) (s : jsstring) (extra : nat) :
  matchAllFrom (S (S (length s)) + extra) r s 0 = matchAll r s.
Proof.
  unfold matchAll. induction extra as [|extra IH].
  - rewrite Nat.add_0_r. reflexivity.
  - rewrite Nat.add_succ_r, <- IH. apply matchAllFrom_fuel. lia.
Qed.

End MatchAllFuel.

(** *** The matcher on examples *)

Section MatcherExamples.

Import CodeValidator.

(** [on\w+\s*=] finds an inline handler; [\w+] gives back what the rest
    of the pattern needs. *)
Example handler_found :
  search (seqs [liti "on"; plus w_; star s_; lit "="]) (js "<a onClick = {f}>") 0
  = Some (Matched 3 12 []).
Proof. vm_compute. reflexivity. Qed.

(** A lazy star stops at the first [>], a greedy one at the last [eval]. *)
Example lazy_stops_early :
  search (tagi "<script") (js "a<SCRIPT x>b>") 0 = Some (Matched 1 11 []).
Proof. vm_compute. reflexivity. Qed.

Example greedy_goes_on :
  search (seqs [liti "setTimeout"; star dot_; liti "eval"]) (js "setTimeout eval eval.") 0
  = Some (Matched 0 20 []).
Proof. vm_compute. reflexivity. Qed.

(** [$] under flag m holds before a line feed. *)
Example export_line_found :
  matchLit exportMatchRegex (js "const A = 1;" ++ nl ++ js "export default A" ++ nl ++ js "// end")
  = Some (Matched 13 29 [(1, (28, 29))%nat]).
Proof. vm_compute. reflexivity. Qed.

(** A global expression resumes at [lastIndex]: the second [test] of the
    same string misses the only match and puts [lastIndex] back to 0. *)
Example test_moves_lastIndex :
  let first := test evalPattern ValidatorTests.evalSource in
  let second := test (snd first) ValidatorTests.evalSource in
  fst first = true /\ lastIndex (snd first) = 5%nat
  /\ fst second = false /\ lastIndex (snd second) = 0%nat.
Proof. vm_compute. auto. Qed.

(** The pattern of the keyword [||] matches the empty string at every
    index. *)
Example bars_match_everywhere :
  List.map span (matchAll (Alt WordB (Alt Empty WordB)) (js "a b"))
  = [(0, 0); (1, 1); (2, 2); (3, 3)]%nat.
Proof. vm_compute. reflexivity. Qed.

End MatcherExamples.

(** *** Printing numbers *)

Section Digits.

Lemma digitValue_digitChar (d : N) : d < 16 -> digitValue (digitChar d) = d.
Proof.
  intros Hd. unfold digitValue, digitChar.
  destruct (N.ltb_spec d 10).
  - destruct (N.ltb_spec (48 + d) 58); lia.
  - destruct (N.ltb_spec (87 + d) 58); lia.
Qed.

Lemma digitChar_not_dash (d : N) : d < 16 -> digitChar d <> 45.
Proof. intros Hd. unfold digitChar. destruct (N.ltb_spec d 10); lia. Qed.

Lemma pos_lt_pow_size (p : positive) : N.pos p < 2 ^ N.of_nat (Pos.size_nat p).
Proof.
  induction p as [p IH|p IH|]; cbn [Pos.size_nat];
    rewrite ?Nat2N.inj_succ, ?N.pow_succ_r'; simpl N.of_nat; lia.
Qed.

Lemma lt_pow_size (n : N) : n < 2 ^ N.of_nat (S (N.size_nat n)).
Proof.
  rewrite Nat2N.inj_succ, N.pow_succ_r'. destruct n as [|p]; simpl N.size_nat.
  - simpl. lia.
  - pose proof (pos_lt_pow_size p). lia.
Qed.

(** With fuel for every bit of [n], [digitsOf] puts in front of [acc]
    digits that are worth [n] and hold no dash. *)
Lemma digitsOf_spec (radix : N) (fuel : nat) :
  2 <= radix -> radix <= 16 ->
  forall n acc, n < 2 ^ N.of_nat fuel ->
    exists ds, digitsOf fuel radix n acc = ds ++ acc
               /\ (forall v, valueOf radix ds v = v * radix ^ N.of_nat (length ds) + n)
               /\ Forall (fun c => c <> 45) ds.
Proof.
  intros Hlo Hhi. induction fuel as [|fuel IH]; intros n acc Hn.
  - exists []. simpl in *. split; [reflexivity|]. split; [intros v; lia|constructor].
  - cbn [digitsOf].
    assert (Hmod : n mod radix < radix) by (apply N.mod_lt; lia).
    pose proof (N.div_mod n radix ltac:(lia)) as Hdiv.
    destruct (N.eqb_spec (n / radix) 0) as [Hz|Hnz].
    + exists [digitChar (n mod radix)]. split; [reflexivity|]. split.
      * intros v. unfold valueOf. simpl.
        rewrite digitValue_digitChar by lia. rewrite Hz in Hdiv. lia.
      * constructor; [apply digitChar_not_dash; lia|constructor].
    + assert (Hq : n / radix < 2 ^ N.of_nat fuel).
      { rewrite Nat2N.inj_succ, N.pow_succ_r' in Hn.
        apply N.Div0.div_lt_upper_bound. nia. }
      destruct (IH (n / radix) (digitChar (n mod radix) :: acc) Hq) as (ds & Heq & Hval & Hds).
      exists (ds ++ [digitChar (n mod radix)]). split; [|split].
      * rewrite Heq, <- app_assoc. reflexivity.
      * intros v. unfold valueOf in *. rewrite fold_left_app, Hval. simpl.
        rewrite digitValue_digitChar by lia.
        rewrite length_app, Nat2N.inj_add, N.pow_add_r. simpl N.of_nat.
        rewrite N.pow_1_r. nia.
      * apply Forall_app. split; [exact Hds|].
        constructor; [apply digitChar_not_dash; lia|constructor].
Qed.

(** A number that is not negative is printed without a dash, and can be
    read back from its digits. *)
Lemma numberToString_spec (radix : N) (n : Z) :
  2 <= radix -> radix <= 16 -> (0 <= n)%Z ->
  valueOf radix (numberToString radix n) 0 = Z.to_N n
  /\ Forall (fun c => c <> 45) (numberToString radix n).
Proof.
  intros Hlo Hhi Hn. unfold numberToString.
  destruct (Z.ltb_spec n 0); [lia|].
  destruct (digitsOf_spec radix (S (N.size_nat (Z.abs_N n))) Hlo Hhi (Z.abs_N n) []
              (lt_pow_size _)) as (ds & -> & Hval & Hds).
  rewrite app_nil_r. split; [|exact Hds].
  rewrite Hval. rewrite Zabs2N.abs_N_nonneg by lia. lia.
Qed.

Lemma numberToString_inj (radix : N) (n1 n2 : Z) :
  2 <= radix -> radix <= 16 -> (0 <= n1)%Z -> (0 <= n2)%Z ->
  numberToString radix n1 = numberToString radix n2 -> n1 = n2.
Proof.
  intros Hlo Hhi H1 H2 Heq.
  pose proof (proj1 (numberToString_spec radix n1 Hlo Hhi H1)) as V1.
  pose proof (proj1 (numberToString_spec radix n2 Hlo Hhi H2)) as V2.
  rewrite Heq in V1. lia.
Qed.

(** Two strings cut at their first dash are equal piece by piece. *)
Lemma split_at_dash (h1 h2 d1 d2 : jsstring) :
  Forall (fun c => c <> 45) h1 -> Forall (fun c => c <> 45) h2 ->
  h1 ++ 45 :: d1 = h2 ++ 45 :: d2 -> h1 = h2 /\ d1 = d2.
Proof.
  intros F1. revert h2. induction F1 as [|c h1 Hc _ IH]; intros h2 F2 Heq.
  - destruct F2 as [|c' h2 Hc' _]; simpl in Heq.
    + injection Heq as ->. auto.
    + injection Heq as Hc'' _. congruence.
  - destruct F2 as [|c' h2 Hc' F2]; simpl in Heq.
    + injection Heq as Hc'' _. congruence.
    + injection Heq as -> Heq. destruct (IH h2 F2 Heq) as [-> ->]. auto.
Qed.

End Digits.

(** ** The compiler *)

(** C7.  For every source that is empty or holds white space only, and
    every identity, [compileComponent] does not throw: its promise is
    fulfilled with a failure result, [success] false and the error
    [JSX code cannot be empty], without a module URL; the blob store is
    the one before the call, so no object URL was created. *)
Theorem compileComponent_blank_source
    (babelTransform : jsstring -> exn + option jsstring) (b : BlobStore)
    (jsxCode componentName : jsstring) :
  Forall (fun c => isSpace c = true) jsxCode ->
  Compiler.compileComponent babelTransform b jsxCode componentName
  = (inr (Compiler.Compilation false None None
            (Some (Error (js "JSX code cannot be empty"))) None), b).
Proof.
  intros Hblank. unfold Compiler.compileComponent, Compiler.compileBody.
  rewrite (trim_blank jsxCode Hblank). reflexivity.
Qed.

Lemma compileComponent_blank_source_witness :
  Forall (fun c => isSpace c = true) (js "  " ++ nl)
  /\ Compiler.compileComponent (fun s => inr (Some s)) (Blobs 0 ∅)
       (js "  " ++ nl) (js "panel-1")
     = (inr (Compiler.Compilation false None None
               (Some (Error (js "JSX code cannot be empty"))) None), Blobs 0 ∅).
Proof.
  split.
  - repeat constructor.
  - apply compileComponent_blank_source. repeat constructor.
Defined.

(** The compiler never rejects its promise: what the body throws is
    turned into a failure result. *)
Lemma compileComponent_fulfilled
    (babelTransform : jsstring -> exn + option jsstring) (b : BlobStore)
    (jsxCode componentName : jsstring) :
  exists result b',
    Compiler.compileComponent babelTransform b jsxCode componentName = (inr result, b').
Proof.
  unfold Compiler.compileComponent.
  destruct (Compiler.compileBody babelTransform b jsxCode componentName) as [[e|r] b'];
    eauto.
Qed.

(** ** The validator *)

Section ValidatorFacts.

Import CodeValidator.

Variable nothingToRepeat : jsstring.

Lemma keywordRegExp_plain (keyword : jsstring) :
  eqs keyword (js "?") = false ->
  exists r, keywordRegExp nothingToRepeat keyword = inr r.
Proof.
  intros H. unfold keywordRegExp. rewrite H.
  destruct (eqs keyword (js "||")); eauto.
Qed.

Lemma complexityLoop_throw_at (pre post : list jsstring) (keyword code : jsstring) (e : exn) :
  forallb (fun k => negb (eqs k (js "?"))) pre = true ->
  keywordRegExp nothingToRepeat keyword = inl e ->
  forall complexity,
    complexityLoop nothingToRepeat (pre ++ keyword :: post) code complexity = inl e.
Proof.
  intros Hpre Hkw. induction pre as [|k pre IH]; intros complexity; simpl.
  - rewrite Hkw. reflexivity.
  - simpl in Hpre. apply andb_prop in Hpre as [Hk Hpre].
    apply negb_true_iff in Hk.
    destruct (keywordRegExp_plain k Hk) as [r ->]. apply IH. exact Hpre.
Qed.

(** The loop over the complexity keywords never reaches its end: the
    pattern built from the last keyword is refused by the constructor. *)
Lemma complexityLoop_throws (code : jsstring) (complexity : Z) :
  complexityLoop nothingToRepeat complexityKeywords code complexity
  = inl (SyntaxError nothingToRepeat).
Proof.
  change complexityKeywords
    with ([js "if"; js "else"; js "while"; js "for"; js "switch"; js "case";
           js "&&"; js "||"] ++ js "?" :: []).
  apply complexityLoop_throw_at; reflexivity.
Qed.

Lemma validateSizeAndComplexity_throws (code : jsstring) (warnings : list jsstring) :
  validateSizeAndComplexity nothingToRepeat code warnings
  = (sizeWarnings code warnings, Some (SyntaxError nothingToRepeat)).
Proof.
  unfold validateSizeAndComplexity. rewrite complexityLoop_throws. reflexivity.
Qed.

Lemma importLoop_warnings (v v' : CodeValidator.t) (code : jsstring) (ms : list matched)
    (e e' w : list jsstring) :
  snd (importLoop v code ms e w) = snd (importLoop v' code ms e' w).
Proof.
  revert e e' w. induction ms as [|m ms IH]; intros e e' w; simpl; [reflexivity|].
  apply IH.
Qed.

Lemma validateComponentStructure_warnings (code : jsstring) (e e' w : list jsstring) :
  snd (validateComponentStructure code e w) = snd (validateComponentStructure code e' w).
Proof. reflexivity. Qed.

(** Every call of [validateJSX] ends in its [catch] block: the result is
    a rejection whose only error is the SyntaxError of the complexity
    check, whatever the checks before it pushed. *)
Lemma validateJSX_caught (v : CodeValidator.t) (code : jsstring) :
  fst (validateJSX nothingToRepeat v code)
  = Result false [js "Validation error: " ++ exnToString (SyntaxError nothingToRepeat)]
           (warningsOf code) None.
Proof.
  unfold validateJSX.
  destruct (checkForbiddenPatterns v code _) as [v1 e1].
  destruct (validateImports v1 code e1 []) as [e2 w2] eqn:Himports.
  destruct (validateComponentStructure code e2 w2) as [e3 w3] eqn:Hstructure.
  rewrite validateSizeAndComplexity_throws. simpl. f_equal.
  unfold warningsOf. f_equal. f_equal.
  change w3 with (snd (e3, w3)). rewrite <- Hstructure.
  change w2 with (snd (e2, w2)). rewrite <- Himports.
  unfold validateImports.
  rewrite (importLoop_warnings v1 CodeValidator.new code _ e1 [] []).
  apply validateComponentStructure_warnings.
Qed.

(** So no result of [validateJSX] names a forbidden pattern. *)
Lemma validateJSX_names_no_pattern (v : CodeValidator.t) (code : jsstring) (p : RegExp.t) :
  ~ In (forbiddenEntry p) (errors (fst (validateJSX nothingToRepeat v code))).
Proof.
  rewrite validateJSX_caught. cbn [errors]. intros [H|[]].
  unfold forbiddenEntry in H. vm_compute in H. discriminate H.
Qed.

End ValidatorFacts.

(** C2.  Two calls of [validateJSX] in a row on the same string and the
    same validator give the same result: the same [isValid], the same
    [errors], the same [warnings] (and the same [sanitizedCode]).  The
    second call runs on the validator the first one left behind. *)
Theorem validateJSX_twice_same_result
    (nothingToRepeat : jsstring) (v : CodeValidator.t) (code : jsstring) :
  let first := CodeValidator.validateJSX nothingToRepeat v code in
  let second := CodeValidator.validateJSX nothingToRepeat (snd first) code in
  fst second = fst first.
Proof.
  intros first second. unfold second, first.
  rewrite !validateJSX_caught. reflexivity.
Qed.

(** *** Groups do not move a match *)

Section Ungroup.

Lemma sameEnd_orElse (a a' b b' : option (nat * caps)) :
  sameEnd a a' -> sameEnd b b' ->
  sameEnd (match a with Some y => Some y | None => b end)
          (match a' with Some y => Some y | None => b' end).
Proof.
  unfold sameEnd. destruct a, a'; simpl; intros Ha Hb; try discriminate; auto.
Qed.

Lemma rmatch_ungroup (r : regex) :
  forall k k',
    (forall y c c', sameEnd (k y c) (k' y c')) ->
    forall x c c', sameEnd (rmatch r k x c) (rmatch (ungroup r) k' x c').
Proof.
  induction r as [|p|r1 IH1 r2 IH2|r1 IH1 r2 IH2|g r1 IH1|n r1 IH1| |m|m];
    intros k k' Hk x c c'; simpl.
  - apply Hk.
  - destruct (rest x) as [|ch tl]; [reflexivity|].
    destruct (p ch); [apply Hk|reflexivity].
  - apply IH1. intros y d d'. apply IH2. exact Hk.
  - apply sameEnd_orElse; [apply IH1|apply IH2]; exact Hk.
  - generalize (length (rest x)) as fuel. intros fuel.
    revert x c c'. induction fuel as [|fuel IHfuel]; intros x c c'; cbn [starLoop].
    + apply Hk.
    + destruct g.
      * apply sameEnd_orElse; [|apply Hk].
        apply IH1. intros y d d'.
        destruct (Nat.eqb (pos y) (pos x)); [reflexivity|apply IHfuel].
      * apply sameEnd_orElse; [apply Hk|].
        apply IH1. intros y d d'.
        destruct (Nat.eqb (pos y) (pos x)); [reflexivity|apply IHfuel].
  - apply IH1. intros y d d'. apply Hk.
  - destruct (xorb _ _); [apply Hk|reflexivity].
  - destruct (isLineStart m x); [apply Hk|reflexivity].
  - destruct (isLineEnd m x); [apply Hk|reflexivity].
Qed.

Lemma matchAt_ungroup (r : regex) (x : cursor) :
  option_map span (matchAt r x) = option_map span (matchAt (ungroup r) x).
Proof.
  unfold matchAt.
  pose proof (rmatch_ungroup r (fun y c => Some (pos y, c)) (fun y c => Some (pos y, c))
                (fun y c c' => eq_refl) x [] []) as H.
  unfold sameEnd in H.
  destruct (rmatch r _ x []) as [[e d]|], (rmatch (ungroup r) _ x []) as [[e' d']|];
    unfold span; simpl in *; congruence.
Qed.

Lemma searchFrom_ungroup (r : regex) (l : jsstring) :
  forall i pv, option_map span (searchFrom r i pv l) = option_map span (searchFrom (ungroup r) i pv l).
Proof.
  induction l as [|ch tl IH]; intros i pv; simpl.
  - pose proof (matchAt_ungroup r (Cursor i pv [])) as H.
    destruct (matchAt r _), (matchAt (ungroup r) _); simpl in *; congruence.
  - pose proof (matchAt_ungroup r (Cursor i pv (ch :: tl))) as H.
    destruct (matchAt r _), (matchAt (ungroup r) _); simpl in *;
      solve [congruence | apply IH].
Qed.

(** A pattern and the same pattern without its groups find the same
    stretch of the string. *)
Lemma search_ungroup (r : regex) (s : jsstring) (i : nat) (m : matched) :
  search r s i = Some m ->
  exists m', search (ungroup r) s i = Some m' /\ mstart m' = mstart m /\ mend m' = mend m.
Proof.
  unfold search. intros H.
  pose proof (searchFrom_ungroup r (rest (cursorAt s i)) (pos (cursorAt s i))
                (prev (cursorAt s i))) as Hs.
  rewrite H in Hs. simpl in Hs.
  destruct (searchFrom (ungroup r) _ _ _) as [m'|]; [|discriminate].
  exists m'. simpl in Hs. unfold span in Hs. split; [reflexivity|]. split; congruence.
Qed.

End Ungroup.

(** *** Sanitization *)

Section SanitizeFacts.

Import CodeValidator.

Lemma exportReplaceRegex_ungroup : exportReplaceRegex = ungroup exportMatchRegex.
Proof. reflexivity. Qed.

Lemma safeComponentText_name (originalComponent componentName : jsstring) :
  includes (safeComponentText originalComponent componentName) componentName = true.
Proof.
  unfold safeComponentText. cbn [join].
  rewrite <- !app_assoc.
  rewrite (app_assoc (js "const ")), (app_assoc _ (js " = ")).
  apply includes_infix.
Qed.

(** With an export statement found, [wrapWithErrorBoundary] puts the
    wrapper text in its place and keeps what is before and after it. *)
Lemma wrapWithErrorBoundary_found (code name : jsstring) (m : matched) :
  matchLit exportMatchRegex code = Some m ->
  capture code m 1 = Some name ->
  wrapWithErrorBoundary code
  = firstn (mstart m) code
    ++ safeComponentText (js "Original" ++ name) name
    ++ skipn (mend m) code.
Proof.
  intros Hm Hname. unfold wrapWithErrorBoundary. rewrite Hm, Hname. simpl default.
  unfold replaceFirst. rewrite exportReplaceRegex_ungroup.
  destruct (search_ungroup _ _ _ _ Hm) as (m' & -> & -> & ->). reflexivity.
Qed.

Lemma sanitizeCode_cases (code : jsstring) :
  sanitizeCode code = wrapWithErrorBoundary code
  \/ sanitizeCode code = safetyImports ++ wrapWithErrorBoundary code.
Proof.
  unfold sanitizeCode, safetyImports.
  destruct (includes _ _); simpl negb; cbv iota; [left; reflexivity|right].
  rewrite <- !app_assoc. reflexivity.
Qed.

(** Without an export statement the source is returned as it is, behind
    the import lines if it lacks them. *)
Lemma sanitizeCode_no_export (code : jsstring) :
  matchLit exportMatchRegex code = None ->
  sanitizeCode code = code \/ sanitizeCode code = safetyImports ++ code.
Proof.
  intros Hm. destruct (sanitizeCode_cases code) as [H|H]; rewrite H;
    unfold wrapWithErrorBoundary; rewrite Hm; auto.
Qed.

(** What [validateJSX] hands out as [sanitizedCode] is [sanitizeCode] of
    the source. *)
Lemma validateJSX_sanitizedCode (nothingToRepeat : jsstring) (v : CodeValidator.t)
    (code s : jsstring) :
  sanitizedCode (fst (validateJSX nothingToRepeat v code)) = Some s ->
  s = sanitizeCode code.
Proof.
  unfold validateJSX.
  destruct (checkForbiddenPatterns v code _) as [v1 e1].
  destruct (validateImports v1 code e1 []) as [e2 w2].
  destruct (validateComponentStructure code e2 w2) as [e3 w3].
  destruct (validateSizeAndComplexity _ _ _) as [w4 [e|]]; simpl; [discriminate|].
  destruct (0 <? _)%Z; simpl; congruence.
Qed.

End SanitizeFacts.


(** *** The forbidden patterns *)

Section ForbiddenFacts.

Import CodeValidator.

Lemma checkPatterns_keeps (pats : list RegExp.t) (code e : jsstring)
    (errors : list jsstring) :
  In e errors -> In e (snd (checkPatterns pats code errors)).
Proof.
  revert errors. induction pats as [|p pats IH]; intros errors He; simpl; [exact He|].
  destruct (test p code) as [found p'].
  specialize (IH (if found then errors ++ [forbiddenEntry p] else errors)).
  destruct (checkPatterns pats code _) as [pats'' errors'']. simpl in *.
  apply IH. destruct found; [apply in_or_app; left|]; exact He.
Qed.

Lemma test_fresh (p : RegExp.t) (code : jsstring) :
  lastIndex p = 0%nat -> matches p code -> fst (test p code) = true.
Proof.
  intros Hli [m Hm]. unfold test, exec. rewrite Hli.
  destruct (global p); simpl; rewrite Hm; reflexivity.
Qed.

(** On patterns whose [lastIndex] is 0, as the constructor leaves them,
    the loop of [checkForbiddenPatterns] reports every pattern the source
    matches. *)
Lemma checkPatterns_fresh (pats : list RegExp.t) (code : jsstring)
    (errors : list jsstring) (p : RegExp.t) :
  Forall (fun q => lastIndex q = 0%nat) pats ->
  In p pats -> matches p code ->
  In (forbiddenEntry p) (snd (checkPatterns pats code errors)).
Proof.
  intros Hfresh. revert errors.
  induction Hfresh as [|q pats Hq _ IH]; intros errors Hin Hm; [destruct Hin|].
  simpl. destruct (test q code) as [found q'] eqn:Htest.
  destruct Hin as [->|Hin].
  - pose proof (test_fresh p code Hq Hm) as Hfound. rewrite Htest in Hfound.
    simpl in Hfound. subst found.
    pose proof (checkPatterns_keeps pats code (forbiddenEntry p)
                  (errors ++ [forbiddenEntry p])) as Hkeep.
    destruct (checkPatterns pats code _) as [pats'' errors'']. simpl in *.
    apply Hkeep, in_or_app. right. left. reflexivity.
  - specialize (IH (if found then errors ++ [forbiddenEntry q] else errors) Hin Hm).
    destruct (checkPatterns pats code _) as [pats'' errors'']. exact IH.
Qed.

Lemma new_patterns_fresh :
  Forall (fun q => lastIndex q = 0%nat) (forbiddenPatterns CodeValidator.new).
Proof. repeat constructor. Qed.

End ForbiddenFacts.

(** C1.  The source of the example, [eval] applied to the string literal
    [1+1], on a validator fresh from its constructor.  The eval pattern
    is on the deny-list and matches the source, and
    [checkForbiddenPatterns] pushes its entry; yet the result of
    [validateJSX], a rejection, has one error, the SyntaxError of the
    complexity check, and the entry of the eval pattern is not in its
    list.  On the validator the first call left behind,
    [checkForbiddenPatterns] itself no longer finds the pattern in the
    same source. *)
Theorem validateJSX_eval_entry_missing (nothingToRepeat : jsstring) :
  let source := ValidatorTests.evalSource in
  let result := fst (CodeValidator.validateJSX nothingToRepeat CodeValidator.new source) in
  let used := snd (CodeValidator.validateJSX nothingToRepeat CodeValidator.new source) in
  In evalPattern (CodeValidator.forbiddenPatterns CodeValidator.new)
  /\ matches evalPattern source
  /\ snd (CodeValidator.checkForbiddenPatterns CodeValidator.new source [])
     = [CodeValidator.forbiddenEntry evalPattern]
  /\ CodeValidator.isValid result = false
  /\ CodeValidator.errors result
     = [js "Validation error: " ++ exnToString (SyntaxError nothingToRepeat)]
  /\ ~ In (CodeValidator.forbiddenEntry evalPattern) (CodeValidator.errors result)
  /\ snd (CodeValidator.checkForbiddenPatterns used source []) = [].
Proof.
  intros source result used.
  assert (Hresult : result
            = CodeValidator.Result false
                [js "Validation error: " ++ exnToString (SyntaxError nothingToRepeat)]
                (warningsOf source) None)
    by apply validateJSX_caught.
  split; [left; reflexivity|].
  split; [vm_compute; eauto|].
  split; [vm_compute; reflexivity|].
  rewrite Hresult. cbn [CodeValidator.isValid CodeValidator.errors].
  split; [reflexivity|]. split; [reflexivity|].
  split; [|vm_compute; reflexivity].
  intros [H|[]]. vm_compute in H. discriminate H.
Qed.

(** C6 as stated fails: the source of the example scenario is not
    accepted. *)
Lemma xSource_not_accepted : ~ xSourceAccepted v8NothingToRepeat.
Proof.
  unfold xSourceAccepted. rewrite validateJSX_caught.
  cbn [CodeValidator.isValid]. intros [H _]. discriminate H.
Qed.

(** C6, amended.  The source [const X = () => <div>Hi</div>; export
    default X;] is rejected by [validateJSX], without sanitized code.  It
    matches no forbidden pattern, but it lacks what two checks require:
    [validateBasicStructure] misses [import React], and
    [validateComponentStructure] misses [return].  [sanitizeCode] applied
    to it keeps the definition of [X] and puts the wrapper around [X] in
    place of the export statement, behind the two import lines. *)
Theorem validateJSX_xSource_rejected (nothingToRepeat : jsstring) :
  let source := ValidatorTests.xSource in
  let result := fst (CodeValidator.validateJSX nothingToRepeat CodeValidator.new source) in
  CodeValidator.isValid result = false
  /\ CodeValidator.sanitizedCode result = None
  /\ snd (CodeValidator.checkForbiddenPatterns CodeValidator.new source []) = []
  /\ CodeValidator.validateBasicStructure CodeValidator.new source []
     = [js "Missing required pattern: import\s+React"]
  /\ fst (CodeValidator.validateComponentStructure source [] [])
     = [js "Component must return JSX"]
  /\ CodeValidator.sanitizeCode source
     = safetyImports ++ js "const X = () => <div>Hi</div>; "
       ++ CodeValidator.safeComponentText (js "OriginalX") (js "X").
Proof.
  intros source result.
  assert (Hresult : result
            = CodeValidator.Result false
                [js "Validation error: " ++ exnToString (SyntaxError nothingToRepeat)]
                (warningsOf source) None)
    by apply validateJSX_caught.
  rewrite Hresult. cbn [CodeValidator.isValid CodeValidator.sanitizedCode].
  split; [reflexivity|]. split; [reflexivity|].
  repeat split; vm_compute; reflexivity.
Qed.

(** ** The registry *)

Section RegistryFacts.

Context {Component : Type}.
Variable babelTransform : jsstring -> exn + option jsstring.
Variable dynamicImport : jsstring -> BlobStore -> exn + moduleDefault Component.

Local Abbreviation registerPanelFromJSX := (Registry.registerPanelFromJSX babelTransform dynamicImport).
Local Abbreviation updatePanel := (Registry.updatePanel babelTransform dynamicImport).

(** A registration that fails leaves both maps as they were. *)
Lemma registerPanelFromJSX_failure (r r' : Registry.t Component) (w w' : World)
    (id jsxCode : jsstring) (metadata : Registry.PartialMetadata) (now : Z) (e : exn) :
  registerPanelFromJSX r w id jsxCode metadata now = (inl e, r', w') -> r' = r.
Proof.
  unfold Registry.registerPanelFromJSX.
  destruct (Compiler.compileComponent _ _ _ _) as [[e0|result] b].
  - intros H; injection H; auto.
  - destruct (Registry.usableUrl result) as [url|]; [|intros H; injection H; auto].
    destruct (Registry.loadComponent _ _ _ _) as [e1|c]; intros H; [injection H; auto|].
    discriminate H.
Qed.

(** Whatever its result, a registration dispatches no event, and the
    only change it makes to the blob store is the object URL its
    compilation creates. *)
Lemma registerPanelFromJSX_world (r r' : Registry.t Component) (w w' : World)
    (id jsxCode : jsstring) (metadata : Registry.PartialMetadata) (now : Z)
    (res : exn + Component) :
  registerPanelFromJSX r w id jsxCode metadata now = (res, r', w') ->
  dispatched w' = dispatched w /\ grownFrom (store w) (store w').
Proof.
  unfold Registry.registerPanelFromJSX.
  destruct (Compiler.compileComponent _ _ _ _) as [compiled b] eqn:Hcompile.
  intros Hreg.
  assert (Hw : w' = withStore w b).
  { destruct compiled as [e0|result]; [injection Hreg as _ _ <-; reflexivity|].
    destruct (Registry.usableUrl result) as [u|]; [|injection Hreg as _ _ <-; reflexivity].
    destruct (Registry.loadComponent _ _ _ _) as [e1|c];
      injection Hreg as _ _ <-; reflexivity. }
  subst w'. split; [reflexivity|]. simpl. unfold grownFrom.
  revert Hcompile. unfold Compiler.compileComponent, Compiler.compileBody.
  destruct (eqs (trim jsxCode) []); [intros H; injection H as _ <-; auto|].
  destruct (babelTransform jsxCode) as [e0|[[|c resultCode]|]];
    try (intros H; injection H as _ <-; solve [auto]).
  unfold Compiler.createModuleBlob.
  destruct (createObjectURL (store w) _) as [url b0] eqn:Hcreate.
  intros H; injection H as _ <-. right. eexists. rewrite Hcreate. reflexivity.
Qed.

(** It releases no object URL either: the URLs that were live still are,
    with their texts. *)
Lemma registerPanelFromJSX_keeps_live (r r' : Registry.t Component) (w w' : World)
    (id jsxCode : jsstring) (metadata : Registry.PartialMetadata) (now : Z)
    (res : exn + Component) (url text : jsstring) :
  registerPanelFromJSX r w id jsxCode metadata now = (res, r', w') ->
  live (store w) !! blobUrl (nextBlob (store w)) = None ->
  live (store w) !! url = Some text ->
  live (store w') !! url = Some text.
Proof.
  unfold Registry.registerPanelFromJSX.
  destruct (Compiler.compileComponent _ _ _ _) as [compiled b] eqn:Hcompile.
  intros Hreg Hfresh Hlive.
  assert (Hb : live b !! url = Some text).
  { unfold Compiler.compileComponent, Compiler.compileBody in Hcompile.
    destruct (eqs (trim jsxCode) []); [injection Hcompile as _ <-; exact Hlive|].
    destruct (babelTransform jsxCode) as [e0|[[|c resultCode]|]];
      try (injection Hcompile as _ <-; exact Hlive).
    unfold Compiler.createModuleBlob, createObjectURL in Hcompile.
    injection Hcompile as _ <-. simpl.
    rewrite lookup_insert_ne; [exact Hlive|]. congruence. }
  assert (Hw : store w' = b).
  { destruct compiled as [e0|result]; [injection Hreg as _ _ <-; reflexivity|].
    destruct (Registry.usableUrl result) as [u|]; [|injection Hreg as _ _ <-; reflexivity].
    destruct (Registry.loadComponent _ _ _ _) as [e1|c];
      injection Hreg as _ _ <-; reflexivity. }
  rewrite Hw. exact Hb.
Qed.

(** An update that fails leaves both maps as they were. *)
Lemma updatePanel_failure (r r' : Registry.t Component) (w w' : World)
    (id jsxCode : jsstring) (now : Z) (e : exn) :
  updatePanel r w id jsxCode now = (inl e, r', w') -> r' = r.
Proof.
  unfold Registry.updatePanel.
  destruct (Registry.panels r !! id) as [existing|]; [|intros H; injection H; auto].
  destruct (registerPanelFromJSX r _ id jsxCode _ now) as [[[e0|c] r0] w0] eqn:Hreg;
    intros H; [|discriminate H].
  injection H as _ <- _. eapply registerPanelFromJSX_failure, Hreg.
Qed.

(** An update with a blank source of a panel whose cached object URL is
    a blob URL: the call fails in the compiler, the maps are kept, and
    the URL of the kept entry is revoked. *)
Lemma updatePanel_blank_revokes (r : Registry.t Component) (w : World)
    (id jsxCode : jsstring) (now : Z)
    (panel : Registry.PanelDefinition Component) (cache : ComponentCacheEntry Component) :
  Registry.panels r !! id = Some panel ->
  Registry.componentCache r !! id = Some cache ->
  startsWith (js "blob:") (Browser.moduleUrl cache) = true ->
  Forall (fun c => isSpace c = true) jsxCode ->
  updatePanel r w id jsxCode now
  = (inl (Error (js "Compilation failed: JSX code cannot be empty")), r,
     withStore w (revokeObjectURL (store w) (Browser.moduleUrl cache))).
Proof.
  intros Hpanel Hcache Hblob Hblank.
  unfold Registry.updatePanel, Registry.cleanupCached. rewrite Hpanel, Hcache.
  destruct (Browser.moduleUrl cache) as [|c url] eqn:Hurl; [discriminate Hblob|].
  unfold Compiler.cleanupModuleUrl. rewrite Hblob.
  unfold Registry.registerPanelFromJSX, Compiler.compileComponent, Compiler.compileBody.
  rewrite (trim_blank jsxCode Hblank). reflexivity.
Qed.

(** A registration that succeeds stores the new panel and the new cache
    entry together, both for the loaded component, and touches no other
    identity. *)
Lemma registerPanelFromJSX_success (r r' : Registry.t Component) (w w' : World)
    (id jsxCode : jsstring) (metadata : Registry.PartialMetadata) (now : Z)
    (component : Component) :
  registerPanelFromJSX r w id jsxCode metadata now = (inr component, r', w') ->
  exists panel cache,
    Registry.panels r' = <[id := panel]> (Registry.panels r)
    /\ Registry.componentCache r' = <[id := cache]> (Registry.componentCache r)
    /\ Registry.component panel = Some component
    /\ Browser.component cache = component
    /\ Registry.jsxCode panel = jsxCode
    /\ (Some (Browser.compiledCode cache) = Registry.compiledCode panel
        \/ Registry.compiledCode panel = None).
Proof.
  unfold Registry.registerPanelFromJSX.
  destruct (Compiler.compileComponent _ _ _ _) as [[e0|result] b]; [discriminate|].
  destruct (Registry.usableUrl result) as [url|]; [|discriminate].
  destruct (Registry.loadComponent _ _ _ _) as [e1|c]; [discriminate|].
  intros H; injection H as <- <- <-.
  eexists _, _. simpl. do 5 (split; [reflexivity|]).
  destruct (Compiler.code result); simpl; auto.
Qed.

Lemma registerPanelFromJSX_synced (r r' : Registry.t Component) (w w' : World)
    (id jsxCode : jsstring) (metadata : Registry.PartialMetadata) (now : Z)
    (res : exn + Component) :
  registerPanelFromJSX r w id jsxCode metadata now = (res, r', w') ->
  synced r -> synced r'.
Proof.
  unfold Registry.registerPanelFromJSX, synced.
  destruct (Compiler.compileComponent _ _ _ _) as [[e0|result] b].
  - intros H; injection H as _ <- _; auto.
  - destruct (Registry.usableUrl result) as [url|]; [|intros H; injection H as _ <- _; auto].
    destruct (Registry.loadComponent _ _ _ _) as [e1|c]; intros H;
      injection H as _ <- _; auto.
    intros Hs. simpl. rewrite !dom_insert_L, Hs. reflexivity.
Qed.

Lemma updatePanel_synced (r r' : Registry.t Component) (w w' : World)
    (id jsxCode : jsstring) (now : Z) (res : exn + Component) :
  updatePanel r w id jsxCode now = (res, r', w') -> synced r -> synced r'.
Proof.
  unfold Registry.updatePanel.
  destruct (Registry.panels r !! id) as [existing|]; [|intros H; injection H as _ <- _; auto].
  destruct (registerPanelFromJSX r _ id jsxCode _ now) as [[[e0|c] r0] w0] eqn:Hreg;
    intros H; injection H as _ <- _; eapply registerPanelFromJSX_synced, Hreg.
Qed.

Lemma removePanel_synced (r : Registry.t Component) (w : World) (id : jsstring) :
  synced r -> synced (fst (Registry.removePanel r w id)).
Proof.
  unfold synced. simpl. intros Hs. rewrite !dom_delete_L, Hs. reflexivity.
Qed.

Lemma perform_synced (rw : Registry.t Component * World) (c : Registry.call) :
  synced (fst rw) ->
  synced (fst (Registry.perform babelTransform dynamicImport rw c)).
Proof.
  destruct rw as [r w]. simpl fst at 1. intros Hs. destruct c as [id code md now|id code now|id]; simpl.
  - destruct (registerPanelFromJSX r w id code md now) as [[res r'] w'] eqn:H.
    simpl. exact (registerPanelFromJSX_synced _ _ _ _ _ _ _ _ _ H Hs).
  - destruct (updatePanel r w id code now) as [[res r'] w'] eqn:H.
    simpl. exact (updatePanel_synced _ _ _ _ _ _ _ _ H Hs).
  - exact (removePanel_synced r w id Hs).
Qed.

Lemma performAll_synced (cs : list Registry.call) :
  forall rw, synced (fst rw) ->
             synced (fst (Registry.performAll babelTransform dynamicImport rw cs)).
Proof.
  induction cs as [|c cs IH]; intros rw Hs; simpl; [exact Hs|].
  apply IH, perform_synced, Hs.
Qed.

Lemma synced_lookup (r : Registry.t Component) (id : jsstring) :
  synced r ->
  (is_Some (Registry.getPanel r id) <-> is_Some (Registry.getComponent r id)).
Proof.
  unfold synced, Registry.getPanel, Registry.getComponent. intros Hs.
  rewrite fmap_is_Some, <- !elem_of_dom, Hs. reflexivity.
Qed.

Lemma synced_stats (r : Registry.t Component) :
  synced r ->
  Registry.totalPanels (Registry.getStats r)
  = Registry.cachedComponents (Registry.getStats r).
Proof.
  unfold synced, Registry.getStats. simpl. intros Hs.
  rewrite <- (size_dom (Registry.panels r)), Hs. apply size_dom.
Qed.

End RegistryFacts.

(** C10.  After any run of [registerPanelFromJSX], [updatePanel] and
    [removePanel] calls on a registry fresh from its constructor, with any
    host, [getPanel(id)] is defined exactly when [getComponent(id)] is, for
    every identity, and [totalPanels] of [getStats] equals
    [cachedComponents]. *)
Theorem registry_maps_same_identities {Component : Type}
    (babelTransform : jsstring -> exn + option jsstring)
    (dynamicImport : jsstring -> BlobStore -> exn + moduleDefault Component)
    (w : World) (calls : list Registry.call) :
  let r := fst (Registry.performAll babelTransform dynamicImport (Registry.new, w) calls) in
  (forall id, is_Some (Registry.getPanel r id) <-> is_Some (Registry.getComponent r id))
  /\ Registry.totalPanels (Registry.getStats r)
     = Registry.cachedComponents (Registry.getStats r).
Proof.
  intros r.
  assert (Hs : synced r).
  { apply performAll_synced. unfold synced. simpl. rewrite !dom_empty_L. reflexivity. }
  split.
  - intros id. apply synced_lookup, Hs.
  - apply synced_stats, Hs.
Qed.

(** C3 as stated fails.  A registry holds [panel-2], registered from a
    valid source; its cached entry carries the object URL [blob:0], which
    is live.
    [updatePanel] is then called for [panel-2] with a source of three
    spaces.  The call fails with the compiler's error and both maps are
    what they were; but [blob:0], which the untouched entry still
    carries, has been revoked. *)
Theorem updatePanel_failure_releases_old_url :
  let id := js "panel-2" in
  let registered :=
    Registry.registerPanelFromJSX Scenario.babel Scenario.import
      Registry.new Scenario.emptyWorld id ValidatorTests.goodSource
      Registry.noMetadata 1000 in
  let r1 := snd (fst registered) in
  let w1 := snd registered in
  let updated :=
    Registry.updatePanel Scenario.babel Scenario.import r1 w1 id (js "   ") 2000 in
  Browser.moduleUrl <$> Registry.componentCache r1 !! id = Some (blobUrl 0)
  /\ is_Some (live (store w1) !! blobUrl 0)
  /\ fst (fst updated) = inl (Error (js "Compilation failed: JSX code cannot be empty"))
  /\ snd (fst updated) = r1
  /\ Browser.moduleUrl <$> Registry.componentCache (snd (fst updated)) !! id
     = Some (blobUrl 0)
  /\ live (store (snd updated)) !! blobUrl 0 = None.
Proof.
  vm_compute. repeat split; eauto.
Qed.

(** C3, amended.  For every host, registry, identity and source: when
    [registerPanelFromJSX] or [updatePanel] fails, the registry after the
    call is the registry before it: no entry of the panel map or of the
    component cache is created or changed, so the entry stored before and
    its cached component are what they were, and no event is dispatched.
    A failed [registerPanelFromJSX] revokes no object URL: the blob store
    is the one before the call, or that one with the URL of the new
    module added.  A failed [updatePanel] of a registered panel has
    handed the object URL of the cached entry to [cleanupModuleUrl]
    before it compiled. *)
Theorem failed_call_keeps_registry {Component : Type}
    (babelTransform : jsstring -> exn + option jsstring)
    (dynamicImport : jsstring -> BlobStore -> exn + moduleDefault Component)
    (r r' : Registry.t Component) (w w' : World) (id jsxCode : jsstring)
    (metadata : Registry.PartialMetadata) (now : Z) (e : exn) :
  Registry.registerPanelFromJSX babelTransform dynamicImport r w id jsxCode metadata now
    = (inl e, r', w')
  \/ Registry.updatePanel babelTransform dynamicImport r w id jsxCode now
     = (inl e, r', w') ->
  r' = r
  /\ (forall i, Registry.getPanel r' i = Registry.getPanel r i
                /\ Registry.getComponent r' i = Registry.getComponent r i)
  /\ dispatched w' = dispatched w
  /\ (Registry.registerPanelFromJSX babelTransform dynamicImport r w id jsxCode metadata now
        = (inl e, r', w') ->
      grownFrom (store w) (store w'))
  /\ (Registry.updatePanel babelTransform dynamicImport r w id jsxCode now
        = (inl e, r', w') ->
      is_Some (Registry.panels r !! id) ->
      grownFrom (store (Registry.cleanupCached r w id)) (store w')).
Proof.
  intros H.
  assert (Hr : r' = r).
  { destruct H as [H|H].
    - exact (registerPanelFromJSX_failure _ _ _ _ _ _ _ _ _ _ _ H).
    - exact (updatePanel_failure _ _ _ _ _ _ _ _ _ _ H). }
  subst r'. split; [reflexivity|]. split; [auto|].
  split.
  - destruct H as [H|H].
    + exact (proj1 (registerPanelFromJSX_world _ _ _ _ _ _ _ _ _ _ _ H)).
    + unfold Registry.updatePanel in H.
      destruct (Registry.panels r !! id) as [existing|]; [|injection H as _ <-; reflexivity].
      destruct (Registry.registerPanelFromJSX _ _ r (Registry.cleanupCached r w id)
                  id jsxCode _ now)
        as [[[e0|c] r0] w0] eqn:Hreg; [|simpl in H; discriminate H].
      injection H as _ _ <-.
      rewrite (proj1 (registerPanelFromJSX_world _ _ _ _ _ _ _ _ _ _ _ Hreg)).
      unfold Registry.cleanupCached.
      destruct (Registry.componentCache r !! id) as [cache|]; [|reflexivity].
      destruct (Browser.moduleUrl cache); reflexivity.
  - split.
    + intros Hreg. exact (proj2 (registerPanelFromJSX_world _ _ _ _ _ _ _ _ _ _ _ Hreg)).
    + intros Hupd [existing Hpanel]. unfold Registry.updatePanel in Hupd.
      rewrite Hpanel in Hupd.
      destruct (Registry.registerPanelFromJSX _ _ r (Registry.cleanupCached r w id)
                  id jsxCode _ now)
        as [[[e0|c] r0] w0] eqn:Hreg; [|simpl in Hupd; discriminate Hupd].
      injection Hupd as _ _ <-.
      exact (proj2 (registerPanelFromJSX_world _ _ _ _ _ _ _ _ _ _ _ Hreg)).
Qed.

Lemma failed_call_keeps_registry_witness :
  let id := js "panel-2" in
  let registered :=
    Registry.registerPanelFromJSX Scenario.babel Scenario.import
      Registry.new Scenario.emptyWorld id ValidatorTests.goodSource
      Registry.noMetadata 1000 in
  let r1 := snd (fst registered) in
  let w1 := snd registered in
  let updated :=
    Registry.updatePanel Scenario.babel Scenario.import r1 w1 id (js "   ") 2000 in
  updated = (inl (Error (js "Compilation failed: JSX code cannot be empty")),
             snd (fst updated), snd updated)
  /\ snd (fst updated) = r1
  /\ dispatched (snd updated) = dispatched w1.
Proof.
  intros id registered r1 w1 updated.
  assert (H : updated
              = (inl (Error (js "Compilation failed: JSX code cannot be empty")),
                 snd (fst updated), snd updated))
    by (vm_compute; reflexivity).
  split; [exact H|].
  destruct (failed_call_keeps_registry Scenario.babel Scenario.import
              r1 (snd (fst updated)) w1 (snd updated) id (js "   ")
              Registry.noMetadata 2000
              (Error (js "Compilation failed: JSX code cannot be empty"))
              (or_intror H)) as (Hr & _ & Hd & _).
  split; assumption.
Defined.

(** ** The hot-replacement manager *)

Section ManagerFacts.

Context {Component : Type}.
Variable babelTransform : jsstring -> exn + option jsstring.
Variable dynamicImport : jsstring -> BlobStore -> exn + moduleDefault Component.

Local Abbreviation start := (HMR.start babelTransform).
Local Abbreviation resume := (HMR.resume dynamicImport).
Local Abbreviation updateComponent := (HMR.updateComponent babelTransform dynamicImport).


(** A call that finds its identity in [updateQueue] returns at once: no
    compilation, the cache and the world untouched; its [finally] block
    takes the identity out of the queue. *)
Lemma start_dropped (m : HMR.t Component) (w : World) (panelId newJSXCode : jsstring) :
  panelId ∈ HMR.updateQueue m ->
  start m w panelId newJSXCode
  = (HMR.Settled HMR.Dropped (inr tt), HMR.finallyBlock m panelId, w).
Proof.
  intros Hin. unfold HMR.start. rewrite bool_decide_eq_true_2 by exact Hin. reflexivity.
Qed.

(** A resumption either suspends again, writing neither the cache nor an
    event; or ends in the [catch] block, with the cache as it was and one
    [panel-hmr-error] event for the identity and the message; or ends the
    [try] block, with the [panel-hmr-update] event.  The promise is
    fulfilled in every case. *)
Lemma resume_cases (m m' : HMR.t Component) (w w' : World)
    (p : HMR.pending Component) (now : Z) (pr : HMR.progress Component) :
  resume m w p now = (pr, m', w') ->
  match pr with
  | HMR.Suspended p' =>
      HMR.componentCache m' = HMR.componentCache m
      /\ dispatched w' = dispatched w
      /\ HMR.panelOf p' = HMR.panelOf p
      /\ exists r u l, p' = HMR.AwaitLoad (HMR.panelOf p) r u l
  | HMR.Settled (HMR.Caught e) promise =>
      HMR.componentCache m' = HMR.componentCache m
      /\ dispatched w' = dispatched w ++ [PanelHmrError (HMR.panelOf p) (message e)]
      /\ promise = inr tt
  | HMR.Settled HMR.Updated promise =>
      dispatched w' = dispatched w ++ PanelHmrUpdate (HMR.panelOf p) [] now
                      :: (if HMR.viteHMR m then [HotInvalidate] else [])
      /\ promise = inr tt
  | HMR.Settled HMR.Dropped _ => False
  end.
Proof.
  destruct p as [panelId [e|result]|panelId result url [e|c]]; simpl.
  - intros H; injection H as <- <- <-. auto.
  - destruct (Registry.usableUrl result) as [url|].
    + intros H; injection H as <- <- <-. simpl.
      split; [reflexivity|]. split.
      * destruct (HMR.componentCache m !! panelId) as [old|]; [|reflexivity].
        destruct (Browser.moduleUrl old); reflexivity.
      * split; [reflexivity|]. eauto.
    + intros H; injection H as <- <- <-. auto.
  - intros H; injection H as <- <- <-. auto.
  - intros H; injection H as <- <- <-. split; [|reflexivity].
    unfold HMR.triggerHotUpdate. simpl. destruct (HMR.viteHMR m); simpl;
      rewrite <- ?app_assoc; reflexivity.
Qed.

(** A stretch that settles the call leaves the identity out of
    [updateQueue], however the call went. *)
Lemma settled_clears_marker (m m' : HMR.t Component) (w w' : World)
    (r : HMR.progress Component * HMR.t Component * World) (panelId : jsstring)
    (how : HMR.outcome) (promise : exn + unit) :
  (exists newJSXCode, r = start m w panelId newJSXCode)
  \/ (exists p now, HMR.panelOf p = panelId /\ r = resume m w p now) ->
  r = (HMR.Settled how promise, m', w') ->
  panelId ∉ HMR.updateQueue m'.
Proof.
  assert (Hfinally : forall m0 : HMR.t Component,
             panelId ∉ HMR.updateQueue (HMR.finallyBlock m0 panelId)).
  { intros m0. simpl. apply not_elem_of_difference. right.
    apply elem_of_singleton. reflexivity. }
  intros [[code ->]|(p & now & <- & ->)].
  - unfold HMR.start. destruct (bool_decide _).
    + intros H; injection H as _ _ <- _. apply Hfinally.
    + destruct (Compiler.compileComponent _ _ _ _). discriminate.
  - destruct p as [id [e|result]|id result url [e|c]]; simpl.
    + intros H; injection H as _ _ <- _. apply Hfinally.
    + destruct (Registry.usableUrl result); [discriminate|].
      intros H; injection H as _ _ <- _. apply Hfinally.
    + intros H; injection H as _ _ <- _. apply Hfinally.
    + intros H; injection H as _ _ <- _. apply (Hfinally (HMR.Manager _ _ _)).
Qed.

(** A call that nothing interleaves with settles. *)
Lemma updateComponent_settles (m : HMR.t Component) (w : World)
    (panelId newJSXCode : jsstring) (now : Z) :
  exists how promise m' w',
    updateComponent m w panelId newJSXCode now = (HMR.Settled how promise, m', w').
Proof.
  unfold HMR.updateComponent.
  destruct (start m w panelId newJSXCode) as [[[p1|how promise] m1] w1] eqn:H1;
    simpl; [|eauto].
  destruct (resume m1 w1 p1 now) as [[[p2|how promise] m2] w2] eqn:H2; simpl; [|eauto].
  apply resume_cases in H2 as (_ & _ & _ & r & u & l & ->).
  destruct (resume m2 w2 _ now) as [[[p3|how promise] m3] w3] eqn:H3; [|eauto].
  exfalso. destruct l; simpl in H3; discriminate H3.
Qed.

End ManagerFacts.



Section GuardFacts.

Context {Component : Type}.
Variable babelTransform : jsstring -> exn + option jsstring.

Local Abbreviation start := (HMR.start (Component := Component) babelTransform).

(** Three calls for one identity, none resumed in between, on any
    manager that has no update of the identity under way: the first
    suspends; the second returns at the guard, leaving world and cache
    alone, and takes the identity out of [updateQueue]; the third
    therefore suspends as well. *)
Lemma guard_reopened_by_dropped_call (m : HMR.t Component) (w : World)
    (panelId c1 c2 c3 : jsstring) :
  panelId ∉ HMR.updateQueue m ->
  let first := start m w panelId c1 in
  let second := start (snd (fst first)) (snd first) panelId c2 in
  let third := start (snd (fst second)) (snd second) panelId c3 in
  (exists p, fst (fst first) = HMR.Suspended p)
  /\ fst (fst second) = HMR.Settled HMR.Dropped (inr tt)
  /\ snd second = snd first
  /\ HMR.componentCache (snd (fst second)) = HMR.componentCache m
  /\ (panelId ∉ HMR.updateQueue (snd (fst second)))
  /\ exists p, fst (fst third) = HMR.Suspended p.
Proof.
  intros Hfree first second third.
  assert (H1 : exists compiled b,
             first = (HMR.Suspended (HMR.AwaitCompile panelId compiled),
                      HMR.Manager (HMR.componentCache m) ({[panelId]} ∪ HMR.updateQueue m)
                                  (HMR.viteHMR m),
                      withStore w b)).
  { unfold first, HMR.start. rewrite bool_decide_eq_false_2 by exact Hfree.
    destruct (Compiler.compileComponent _ _ _ _) as [compiled b]. eauto. }
  destruct H1 as (compiled & b & H1).
  assert (H2 : second = (HMR.Settled HMR.Dropped (inr tt),
                         HMR.finallyBlock (snd (fst first)) panelId, snd first)).
  { unfold second. apply start_dropped. rewrite H1. simpl.
    apply elem_of_union_l, elem_of_singleton. reflexivity. }
  assert (Hq : panelId ∉ HMR.updateQueue (snd (fst second))).
  { rewrite H2. simpl. apply not_elem_of_difference. right.
    apply elem_of_singleton. reflexivity. }
  split; [rewrite H1; simpl; eauto|].
  split; [rewrite H2; reflexivity|].
  split; [rewrite H2; reflexivity|].
  split; [rewrite H2, H1; reflexivity|].
  split; [exact Hq|].
  unfold third, HMR.start. rewrite bool_decide_eq_false_2 by exact Hq.
  destruct (Compiler.compileComponent _ _ _ _) as [compiled3 b3]. simpl. eauto.
Qed.

End GuardFacts.

(** C5.  Three calls of [updateComponent] for one identity, each issued
    before the first has resumed.  The second returns at the guard: it
    compiles nothing and leaves cache and events alone; but its [finally]
    block empties [updateQueue] while the first call is still suspended.
    The third call therefore passes the guard and compiles: two updates of
    the identity are under way at once, and both are applied when they
    resume, each with its event; the object URL of the first stays live
    although the cache no longer refers to it. *)
Theorem updateComponent_third_call_not_dropped :
  let id := js "panel-1" in
  let run := HMR.actAll Scenario.babel Scenario.import in
  let two := run Scenario.emptySystem
                 [HMR.Call id (js "const A = 1;"); HMR.Call id (js "const B = 2;")] in
  let three := run two [HMR.Call id (js "const C = 3;")] in
  let done := run three [HMR.Resume 0 1000; HMR.Resume 0 1000;
                         HMR.Resume 0 1001; HMR.Resume 0 1002] in
  (HMR.inFlightFor two id = 1%nat
   /\ HMR.updateQueue (HMR.manager two) = ∅
   /\ nextBlob (store (HMR.world two)) = 1
   /\ HMR.componentCache (HMR.manager two) = ∅
   /\ dispatched (HMR.world two) = [])
  /\ (HMR.inFlightFor three id = 2%nat
      /\ nextBlob (store (HMR.world three)) = 2)
  /\ (HMR.inFlight done = []
      /\ dispatched (HMR.world done)
         = [PanelHmrUpdate id [] 1001; PanelHmrUpdate id [] 1002]
      /\ Browser.moduleUrl <$> HMR.componentCache (HMR.manager done) !! id
         = Some (blobUrl 1)
      /\ is_Some (live (store (HMR.world done)) !! blobUrl 0)).
Proof.
  vm_compute. repeat split; eauto.
Qed.

(** ** The identity of a generated panel *)

(** The identity is made of the hash of the prompt and of the clock
    reading, and of nothing else. *)
Lemma generatePanelId_function (p1 p2 : jsstring) (t1 t2 : Z) :
  Generator.simpleHash p1 = Generator.simpleHash p2 -> t1 = t2 ->
  Generator.generatePanelId p1 t1 = Generator.generatePanelId p2 t2.
Proof. unfold Generator.generatePanelId. intros -> ->. reflexivity. Qed.

(** Two requests get the same identity exactly when their prompts hash
    alike and they were entered at the same reading of the clock. *)
Lemma generatePanelId_same_iff (p1 p2 : jsstring) (t1 t2 : Z) :
  (0 <= t1)%Z -> (0 <= t2)%Z ->
  Generator.generatePanelId p1 t1 = Generator.generatePanelId p2 t2
  <-> Generator.simpleHash p1 = Generator.simpleHash p2 /\ t1 = t2.
Proof.
  intros H1 H2. unfold Generator.generatePanelId.
  split; [|intros [-> ->]; reflexivity].
  intros Heq.
  apply app_inv_head in Heq.
  assert (Hhash : forall p, Forall (fun c => c <> 45) (Generator.simpleHash p)).
  { intros p. unfold Generator.simpleHash.
    apply (numberToString_spec 16); [lia|lia|apply Z.abs_nonneg]. }
  change (js "-") with [45] in Heq. simpl app in Heq.
  apply split_at_dash in Heq as [Hh Hd]; auto.
  split; [exact Hh|].
  apply (numberToString_inj 10); auto; lia.
Qed.

(** C9.  Two requests entered at the same reading of the clock get the
    same identity when their prompts are the same, and also when their
    prompts differ but hash alike, as [Aa] and [BB] do. *)
Theorem generatePanelId_not_unique :
  let now := 1700000000000%Z in
  let first := Generator.Request (js "a todo list") now in
  let second := Generator.Request (js "a todo list") now in
  ~ NoDup (List.map Generator.identityOf [first; second])
  /\ Generator.identityOf first = js "ai-panel-6936acc7-1700000000000"
  /\ js "Aa" <> js "BB"
  /\ Generator.identityOf (Generator.Request (js "Aa") now)
     = Generator.identityOf (Generator.Request (js "BB") now).
Proof.
  split; [|split; [vm_compute; reflexivity|split; [discriminate|vm_compute; reflexivity]]].
  intros H. cbn [List.map] in H. apply NoDup_cons in H as [Hnotin _].
  apply Hnotin. constructor.
Qed.

(** * Further properties of the code *)

(** ** The deny-list *)

Section DenyListFacts.

Import CodeValidator.

(** An entry the loop adds belongs to a pattern whose [test] succeeded. *)
Lemma checkPatterns_sound (pats : list RegExp.t) (code e : jsstring)
    (errors : list jsstring) :
  In e (snd (checkPatterns pats code errors)) ->
  In e errors
  \/ exists p, In p pats /\ fst (test p code) = true /\ e = forbiddenEntry p.
Proof.
  revert errors. induction pats as [|p pats IH]; intros errors; simpl; [auto|].
  destruct (test p code) as [found p'] eqn:Htest.
  specialize (IH (if found then errors ++ [forbiddenEntry p] else errors)).
  destruct (checkPatterns pats code _) as [pats'' errors'']. simpl in *.
  intros He. destruct (IH He) as [Hin|(q & Hq & Hfound & ->)].
  - destruct found; [|auto]. apply in_app_or in Hin as [Hin|[<-|[]]]; [auto|].
    right. exists p. rewrite Htest. auto.
  - right. exists q. auto.
Qed.

Lemma test_matches (p : RegExp.t) (code : jsstring) :
  lastIndex p = 0%nat -> fst (test p code) = true -> matches p code.
Proof.
  unfold test, exec, matches. intros ->.
  destruct (global p); simpl.
  - destruct (search (pattern p) code 0) as [m|]; simpl; [eauto|discriminate].
  - destruct (search (pattern p) code 0) as [m|]; simpl; [eauto|discriminate].
Qed.

(** What [test] leaves of a pattern: all but [lastIndex] is kept, and a
    global pattern that found nothing starts over. *)
Lemma test_keeps (p : RegExp.t) (code : jsstring) :
  let p' := snd (test p code) in
  source p' = source p /\ pattern p' = pattern p /\ global p' = global p
  /\ (fst (test p code) = false -> global p = true -> lastIndex p' = 0%nat).
Proof.
  unfold test, exec. destruct (global p) eqn:Hg; simpl.
  - destruct (Nat.ltb _ _); simpl; [auto|].
    destruct (search _ _ _) as [m|]; simpl; auto.
    repeat split; auto. discriminate.
  - rewrite Hg. repeat split; auto. discriminate.
Qed.

Lemma test_from_start (p : RegExp.t) (code : jsstring) :
  (global p = true -> lastIndex p = 0%nat) -> matches p code ->
  fst (test p code) = true.
Proof.
  intros Hli [m Hm]. unfold test, exec. destruct (global p).
  - rewrite (Hli eq_refl). simpl. rewrite Hm. reflexivity.
  - simpl. rewrite Hm. reflexivity.
Qed.

(** The loop and the patterns it leaves behind, place by place. *)
Lemma checkPatterns_lookup (pats : list RegExp.t) (code : jsstring)
    (errors : list jsstring) (i : nat) (p : RegExp.t) :
  pats !! i = Some p ->
  fst (checkPatterns pats code errors) !! i = Some (snd (test p code))
  /\ (fst (test p code) = true ->
      In (forbiddenEntry p) (snd (checkPatterns pats code errors))).
Proof.
  revert errors i. induction pats as [|q pats IH]; intros errors i; [discriminate|].
  simpl. destruct (test q code) as [found q'] eqn:Htest.
  destruct i as [|i]; simpl.
  - intros H; injection H as <-.
    pose proof (checkPatterns_keeps pats code (forbiddenEntry q)
                  (if found then errors ++ [forbiddenEntry q] else errors)) as Hkeep.
    destruct (checkPatterns pats code _) as [pats'' errors'']. simpl in *.
    rewrite Htest. simpl. split; [reflexivity|].
    intros ->. apply Hkeep, in_or_app. right. left. reflexivity.
  - intros Hp.
    specialize (IH (if found then errors ++ [forbiddenEntry q] else errors) i Hp).
    destruct (checkPatterns pats code _) as [pats'' errors'']. exact IH.
Qed.

End DenyListFacts.

(** X1.  On a validator fresh from its constructor, [checkForbiddenPatterns]
    called with an empty error list returns exactly the entries of the
    deny-list patterns that the source matches: each pattern that matches
    is reported, and nothing else is. *)
Theorem checkForbiddenPatterns_fresh_exact (code e : jsstring) :
  In e (snd (CodeValidator.checkForbiddenPatterns CodeValidator.new code []))
  <-> exists p, In p (CodeValidator.forbiddenPatterns CodeValidator.new)
                /\ matches p code /\ e = CodeValidator.forbiddenEntry p.
Proof.
  unfold CodeValidator.checkForbiddenPatterns.
  pose proof (checkPatterns_sound
                (CodeValidator.forbiddenPatterns CodeValidator.new) code e []) as Hsound.
  pose proof (fun p => checkPatterns_fresh
                (CodeValidator.forbiddenPatterns CodeValidator.new) code [] p
                new_patterns_fresh) as Hcomplete.
  destruct (CodeValidator.checkPatterns _ code []) as [pats errors]. simpl in *.
  split.
  - intros He. destruct (Hsound He) as [[]|(p & Hp & Hfound & ->)].
    exists p. split; [exact Hp|]. split; [|reflexivity].
    apply test_matches; [|exact Hfound].
    pose proof new_patterns_fresh as Hfresh.
    rewrite List.Forall_forall in Hfresh. apply Hfresh, Hp.
  - intros (p & Hp & Hm & ->). apply Hcomplete; assumption.
Qed.

(** X2.  Whatever state the validator is in, a deny-list pattern that
    the source matches is reported by one of any two calls of
    [checkForbiddenPatterns] that follow each other on that source: a
    call that misses it puts the pattern's [lastIndex] back to 0, and the
    next call finds it. *)
Theorem forbidden_pattern_reported_every_other_call
    (v : CodeValidator.t) (code : jsstring) (e1 e2 : list jsstring)
    (i : nat) (p : RegExp.t) :
  CodeValidator.forbiddenPatterns v !! i = Some p ->
  global p = true ->
  matches p code ->
  let first := CodeValidator.checkForbiddenPatterns v code e1 in
  let second := CodeValidator.checkForbiddenPatterns (fst first) code e2 in
  In (CodeValidator.forbiddenEntry p) (snd first)
  \/ In (CodeValidator.forbiddenEntry p) (snd second).
Proof.
  intros Hp Hg Hm first second.
  unfold second, first, CodeValidator.checkForbiddenPatterns.
  destruct (checkPatterns_lookup (CodeValidator.forbiddenPatterns v) code e1 i p Hp)
    as [Hp1 Hin1].
  destruct (CodeValidator.checkPatterns (CodeValidator.forbiddenPatterns v) code e1)
    as [pats1 errors1]. simpl in *.
  destruct (fst (test p code)) eqn:Hfound; [left; auto|right].
  destruct (checkPatterns_lookup pats1 code e2 i _ Hp1) as [_ Hin2].
  destruct (CodeValidator.checkPatterns pats1 code e2) as [pats2 errors2]. simpl in *.
  destruct (test_keeps p code) as (Hsrc & Hpat & Hglob & Hreset).
  assert (Hentry : CodeValidator.forbiddenEntry (snd (test p code))
                   = CodeValidator.forbiddenEntry p).
  { unfold CodeValidator.forbiddenEntry. rewrite Hsrc. reflexivity. }
  rewrite <- Hentry. apply Hin2. apply test_from_start.
  - intros _. apply Hreset; assumption.
  - unfold matches in *. rewrite Hpat. exact Hm.
Qed.

Lemma forbidden_pattern_reported_every_other_call_witness :
  let v := snd (CodeValidator.validateJSX [] CodeValidator.new ValidatorTests.evalSource) in
  let entry := CodeValidator.forbiddenEntry (setLastIndex evalPattern 5) in
  let first := CodeValidator.checkForbiddenPatterns v ValidatorTests.evalSource [] in
  let second :=
    CodeValidator.checkForbiddenPatterns (fst first) ValidatorTests.evalSource [] in
  CodeValidator.forbiddenPatterns v !! 0%nat = Some (setLastIndex evalPattern 5)
  /\ (In entry (snd first) \/ In entry (snd second)).
Proof.
  intros v entry first second.
  assert (H0 : CodeValidator.forbiddenPatterns v !! 0%nat
               = Some (setLastIndex evalPattern 5)) by (vm_compute; reflexivity).
  assert (Hm : matches (setLastIndex evalPattern 5) ValidatorTests.evalSource)
    by (vm_compute; eauto).
  split; [exact H0|].
  exact (forbidden_pattern_reported_every_other_call v ValidatorTests.evalSource
           [] [] 0 (setLastIndex evalPattern 5) H0 eq_refl Hm).
Defined.

(** X3.  [validateJSX] accepts no source: whatever the validator's state
    and the source, the call ends in the [catch] block, the result is not
    valid, it holds the one error made from the SyntaxError of the
    complexity check, and no sanitized code. *)
Theorem validateJSX_never_accepts (nothingToRepeat : jsstring) (v : CodeValidator.t)
    (code : jsstring) :
  let result := fst (CodeValidator.validateJSX nothingToRepeat v code) in
  CodeValidator.isValid result = false
  /\ CodeValidator.errors result
     = [js "Validation error: " ++ exnToString (SyntaxError nothingToRepeat)]
  /\ CodeValidator.sanitizedCode result = None.
Proof.
  cbv zeta. rewrite validateJSX_caught.
  cbn [CodeValidator.isValid CodeValidator.errors CodeValidator.sanitizedCode].
  repeat split.
Qed.

(** ** Imports *)

Section ImportFacts.

Import CodeValidator.

Lemma importLoop_errors_kept (v : t) (code : jsstring) (ms : list matched)
    (errors warnings : list jsstring) (e : jsstring) :
  In e errors -> In e (fst (importLoop v code ms errors warnings)).
Proof.
  revert errors warnings.
  induction ms as [|m ms IH]; intros errors warnings He; cbn [importLoop]; [exact He|].
  apply IH. destruct (negb _); [apply in_or_app; left|]; exact He.
Qed.

(** A path that starts with a dot is not on the allow-list and is no
    [react/] path. *)
Lemma relative_not_allowed (p : jsstring) :
  startsWith (js "./") p || startsWith (js "../") p = true ->
  isImportAllowed new p = false.
Proof.
  intros H.
  apply orb_prop in H as [H|H]; apply startsWith_inv in H as [t ->]; reflexivity.
Qed.

Lemma importLoop_relative (code : jsstring) (ms : list matched)
    (errors warnings : list jsstring) (p : jsstring) :
  In (js "Relative import detected: " ++ p)
     (snd (importLoop new code ms errors warnings)) ->
  In (js "Relative import detected: " ++ p) warnings
  \/ In (js "Unauthorized import: " ++ p)
        (fst (importLoop new code ms errors warnings)).
Proof.
  revert errors warnings.
  induction ms as [|m ms IH]; intros errors warnings; cbn [importLoop]; [auto|].
  set (path := default [] (capture code m 1)).
  intros H. apply IH in H as [H|H]; [|auto].
  destruct (startsWith (js "./") path || startsWith (js "../") path) eqn:Hrel; [|auto].
  apply in_app_or in H as [H|[H|[]]]; [auto|].
  apply app_inv_head in H. rewrite H in *.
  right. apply importLoop_errors_kept.
  rewrite (relative_not_allowed p Hrel). apply in_or_app. right. left. reflexivity.
Qed.

End ImportFacts.

(** X4.  A relative import is never an authorized one: each warning
    [Relative import detected] that [validateImports] pushes for a path
    comes with the error [Unauthorized import] for the same path. *)
Theorem relative_import_is_unauthorized (code : jsstring) (errors : list jsstring)
    (p : jsstring) :
  In (js "Relative import detected: " ++ p)
     (snd (CodeValidator.validateImports CodeValidator.new code errors [])) ->
  In (js "Unauthorized import: " ++ p)
     (fst (CodeValidator.validateImports CodeValidator.new code errors [])).
Proof.
  unfold CodeValidator.validateImports. intros H.
  apply importLoop_relative in H as [[]|H]. exact H.
Qed.

Lemma relative_import_is_unauthorized_witness :
  In (js "Unauthorized import: ./Helper")
     (fst (CodeValidator.validateImports CodeValidator.new
             (js "import Helper from './Helper';") [] [])).
Proof.
  apply relative_import_is_unauthorized.
  vm_compute. left. reflexivity.
Defined.

(** X5.  Whatever the source, the text [sanitizeCode] returns holds the
    import of the error boundary. *)
Theorem sanitizeCode_imports_error_boundary (code : jsstring) :
  includes (CodeValidator.sanitizeCode code) (js "import { ErrorBoundary }") = true.
Proof.
  unfold CodeValidator.sanitizeCode.
  destruct (includes (CodeValidator.wrapWithErrorBoundary code) _) eqn:Hhas;
    simpl negb; cbv iota; [exact Hhas|].
  apply (includes_infix (js "import React from 'react';" ++ nl)
           (js "import { ErrorBoundary }")
           (js " from 'react-error-boundary';" ++ nl ++ nl
            ++ CodeValidator.wrapWithErrorBoundary code)).
Qed.

(** ** Parentheses *)

Section ParenFacts.

Import CodeValidator.

Local Open Scope Z_scope.

Lemma parenDepth_nil : parenDepth [] = 0.
Proof. reflexivity. Qed.

Lemma parenDepth_cons (ch : N) (s : jsstring) :
  parenDepth (ch :: s)
  = (if (ch =? 40)%N then 1 else if (ch =? 41)%N then -1 else 0) + parenDepth s.
Proof.
  unfold parenDepth. simpl.
  destruct (N.eq_dec ch 40%N) as [->|H40]; simpl.
  - lia.
  - apply N.eqb_neq in H40. rewrite H40.
    destruct (N.eq_dec ch 41%N) as [->|H41]; simpl; [lia|].
    apply N.eqb_neq in H41. rewrite H41. lia.
Qed.

(** The loop either reads the whole text and returns its depth, or leaves
    at the first surplus closing parenthesis, the count at -1, with the
    error pushed once. *)
Lemma parenLoop_spec (s : jsstring) (c : Z) (errors : list jsstring) :
  0 <= c ->
  ((forall n, 0 <= c + parenDepth (firstn n s))
   /\ parenLoop s c errors = (c + parenDepth s, errors))
  \/ ((exists n, c + parenDepth (firstn n s) < 0)
      /\ parenLoop s c errors = (-1, errors ++ [js "Unbalanced parentheses in code"])).
Proof.
  revert c. induction s as [|ch s IH]; intros c Hc.
  - left. split.
    + intros n. rewrite firstn_nil. change (parenDepth []) with 0. lia.
    + cbn [parenLoop]. change (parenDepth []) with 0. f_equal. lia.
  - cbn [parenLoop]. rewrite parenDepth_cons.
    set (d := if (ch =? 40)%N then 1 else if (ch =? 41)%N then -1 else 0).
    assert (Hstep : (if (ch =? 41)%N
                     then (if (ch =? 40)%N then c + 1 else c) - 1
                     else (if (ch =? 40)%N then c + 1 else c)) = c + d).
    { unfold d. destruct (ch =? 40)%N eqn:H40.
      - apply N.eqb_eq in H40. subst ch. simpl. lia.
      - destruct (ch =? 41)%N; lia. }
    rewrite Hstep.
    destruct (c + d <? 0) eqn:Hneg.
    + apply Z.ltb_lt in Hneg. right. split.
      * exists 1%nat. change (firstn 1 (ch :: s)) with [ch].
        rewrite parenDepth_cons. change (parenDepth []) with 0. fold d. lia.
      * f_equal. unfold d in *. destruct (ch =? 40)%N; [lia|].
        destruct (ch =? 41)%N; lia.
    + apply Z.ltb_ge in Hneg.
      destruct (IH (c + d) Hneg) as [[Hall Heq]|[[n Hn] Heq]].
      * left. split.
        -- intros [|n].
           ++ change (firstn 0 (ch :: s)) with (@nil N).
              change (parenDepth []) with 0. lia.
           ++ change (firstn (S n) (ch :: s)) with (ch :: firstn n s).
              rewrite parenDepth_cons. fold d. specialize (Hall n). lia.
        -- rewrite Heq. f_equal. lia.
      * right. split; [|exact Heq].
        exists (S n). change (firstn (S n) (ch :: s)) with (ch :: firstn n s).
        rewrite parenDepth_cons. fold d. lia.
Qed.

Lemma checkRequired_entries (pats : list RegExp.t) (code : jsstring)
    (errors : list jsstring) (e : jsstring) :
  In e (checkRequired pats code errors) ->
  In e errors \/ exists p, e = js "Missing required pattern: " ++ source p.
Proof.
  revert errors. induction pats as [|p pats IH]; intros errors; simpl; [auto|].
  intros H. apply IH in H as [H|H]; [|auto].
  destruct (negb _); [|auto].
  apply in_app_or in H as [H|[H|[]]]; [auto|]. right. exists p. auto.
Qed.

(** The errors [validateBasicStructure] holds when it comes to the
    parentheses: none of them is the error of the parentheses. *)
Lemma before_parens_no_paren_error (v : t) (code : jsstring) :
  let errors :=
    if len (trim code) <? 20
    then [] ++ [js "Code is too short to be a valid component"] else [] in
  let errors :=
    if 50000 <? len code
    then errors ++ [js "Code is too long (>50KB)"] else errors in
  let errors := checkRequired (requiredPatterns v) code errors in
  let errors :=
    if negb (countMatches (lit "{") code =? countMatches (lit "}") code)
    then errors ++ [js "Unbalanced braces in code"] else errors in
  ~ In (js "Unbalanced parentheses in code") errors.
Proof.
  cbv zeta. intros H.
  assert (Hreq : ~ In (js "Unbalanced parentheses in code")
                   (checkRequired (requiredPatterns v) code
                      (if 50000 <? len code
                       then (if len (trim code) <? 20
                             then [] ++ [js "Code is too short to be a valid component"]
                             else []) ++ [js "Code is too long (>50KB)"]
                       else if len (trim code) <? 20
                            then [] ++ [js "Code is too short to be a valid component"]
                            else []))).
  { intros Hin. apply checkRequired_entries in Hin as [Hin|[p Hp]].
    - destruct (50000 <? len code), (len (trim code) <? 20); simpl in Hin;
        repeat (destruct Hin as [Hin|Hin]; [vm_compute in Hin; discriminate Hin|]);
        exact Hin.
    - vm_compute in Hp. discriminate Hp. }
  destruct (negb _); [|exact (Hreq H)].
  apply in_app_or in H as [H|[H|[]]]; [exact (Hreq H)|].
  vm_compute in H. discriminate H.
Qed.

End ParenFacts.

(** X6.  [validateBasicStructure] reports the parentheses exactly when
    they do not pair up: the error [Unbalanced parentheses in code] is
    among the errors of a call if and only if some closing parenthesis
    comes before its opening one or some parenthesis stays open. *)
Theorem paren_error_iff_not_well_nested (v : CodeValidator.t) (code : jsstring) :
  In (js "Unbalanced parentheses in code")
     (CodeValidator.validateBasicStructure v code [])
  <-> ~ wellNested code.
Proof.
  unfold CodeValidator.validateBasicStructure.
  pose proof (before_parens_no_paren_error v code) as Hbefore. cbv zeta in Hbefore.
  set (errors := if negb _ then _ else _) in *. clearbody errors.
  destruct (parenLoop_spec code 0 errors ltac:(lia)) as [[Hall Heq]|[[n Hn] Heq]];
    rewrite Heq; rewrite ?Z.add_0_l in *.
  - destruct (parenDepth code =? 0)%Z eqn:Hzero; simpl negb; cbv iota.
    + apply Z.eqb_eq in Hzero. split; [intros H; destruct (Hbefore H)|].
      intros Hnot. destruct Hnot. split; [exact Hzero|].
      intros k. specialize (Hall k). lia.
    + apply Z.eqb_neq in Hzero. split.
      * intros _ [Hz _]. exact (Hzero Hz).
      * intros _. apply in_or_app. right. left. reflexivity.
  - simpl negb. cbv iota. split.
    + intros _ [_ Hnonneg]. specialize (Hnonneg n). lia.
    + intros _. apply in_or_app. right. left. reflexivity.
Qed.

(** X7.  A closing parenthesis that comes before its opening one is
    reported twice: the loop pushes the error and leaves with the count
    at -1, and the check of the count after the loop pushes it again. *)
Theorem surplus_closing_paren_reported_twice (v : CodeValidator.t) (code : jsstring) :
  surplusClosing code ->
  exists errors,
    CodeValidator.validateBasicStructure v code []
    = errors ++ [js "Unbalanced parentheses in code";
                 js "Unbalanced parentheses in code"]
    /\ ~ In (js "Unbalanced parentheses in code") errors.
Proof.
  intros [n Hn]. unfold CodeValidator.validateBasicStructure.
  pose proof (before_parens_no_paren_error v code) as Hbefore. cbv zeta in Hbefore.
  set (errors := if negb _ then _ else _) in *. clearbody errors.
  exists errors. split; [|exact Hbefore].
  destruct (parenLoop_spec code 0 errors ltac:(lia)) as [[Hall Heq]|[_ Heq]];
    rewrite Heq.
  - specialize (Hall n). lia.
  - simpl. rewrite <- app_assoc. reflexivity.
Qed.

Lemma surplus_closing_paren_reported_twice_witness :
  exists errors,
    CodeValidator.validateBasicStructure CodeValidator.new (js ")(") []
    = errors ++ [js "Unbalanced parentheses in code";
                 js "Unbalanced parentheses in code"]
    /\ ~ In (js "Unbalanced parentheses in code") errors.
Proof.
  apply surplus_closing_paren_reported_twice.
  exists 1%nat. vm_compute. reflexivity.
Defined.

(** ** The compiler and the object URLs *)

Section UrlFacts.

Lemma blobUrl_is_blob (n : N) : startsWith (js "blob:") (blobUrl n) = true.
Proof. apply startsWith_app. Qed.

(** What [compileBody] does to the blob store, by what it returns. *)
Lemma compileComponent_cases
    (babelTransform : jsstring -> exn + option jsstring) (b : BlobStore)
    (jsxCode componentName : jsstring) :
  (exists e, Compiler.compileComponent babelTransform b jsxCode componentName
             = (inr (Compiler.Compilation false None None (Some e) None), b))
  \/ (exists c, c <> []
      /\ babelTransform jsxCode = inr (Some c)
      /\ Compiler.compileComponent babelTransform b jsxCode componentName
         = (inr (Compiler.Compilation true (Some c) (Some (blobUrl (nextBlob b)))
                   None (Some [])),
            Blobs (nextBlob b + 1)
                  (<[blobUrl (nextBlob b) := Compiler.moduleCode c componentName]>
                     (live b)))).
Proof.
  unfold Compiler.compileComponent, Compiler.compileBody.
  destruct (eqs (trim jsxCode) []); [left; eauto|].
  destruct (babelTransform jsxCode) as [e|[[|ch c]|]]; [left; eauto|left; eauto| |left; eauto].
  right. exists (ch :: c). split; [discriminate|]. split; reflexivity.
Qed.

End UrlFacts.

(** X8.  [compileComponent] never rejects, and its result carries a
    module URL exactly when it reports success: on success the URL is
    live in the blob store after the call and holds the module text made
    from the transpiled code, which is not empty; on failure the result
    carries the error and the blob store is the one before the call. *)
Theorem compileComponent_url_iff_success
    (babelTransform : jsstring -> exn + option jsstring) (b : BlobStore)
    (jsxCode componentName : jsstring) :
  exists result b',
    Compiler.compileComponent babelTransform b jsxCode componentName = (inr result, b')
    /\ match Compiler.moduleUrl result with
       | Some url =>
           Compiler.success result = true
           /\ Compiler.error result = None
           /\ exists c, c <> []
                /\ Compiler.code result = Some c
                /\ live b' !! url = Some (Compiler.moduleCode c componentName)
       | None =>
           Compiler.success result = false
           /\ is_Some (Compiler.error result)
           /\ Compiler.code result = None
           /\ b' = b
       end.
Proof.
  destruct (compileComponent_cases babelTransform b jsxCode componentName)
    as [[e ->]|(c & Hc & _ & ->)]; eexists _, _; (split; [reflexivity|]); simpl.
  - repeat split. eauto.
  - repeat split. exists c. repeat split; [exact Hc|]. apply lookup_insert_eq.
Qed.

(** X9.  Compiling and then handing the module URL to [cleanupModuleUrl]
    leaves the blob store with the live URLs it had before the
    compilation, when the URL the browser makes is a new one. *)
Theorem compile_then_cleanup_restores_live
    (babelTransform : jsstring -> exn + option jsstring) (b b' : BlobStore)
    (jsxCode componentName : jsstring) (result : Compiler.CompilationResult)
    (url : jsstring) :
  live b !! blobUrl (nextBlob b) = None ->
  Compiler.compileComponent babelTransform b jsxCode componentName = (inr result, b') ->
  Compiler.moduleUrl result = Some url ->
  live (Compiler.cleanupModuleUrl b' url) = live b.
Proof.
  intros Hfresh Hcompile Hurl.
  destruct (compileComponent_cases babelTransform b jsxCode componentName)
    as [[e H]|(c & _ & _ & H)]; rewrite H in Hcompile; injection Hcompile as <- <-.
  - discriminate Hurl.
  - injection Hurl as <-. unfold Compiler.cleanupModuleUrl.
    rewrite blobUrl_is_blob. simpl. apply delete_insert_id, Hfresh.
Qed.

Lemma compile_then_cleanup_restores_live_witness :
  live (Compiler.cleanupModuleUrl
          (snd (Compiler.compileComponent Scenario.babel (Blobs 0 ∅)
                  ValidatorTests.goodSource (js "panel-1")))
          (blobUrl 0))
  = ∅.
Proof.
  apply (compile_then_cleanup_restores_live Scenario.babel (Blobs 0 ∅) _
           ValidatorTests.goodSource (js "panel-1")
           (Compiler.Compilation true (Some ValidatorTests.goodSource)
              (Some (blobUrl 0)) None (Some []))).
  - reflexivity.
  - vm_compute. reflexivity.
  - reflexivity.
Defined.

(** ** The registry: lookups, removal and the object URLs *)

Section RegistryMoreFacts.

Context {Component : Type}.
Variable babelTransform : jsstring -> exn + option jsstring.
Variable dynamicImport : jsstring -> BlobStore -> exn + moduleDefault Component.

Local Abbreviation registerPanelFromJSX :=
  (Registry.registerPanelFromJSX babelTransform dynamicImport).
Local Abbreviation updatePanel := (Registry.updatePanel babelTransform dynamicImport).

(** A registration that succeeds, in full: the compilation succeeded,
    the import gave a component, and both entries are stored. *)
Lemma registerPanelFromJSX_success_inv (r r' : Registry.t Component) (w w' : World)
    (id jsxCode : jsstring) (metadata : Registry.PartialMetadata) (now : Z)
    (component : Component) :
  registerPanelFromJSX r w id jsxCode metadata now = (inr component, r', w') ->
  exists c,
    c <> []
    /\ babelTransform jsxCode = inr (Some c)
    /\ w' = withStore w (Blobs (nextBlob (store w) + 1)
                           (<[blobUrl (nextBlob (store w))
                              := Compiler.moduleCode c id]> (live (store w))))
    /\ Registry.loadComponent dynamicImport w' (blobUrl (nextBlob (store w))) now
       = inr component
    /\ r' = Registry.Registry_
              (<[id := Registry.Panel id (Compiler.extractComponentName jsxCode) jsxCode
                         (Some c) (Some component)
                         (Registry.spreadOver now now (js "ai")
                            (Compiler.extractDependencies jsxCode) metadata)]>
                 (Registry.panels r))
              (<[id := CacheEntry component (blobUrl (nextBlob (store w))) now c]>
                 (Registry.componentCache r)).
Proof.
  unfold Registry.registerPanelFromJSX.
  destruct (compileComponent_cases babelTransform (store w) jsxCode id)
    as [[e ->]|(c & Hc & Hbabel & ->)].
  - cbn. discriminate.
  - assert (Hurl : Registry.usableUrl
                     (Compiler.Compilation true (Some c)
                        (Some (blobUrl (nextBlob (store w)))) None (Some []))
                   = Some (blobUrl (nextBlob (store w)))) by reflexivity.
    rewrite Hurl.
    destruct (Registry.loadComponent _ _ _ _) as [e1|c1] eqn:Hload; [discriminate|].
    intros H; injection H as <- <- <-.
    exists c. repeat split; auto.
Qed.

End RegistryMoreFacts.

(** X10.  After a registration that succeeds, [getPanel] of the identity
    gives a panel with the source that was registered and the loaded
    component, [getComponent] gives that component, and the lookups of
    every other identity give what they gave before. *)
Theorem registerPanelFromJSX_then_lookup {Component : Type}
    (babelTransform : jsstring -> exn + option jsstring)
    (dynamicImport : jsstring -> BlobStore -> exn + moduleDefault Component)
    (r r' : Registry.t Component) (w w' : World)
    (id jsxCode : jsstring) (metadata : Registry.PartialMetadata) (now : Z)
    (component : Component) :
  Registry.registerPanelFromJSX babelTransform dynamicImport r w id jsxCode metadata now
    = (inr component, r', w') ->
  (exists panel,
     Registry.getPanel r' id = Some panel
     /\ Registry.id panel = id
     /\ Registry.jsxCode panel = jsxCode
     /\ Registry.component panel = Some component
     /\ Registry.name panel = Compiler.extractComponentName jsxCode)
  /\ Registry.getComponent r' id = Some component
  /\ forall other, other <> id ->
       Registry.getPanel r' other = Registry.getPanel r other
       /\ Registry.getComponent r' other = Registry.getComponent r other.
Proof.
  intros H. apply registerPanelFromJSX_success_inv in H
    as (c & _ & _ & _ & _ & ->).
  unfold Registry.getPanel, Registry.getComponent. simpl.
  split; [|split].
  - eexists. rewrite lookup_insert_eq. repeat split.
  - rewrite lookup_insert_eq. reflexivity.
  - intros other Hother. rewrite !lookup_insert_ne by congruence. auto.
Qed.

Lemma registerPanelFromJSX_then_lookup_witness :
  Registry.getComponent
    (snd (fst (Registry.registerPanelFromJSX Scenario.babel Scenario.import
                 Registry.new Scenario.emptyWorld (js "panel-2")
                 ValidatorTests.goodSource Registry.noMetadata 1000)))
    (js "panel-2")
  = Some (js "blob:0?t=1000").
Proof.
  refine (proj1 (proj2 (registerPanelFromJSX_then_lookup Scenario.babel Scenario.import
                          Registry.new _ Scenario.emptyWorld _ (js "panel-2")
                          ValidatorTests.goodSource Registry.noMetadata 1000
                          (js "blob:0?t=1000") _))).
  vm_compute. reflexivity.
Defined.

(** X11.  [removePanel] takes the identity out of both maps and leaves
    every other identity as it was; it dispatches no event; for an
    identity without a cached entry the blob store is left as it was. *)
Theorem removePanel_lookup {Component : Type} (r : Registry.t Component) (w : World)
    (id : jsstring) :
  let r' := fst (Registry.removePanel r w id) in
  let w' := snd (Registry.removePanel r w id) in
  Registry.getPanel r' id = None
  /\ Registry.getComponent r' id = None
  /\ (forall other, other <> id ->
        Registry.getPanel r' other = Registry.getPanel r other
        /\ Registry.getComponent r' other = Registry.getComponent r other)
  /\ dispatched w' = dispatched w
  /\ (Registry.getComponent r id = None -> w' = w).
Proof.
  unfold Registry.removePanel, Registry.getPanel, Registry.getComponent,
    Registry.cleanupCached. simpl.
  rewrite !lookup_delete_eq. repeat split.
  - rewrite lookup_delete_ne by congruence. reflexivity.
  - rewrite lookup_delete_ne by congruence. reflexivity.
  - destruct (Registry.componentCache r !! id) as [cache|]; [|reflexivity].
    destruct (Browser.moduleUrl cache); reflexivity.
  - destruct (Registry.componentCache r !! id) as [cache|]; [discriminate|reflexivity].
Qed.

(** X12.  [removePanel] revokes the object URL of the cached entry: a
    blob URL the cache held for the identity is not live after the call,
    and every other URL is as it was. *)
Theorem removePanel_revokes_cached_url {Component : Type}
    (r : Registry.t Component) (w : World) (id : jsstring)
    (cache : ComponentCacheEntry Component) :
  Registry.componentCache r !! id = Some cache ->
  startsWith (js "blob:") (Browser.moduleUrl cache) = true ->
  let w' := snd (Registry.removePanel r w id) in
  live (store w') !! Browser.moduleUrl cache = None
  /\ forall url, url <> Browser.moduleUrl cache ->
       live (store w') !! url = live (store w) !! url.
Proof.
  intros Hcache Hblob. unfold Registry.removePanel, Registry.cleanupCached. simpl.
  rewrite Hcache.
  destruct (Browser.moduleUrl cache) as [|ch url] eqn:Hurl; [discriminate Hblob|].
  unfold Compiler.cleanupModuleUrl. rewrite Hblob. simpl. split.
  - apply lookup_delete_eq.
  - intros other Hother. apply lookup_delete_ne. congruence.
Qed.

Lemma removePanel_revokes_cached_url_witness :
  let registered :=
    Registry.registerPanelFromJSX Scenario.babel Scenario.import
      Registry.new Scenario.emptyWorld (js "panel-2") ValidatorTests.goodSource
      Registry.noMetadata 1000 in
  is_Some (live (store (snd registered)) !! blobUrl 0)
  /\ live (store (snd (Registry.removePanel (snd (fst registered)) (snd registered)
                         (js "panel-2")))) !! blobUrl 0 = None.
Proof.
  intros registered. split; [vm_compute; eauto|].
  refine (proj1 (removePanel_revokes_cached_url (snd (fst registered)) (snd registered)
                   (js "panel-2")
                   (CacheEntry (js "blob:0?t=1000") (blobUrl 0) 1000
                               ValidatorTests.goodSource) _ _)).
  - vm_compute. reflexivity.
  - reflexivity.
Defined.

(** X13.  [registerPanelFromJSX] revokes nothing: when an identity that
    has a cached entry is registered again, the object URL of the old
    entry stays live with its text although the cache now holds another
    URL for the identity, so nothing is left to revoke it by. *)
Theorem reregistration_leaves_old_url_live {Component : Type}
    (babelTransform : jsstring -> exn + option jsstring)
    (dynamicImport : jsstring -> BlobStore -> exn + moduleDefault Component)
    (r r' : Registry.t Component) (w w' : World)
    (id jsxCode : jsstring) (metadata : Registry.PartialMetadata) (now : Z)
    (component : Component) (old : ComponentCacheEntry Component) (text : jsstring) :
  Registry.registerPanelFromJSX babelTransform dynamicImport r w id jsxCode metadata now
    = (inr component, r', w') ->
  Registry.componentCache r !! id = Some old ->
  live (store w) !! Browser.moduleUrl old = Some text ->
  live (store w) !! blobUrl (nextBlob (store w)) = None ->
  live (store w') !! Browser.moduleUrl old = Some text
  /\ exists cache,
       Registry.componentCache r' !! id = Some cache
       /\ Browser.moduleUrl cache <> Browser.moduleUrl old
       /\ is_Some (live (store w') !! Browser.moduleUrl cache).
Proof.
  intros Hreg Hold Hlive Hfresh.
  split; [exact (registerPanelFromJSX_keeps_live _ _ _ _ _ _ _ _ _ _ _ _ _ Hreg Hfresh Hlive)|].
  apply registerPanelFromJSX_success_inv in Hreg as (c & _ & _ & -> & _ & ->).
  eexists. simpl. rewrite lookup_insert_eq. split; [reflexivity|]. simpl. split.
  - intros Heq. rewrite Heq, Hlive in Hfresh. discriminate Hfresh.
  - rewrite lookup_insert_eq. eauto.
Qed.

Lemma reregistration_leaves_old_url_live_witness :
  let first :=
    Registry.registerPanelFromJSX Scenario.babel Scenario.import
      Registry.new Scenario.emptyWorld (js "panel-2") ValidatorTests.goodSource
      Registry.noMetadata 1000 in
  let second :=
    Registry.registerPanelFromJSX Scenario.babel Scenario.import
      (snd (fst first)) (snd first) (js "panel-2") ValidatorTests.goodSource
      Registry.noMetadata 2000 in
  is_Some (live (store (snd second)) !! blobUrl 0)
  /\ Browser.moduleUrl <$> Registry.componentCache (snd (fst second)) !! js "panel-2"
     = Some (blobUrl 1).
Proof.
  intros first second.
  assert (H2 : second = (inr (js "blob:1?t=2000"), snd (fst second), snd second))
    by (vm_compute; reflexivity).
  destruct (reregistration_leaves_old_url_live Scenario.babel Scenario.import
              (snd (fst first)) (snd (fst second)) (snd first) (snd second)
              (js "panel-2") ValidatorTests.goodSource Registry.noMetadata 2000
              (js "blob:1?t=2000")
              (CacheEntry (js "blob:0?t=1000") (blobUrl 0) 1000 ValidatorTests.goodSource)
              (Compiler.moduleCode ValidatorTests.goodSource (js "panel-2"))
              H2 ltac:(vm_compute; reflexivity) ltac:(vm_compute; reflexivity)
              ltac:(vm_compute; reflexivity))
    as [Hlive _].
  split; [exact (ex_intro _ _ Hlive)|vm_compute; reflexivity].
Defined.

(** ** The registry: updates *)

Section UpdateFacts.

Context {Component : Type}.

Lemma cleanupCached_dispatched (r : Registry.t Component) (w : World) (id : jsstring) :
  dispatched (Registry.cleanupCached r w id) = dispatched w.
Proof.
  unfold Registry.cleanupCached.
  destruct (Registry.componentCache r !! id) as [cache|]; [|reflexivity].
  destruct (Browser.moduleUrl cache); reflexivity.
Qed.

End UpdateFacts.

(** X14.  An update that succeeds stores the new source and the loaded
    component under the identity and keeps the panel's metadata but for
    [updatedAt]: [createdAt], [creator], the tags and the rest are those
    of the panel before, and so are the [dependencies], which are not
    read again from the new source.  It dispatches one
    [panel-hmr-update] event, which carries the identity and the new
    source. *)
Theorem updatePanel_keeps_metadata {Component : Type}
    (babelTransform : jsstring -> exn + option jsstring)
    (dynamicImport : jsstring -> BlobStore -> exn + moduleDefault Component)
    (r r' : Registry.t Component) (w w' : World) (id jsxCode : jsstring) (now : Z)
    (component : Component) (existing : Registry.PanelDefinition Component) :
  Registry.getPanel r id = Some existing ->
  Registry.updatePanel babelTransform dynamicImport r w id jsxCode now
    = (inr component, r', w') ->
  (exists panel updatedAt,
     Registry.getPanel r' id = Some panel
     /\ Registry.jsxCode panel = jsxCode
     /\ Registry.component panel = Some component
     /\ Registry.metadata panel
        = let old := Registry.metadata existing in
          Registry.Metadata (Registry.createdAt old) updatedAt (Registry.creator old)
            (Registry.dependencies old) (Registry.tags old) (Registry.description old)
            (Registry.panelType old) (Registry.error old) (Registry.warnings old))
  /\ exists timestamp,
       dispatched w' = dispatched w ++ [PanelHmrUpdate id jsxCode timestamp].
Proof.
  unfold Registry.getPanel, Registry.updatePanel. intros ->.
  destruct (Registry.registerPanelFromJSX _ _ r (Registry.cleanupCached r w id)
              id jsxCode _ now) as [[[e|c] r0] w0] eqn:Hreg; [discriminate|].
  intros H; injection H as <- <- <-.
  pose proof (proj1 (registerPanelFromJSX_world _ _ _ _ _ _ _ _ _ _ _ Hreg)) as Hd.
  apply registerPanelFromJSX_success_inv in Hreg as (c0 & _ & _ & _ & _ & ->).
  split.
  - eexists _, _. simpl. rewrite lookup_insert_eq. repeat split.
  - eexists. simpl. rewrite Hd, cleanupCached_dispatched. reflexivity.
Qed.

Lemma updatePanel_keeps_metadata_witness :
  let registered :=
    Registry.registerPanelFromJSX Scenario.babel Scenario.import
      Registry.new Scenario.emptyWorld (js "panel-2") ValidatorTests.goodSource
      Registry.noMetadata 1000 in
  let updated :=
    Registry.updatePanel Scenario.babel Scenario.import
      (snd (fst registered)) (snd registered) (js "panel-2")
      (js "const B = () => <p/>; export default B;") 2000 in
  exists timestamp,
    dispatched (snd updated)
    = [PanelHmrUpdate (js "panel-2") (js "const B = () => <p/>; export default B;")
         timestamp].
Proof.
  intros registered updated.
  refine (proj2 (updatePanel_keeps_metadata Scenario.babel Scenario.import
                   (snd (fst registered)) (snd (fst updated))
                   (snd registered) (snd updated) (js "panel-2")
                   (js "const B = () => <p/>; export default B;") 2000
                   (js "blob:1?t=2000")
                   (Registry.Panel (js "panel-2") (js "Hello") ValidatorTests.goodSource
                      (Some ValidatorTests.goodSource) (Some (js "blob:0?t=1000"))
                      (Registry.Metadata 1000 1000 (js "ai") [js "react"]
                         None None None None None))
                   _ _)).
  - vm_compute. reflexivity.
  - vm_compute. reflexivity.
Defined.

(** X15.  [updatePanel] neither adds nor removes a panel, whatever its
    result: the identities that have a panel after the call are those
    that had one before.  Called for an identity that has no panel it
    fails with [Panel ... not found] and leaves the registry, the blob
    store and the dispatched events as they were. *)
Theorem updatePanel_keeps_identities {Component : Type}
    (babelTransform : jsstring -> exn + option jsstring)
    (dynamicImport : jsstring -> BlobStore -> exn + moduleDefault Component)
    (r : Registry.t Component) (w : World) (id jsxCode : jsstring) (now : Z) :
  let updated := Registry.updatePanel babelTransform dynamicImport r w id jsxCode now in
  (forall other,
     is_Some (Registry.getPanel (snd (fst updated)) other)
     <-> is_Some (Registry.getPanel r other))
  /\ (Registry.getPanel r id = None ->
      updated = (inl (Error (js "Panel " ++ id ++ js " not found")), r, w)).
Proof.
  unfold Registry.getPanel, Registry.updatePanel.
  destruct (Registry.panels r !! id) as [existing|] eqn:Hpanel; cbv zeta.
  - split; [|discriminate].
    destruct (Registry.registerPanelFromJSX _ _ r (Registry.cleanupCached r w id)
                id jsxCode _ now) as [[[e|c] r0] w0] eqn:Hreg; simpl; intros other.
    + rewrite (registerPanelFromJSX_failure _ _ _ _ _ _ _ _ _ _ _ Hreg). reflexivity.
    + apply registerPanelFromJSX_success_inv in Hreg as (c0 & _ & _ & _ & _ & ->).
      simpl. destruct (decide (other = id)) as [->|Hne].
      * rewrite lookup_insert_eq, Hpanel. split; eauto.
      * rewrite lookup_insert_ne by congruence. reflexivity.
  - simpl. split; [reflexivity|auto].
Qed.

(** ** The hot-replacement manager: updates, statistics and cleanup *)

Section UpdatedFacts.

Context {Component : Type}.
Variable babelTransform : jsstring -> exn + option jsstring.
Variable dynamicImport : jsstring -> BlobStore -> exn + moduleDefault Component.

(** A call that ends its [try] block, in full. *)
Lemma updateComponent_updated_inv (m m' : HMR.t Component) (w w' : World)
    (panelId newJSXCode : jsstring) (now : Z) (promise : exn + unit) :
  HMR.updateComponent babelTransform dynamicImport m w panelId newJSXCode now
  = (HMR.Settled HMR.Updated promise, m', w') ->
  exists c code,
    (panelId ∉ HMR.updateQueue m)
    /\ code <> []
    /\ babelTransform newJSXCode = inr (Some code)
    /\ promise = inr tt
    /\ m' = HMR.Manager
              (<[panelId := CacheEntry c (blobUrl (nextBlob (store w))) now code]>
                 (HMR.componentCache m))
              (({[panelId]} ∪ HMR.updateQueue m) ∖ {[panelId]})
              (HMR.viteHMR m)
    /\ dispatched w'
       = dispatched w ++ (PanelHmrUpdate panelId [] now
                         :: (if HMR.viteHMR m then [HotInvalidate] else []))
    /\ store w'
       = store (releasedOld m
                  (withStore w
                     (Blobs (nextBlob (store w) + 1)
                        (<[blobUrl (nextBlob (store w))
                           := Compiler.moduleCode code panelId]> (live (store w)))))
                  panelId).
Proof.
  unfold HMR.updateComponent, HMR.start.
  destruct (bool_decide (panelId ∈ HMR.updateQueue m)) eqn:Hq; [discriminate|].
  apply bool_decide_eq_false in Hq.
  destruct (compileComponent_cases babelTransform (store w) newJSXCode panelId)
    as [[e ->]|(code & Hcode & Hbabel & ->)].
  - cbn. discriminate.
  - cbn [HMR.finish HMR.resume].
    assert (Hurl : Registry.usableUrl
                     (Compiler.Compilation true (Some code)
                        (Some (blobUrl (nextBlob (store w)))) None (Some []))
                   = Some (blobUrl (nextBlob (store w)))) by reflexivity.
    rewrite Hurl. cbn [HMR.componentCache].
    fold (releasedOld m
            (withStore w
               (Blobs (nextBlob (store w) + 1)
                  (<[blobUrl (nextBlob (store w))
                     := Compiler.moduleCode code panelId]> (live (store w)))))
            panelId).
    set (w1 := releasedOld m _ panelId).
    destruct (HMR.loadComponentFromUrl dynamicImport w1 _ now) as [e|c]; [discriminate|].
    cbn. intros H; injection H as <- <- <-.
    exists c, code. repeat split; auto.
    + unfold HMR.triggerHotUpdate. cbn.
      assert (Hd : dispatched w1 = dispatched w).
      { unfold w1, releasedOld. destruct (HMR.componentCache m !! panelId) as [old|];
          [|reflexivity]. destruct (Browser.moduleUrl old); reflexivity. }
      destruct (HMR.viteHMR m); cbn; rewrite Hd, <- ?app_assoc; reflexivity.
    + unfold HMR.triggerHotUpdate. cbn. destruct (HMR.viteHMR m); reflexivity.
Qed.

End UpdatedFacts.

Section StatsFacts.

Context {Component : Type}.

Local Open Scope Z_scope.

(** What an entry adds to [getTotalUpdates]. *)
Local Abbreviation counted cache :=
  (if Browser.lastUpdated cache =? 0 then 0 else 1).

Lemma getTotalUpdates_insert (cache : gmap jsstring (ComponentCacheEntry Component))
    (q : gset jsstring) (v : bool) (id : jsstring) (c : ComponentCacheEntry Component) :
  cache !! id = None ->
  HMR.getTotalUpdates (HMR.Manager (<[id := c]> cache) q v)
  = HMR.getTotalUpdates (HMR.Manager cache q v) + counted c.
Proof.
  intros Hnone. unfold HMR.getTotalUpdates. simpl.
  rewrite map_fold_insert_L; [reflexivity| |exact Hnone].
  intros. lia.
Qed.

Lemma getTotalUpdates_delete (cache : gmap jsstring (ComponentCacheEntry Component))
    (q : gset jsstring) (v : bool) (id : jsstring) (c : ComponentCacheEntry Component) :
  cache !! id = Some c ->
  HMR.getTotalUpdates (HMR.Manager cache q v)
  = HMR.getTotalUpdates (HMR.Manager (delete id cache) q v) + counted c.
Proof.
  intros Hsome. unfold HMR.getTotalUpdates. simpl.
  rewrite (map_fold_delete_L _ _ id c cache); [reflexivity| |exact Hsome].
  intros. lia.
Qed.

Lemma getTotalUpdates_bounds (m : HMR.t Component) :
  0 <= HMR.getTotalUpdates m <= Z.of_nat (size (HMR.componentCache m)).
Proof.
  unfold HMR.getTotalUpdates.
  apply (map_fold_weak_ind (fun total cache => 0 <= total <= Z.of_nat (size cache))).
  - rewrite map_size_empty. lia.
  - intros i c cache total Hnone IH. rewrite map_size_insert_None by exact Hnone.
    destruct (Browser.lastUpdated c =? 0); lia.
Qed.

Lemma getTotalUpdates_all (m : HMR.t Component) :
  (forall id c, HMR.componentCache m !! id = Some c -> Browser.lastUpdated c <> 0) ->
  HMR.getTotalUpdates m = Z.of_nat (size (HMR.componentCache m)).
Proof.
  unfold HMR.getTotalUpdates.
  apply (map_fold_weak_ind
           (fun total cache =>
              (forall id c, cache !! id = Some c -> Browser.lastUpdated c <> 0) ->
              total = Z.of_nat (size cache))).
  - intros _. rewrite map_size_empty. reflexivity.
  - intros i c cache total Hnone IH Hall. rewrite map_size_insert_None by exact Hnone.
    rewrite IH.
    + assert (Hc : Browser.lastUpdated c <> 0) by (apply (Hall i), lookup_insert_eq).
      apply Z.eqb_neq in Hc. rewrite Hc. lia.
    + intros id c' Hc'. apply (Hall id). rewrite lookup_insert_ne; [exact Hc'|].
      intros <-. rewrite Hnone in Hc'. discriminate Hc'.
Qed.

End StatsFacts.



(** X17.  [totalUpdates] of [getStats] lies between 0 and
    [cachedComponents], and equals it when no cached entry has 0 for
    [lastUpdated]: it counts the entries, not the updates. *)
Theorem totalUpdates_counts_entries {Component : Type} (m : HMR.t Component) :
  (0 <= HMR.totalUpdates (HMR.getStats m)
   <= Z.of_nat (HMR.cachedComponents (HMR.getStats m)))%Z
  /\ ((forall id cache,
         HMR.getComponent m id = Some cache -> Browser.lastUpdated cache <> 0%Z) ->
      HMR.totalUpdates (HMR.getStats m)
      = Z.of_nat (HMR.cachedComponents (HMR.getStats m))).
Proof.
  split; [apply getTotalUpdates_bounds|apply getTotalUpdates_all].
Qed.

(** X18.  An update of an identity that is cached already does not raise
    [totalUpdates]: when a call of [updateComponent] ends its [try] block
    at a clock reading that is not 0, for an identity whose cached entry
    has a [lastUpdated] that is not 0, [totalUpdates] and
    [cachedComponents] of [getStats] are what they were before the
    call. *)
Theorem repeated_update_not_counted {Component : Type}
    (babelTransform : jsstring -> exn + option jsstring)
    (dynamicImport : jsstring -> BlobStore -> exn + moduleDefault Component)
    (m m' : HMR.t Component) (w w' : World) (panelId newJSXCode : jsstring)
    (now : Z) (promise : exn + unit) (old : ComponentCacheEntry Component) :
  HMR.updateComponent babelTransform dynamicImport m w panelId newJSXCode now
  = (HMR.Settled HMR.Updated promise, m', w') ->
  HMR.getComponent m panelId = Some old ->
  Browser.lastUpdated old <> 0%Z ->
  now <> 0%Z ->
  HMR.totalUpdates (HMR.getStats m') = HMR.totalUpdates (HMR.getStats m)
  /\ HMR.cachedComponents (HMR.getStats m') = HMR.cachedComponents (HMR.getStats m).
Proof.
  intros H Hold Ho Hn. apply updateComponent_updated_inv in H
    as (c & code & _ & _ & _ & _ & -> & _ & _).
  unfold HMR.getComponent in Hold. destruct m as [cache q v]. simpl in *. split.
  - rewrite <- (insert_delete_eq cache panelId).
    rewrite getTotalUpdates_insert by apply lookup_delete_eq.
    rewrite (getTotalUpdates_delete cache q v panelId old Hold). simpl.
    apply Z.eqb_neq in Ho, Hn. rewrite Ho, Hn. reflexivity.
  - apply map_size_insert_Some. eauto.
Qed.

Lemma repeated_update_not_counted_witness :
  let first :=
    HMR.updateComponent Scenario.babel Scenario.import
      (HMR.Manager ∅ ∅ false) Scenario.emptyWorld (js "panel-3")
      ValidatorTests.goodSource 1000 in
  let second :=
    HMR.updateComponent Scenario.babel Scenario.import
      (snd (fst first)) (snd first) (js "panel-3") ValidatorTests.goodSource 2000 in
  HMR.totalUpdates (HMR.getStats (snd (fst first))) = 1%Z
  /\ HMR.totalUpdates (HMR.getStats (snd (fst second))) = 1%Z.
Proof.
  intros first second.
  assert (H1 : HMR.totalUpdates (HMR.getStats (snd (fst first))) = 1%Z)
    by (vm_compute; reflexivity).
  split; [exact H1|].
  rewrite <- H1.
  refine (proj1 (repeated_update_not_counted Scenario.babel Scenario.import
                   (snd (fst first)) (snd (fst second)) (snd first) (snd second)
                   (js "panel-3") ValidatorTests.goodSource 2000 (inr tt)
                   (CacheEntry (js "blob:0?t=1000") (blobUrl 0) 1000
                      ValidatorTests.goodSource) _ _ _ _)).
  - vm_compute. reflexivity.
  - vm_compute. reflexivity.
  - discriminate.
  - discriminate.
Defined.

Section OutcomeFacts.

Context {Component : Type}.
Variable babelTransform : jsstring -> exn + option jsstring.
Variable dynamicImport : jsstring -> BlobStore -> exn + moduleDefault Component.

Lemma releasedOld_dispatched (m : HMR.t Component) (w : World) (panelId : jsstring) :
  dispatched (releasedOld m w panelId) = dispatched w.
Proof.
  unfold releasedOld. destruct (HMR.componentCache m !! panelId) as [old|]; [|reflexivity].
  destruct (Browser.moduleUrl old); reflexivity.
Qed.

(** The ways a call that nothing interleaves with can go, with the
    manager and the world each leaves. *)
Lemma updateComponent_cases (m : HMR.t Component) (w : World)
    (panelId newJSXCode : jsstring) (now : Z) :
  let compiledWorld code :=
    withStore w (Blobs (nextBlob (store w) + 1)
                   (<[blobUrl (nextBlob (store w))
                      := Compiler.moduleCode code panelId]> (live (store w)))) in
  let marked cache :=
    HMR.Manager cache (({[panelId]} ∪ HMR.updateQueue m) ∖ {[panelId]}) (HMR.viteHMR m) in
  (panelId ∈ HMR.updateQueue m
   /\ HMR.updateComponent babelTransform dynamicImport m w panelId newJSXCode now
      = (HMR.Settled HMR.Dropped (inr tt), HMR.finallyBlock m panelId, w))
  \/ ((panelId ∉ HMR.updateQueue m)
      /\ exists e,
           Compiler.compileComponent babelTransform (store w) newJSXCode panelId
           = (inr (Compiler.Compilation false None None (Some e) None), store w)
           /\ HMR.updateComponent babelTransform dynamicImport m w panelId newJSXCode now
              = (HMR.Settled
                   (HMR.Caught (Error (js "Compilation failed: " ++ message e))) (inr tt),
                 marked (HMR.componentCache m),
                 dispatchEvent w
                   (PanelHmrError panelId (js "Compilation failed: " ++ message e))))
  \/ ((panelId ∉ HMR.updateQueue m)
      /\ exists code e,
           code <> []
           /\ babelTransform newJSXCode = inr (Some code)
           /\ HMR.loadComponentFromUrl dynamicImport
                (releasedOld m (compiledWorld code) panelId)
                (blobUrl (nextBlob (store w))) now = inl e
           /\ HMR.updateComponent babelTransform dynamicImport m w panelId newJSXCode now
              = (HMR.Settled (HMR.Caught e) (inr tt),
                 marked (HMR.componentCache m),
                 dispatchEvent (releasedOld m (compiledWorld code) panelId)
                   (PanelHmrError panelId (message e))))
  \/ ((panelId ∉ HMR.updateQueue m)
      /\ exists code c,
           code <> []
           /\ babelTransform newJSXCode = inr (Some code)
           /\ HMR.loadComponentFromUrl dynamicImport
                (releasedOld m (compiledWorld code) panelId)
                (blobUrl (nextBlob (store w))) now = inr c
           /\ HMR.updateComponent babelTransform dynamicImport m w panelId newJSXCode now
              = (HMR.Settled HMR.Updated (inr tt),
                 marked (<[panelId := CacheEntry c (blobUrl (nextBlob (store w))) now code]>
                           (HMR.componentCache m)),
                 HMR.triggerHotUpdate m (releasedOld m (compiledWorld code) panelId)
                   panelId now)).
Proof.
  cbv zeta. unfold HMR.updateComponent, HMR.start.
  destruct (bool_decide (panelId ∈ HMR.updateQueue m)) eqn:Hq.
  { apply bool_decide_eq_true in Hq. left. split; [exact Hq|reflexivity]. }
  apply bool_decide_eq_false in Hq. right.
  destruct (compileComponent_cases babelTransform (store w) newJSXCode panelId)
    as [[e He]|(code & Hcode & Hbabel & Hc)]; rewrite ?He, ?Hc.
  - left. split; [exact Hq|]. exists e. split; [reflexivity|].
    cbn. destruct w; reflexivity.
  - right. cbn [HMR.finish HMR.resume].
    assert (Hurl : Registry.usableUrl
                     (Compiler.Compilation true (Some code)
                        (Some (blobUrl (nextBlob (store w)))) None (Some []))
                   = Some (blobUrl (nextBlob (store w)))) by reflexivity.
    rewrite Hurl. cbn [HMR.componentCache].
    fold (releasedOld m
            (withStore w
               (Blobs (nextBlob (store w) + 1)
                  (<[blobUrl (nextBlob (store w))
                     := Compiler.moduleCode code panelId]> (live (store w)))))
            panelId).
    set (w1 := releasedOld m _ panelId).
    destruct (HMR.loadComponentFromUrl dynamicImport w1 _ now) as [e|c] eqn:Hload.
    + left. split; [exact Hq|]. exists code, e. repeat split; auto.
    + right. split; [exact Hq|]. exists code, c. repeat split; auto.
Qed.

End OutcomeFacts.

(** A source that is not blank and that Babel turns into code that is
    not empty compiles. *)
Lemma compileComponent_succeeds
    (babelTransform : jsstring -> exn + option jsstring) (b : BlobStore)
    (jsxCode componentName code : jsstring) :
  trim jsxCode <> [] ->
  babelTransform jsxCode = inr (Some code) ->
  code <> [] ->
  Compiler.compileComponent babelTransform b jsxCode componentName
  = (inr (Compiler.Compilation true (Some code) (Some (blobUrl (nextBlob b)))
            None (Some [])),
     snd (createObjectURL b (Compiler.moduleCode code componentName))).
Proof.
  intros Htrim Hbabel Hcode. unfold Compiler.compileComponent, Compiler.compileBody.
  destruct (eqs (trim jsxCode) []) eqn:Hblank.
  - apply eqs_eq in Hblank. contradiction.
  - rewrite Hbabel. destruct code as [|ch code]; [contradiction|reflexivity].
Qed.

(** X19.  A call of [updateComponent] that nothing interleaves with
    settles, and its promise is fulfilled however the call went; after it
    [updateQueue] is the one before the call without the identity;
    [isConnected] is as it was; and the cached entry of every other
    identity is as it was. *)
Theorem updateComponent_frame {Component : Type}
    (babelTransform : jsstring -> exn + option jsstring)
    (dynamicImport : jsstring -> BlobStore -> exn + moduleDefault Component)
    (m : HMR.t Component) (w : World) (panelId newJSXCode : jsstring) (now : Z) :
  let call :=
    HMR.updateComponent babelTransform dynamicImport m w panelId newJSXCode now in
  let m' := snd (fst call) in
  (exists how, fst (fst call) = HMR.Settled how (inr tt))
  /\ HMR.updateQueue m' = HMR.updateQueue m ∖ {[panelId]}
  /\ HMR.viteHMR m' = HMR.viteHMR m
  /\ forall other, other <> panelId ->
       HMR.getComponent m' other = HMR.getComponent m other.
Proof.
  cbv zeta.
  assert (Hset : ({[panelId]} ∪ HMR.updateQueue m) ∖ {[panelId]}
                 = HMR.updateQueue m ∖ {[panelId]}).
  { apply set_eq. intros x. rewrite !elem_of_difference, elem_of_union. tauto. }
  destruct (updateComponent_cases babelTransform dynamicImport m w panelId newJSXCode now)
    as [(_ & ->)|[(_ & e & _ & ->)|[(_ & code & e & _ & _ & _ & ->)
                                   |(_ & code & c & _ & _ & _ & ->)]]];
    unfold HMR.getComponent; simpl; rewrite ?Hset; repeat split; eauto.
  intros other Hother. apply lookup_insert_ne. congruence.
Qed.

(** X20.  An update whose import fails leaves the cache pointing at a
    revoked URL and the new URL without an owner: when the source was
    transpiled and the load of the new module failed, the cached entry of
    the identity is the old one, the blob URL that entry carries has been
    revoked, and the URL made for the new module is live although no
    entry holds it. *)
Theorem failed_load_revokes_old_and_leaks_new {Component : Type}
    (babelTransform : jsstring -> exn + option jsstring)
    (dynamicImport : jsstring -> BlobStore -> exn + moduleDefault Component)
    (m m' : HMR.t Component) (w w' : World) (panelId newJSXCode : jsstring) (now : Z)
    (e : exn) (promise : exn + unit) (old : ComponentCacheEntry Component)
    (code : jsstring) :
  HMR.updateComponent babelTransform dynamicImport m w panelId newJSXCode now
  = (HMR.Settled (HMR.Caught e) promise, m', w') ->
  trim newJSXCode <> [] ->
  babelTransform newJSXCode = inr (Some code) ->
  code <> [] ->
  HMR.getComponent m panelId = Some old ->
  startsWith (js "blob:") (Browser.moduleUrl old) = true ->
  Browser.moduleUrl old <> blobUrl (nextBlob (store w)) ->
  HMR.getComponent m' panelId = Some old
  /\ live (store w') !! Browser.moduleUrl old = None
  /\ live (store w') !! blobUrl (nextBlob (store w))
     = Some (Compiler.moduleCode code panelId).
Proof.
  intros H Htrim Hbabel Hcode Hold Hblob Hne. unfold HMR.getComponent in *.
  pose proof (compileComponent_succeeds babelTransform (store w) newJSXCode panelId code
                Htrim Hbabel Hcode) as Hcompile.
  destruct (updateComponent_cases babelTransform dynamicImport m w panelId newJSXCode now)
    as [(_ & H')|[(_ & e' & Hc & H')|[(_ & code' & e' & _ & Hbabel' & _ & H')
                                     |(_ & code' & c & _ & _ & _ & H')]]];
    rewrite H' in H; try discriminate H.
  - rewrite Hc in Hcompile. discriminate Hcompile.
  - injection H as _ _ <- <-.
    assert (code' = code) as -> by congruence.
    split; [exact Hold|].
    unfold releasedOld. rewrite Hold.
    destruct (Browser.moduleUrl old) as [|ch url] eqn:Hurl; [discriminate Hblob|].
    unfold Compiler.cleanupModuleUrl. rewrite Hblob. simpl. split.
    + apply lookup_delete_eq.
    + rewrite lookup_delete_ne by exact Hne. apply lookup_insert_eq.
Qed.

Lemma failed_load_revokes_old_and_leaks_new_witness :
  let old := CacheEntry (js "Old") (blobUrl 0) 1000 (js "old code") in
  let m := HMR.Manager {[ js "panel-3" := old ]} ∅ false in
  let w := World_ (Blobs 1 {[ blobUrl 0 := js "old module" ]}) [] in
  let failing (specifier : jsstring) (b : BlobStore) : exn + moduleDefault jsstring :=
    inl (Error (js "Failed to fetch")) in
  let call :=
    HMR.updateComponent Scenario.babel failing m w (js "panel-3")
      ValidatorTests.goodSource 2000 in
  HMR.getComponent (snd (fst call)) (js "panel-3") = Some old
  /\ live (store (snd call)) !! blobUrl 0 = None
  /\ live (store (snd call)) !! blobUrl 1
     = Some (Compiler.moduleCode ValidatorTests.goodSource (js "panel-3")).
Proof.
  intros old m w failing call.
  refine (failed_load_revokes_old_and_leaks_new Scenario.babel failing
            m (snd (fst call)) w (snd call) (js "panel-3") ValidatorTests.goodSource
            2000 (Error (js "Component loading failed: Error: Failed to fetch"))
            (inr tt) old ValidatorTests.goodSource _ _ _ _ _ _ _).
  - vm_compute. reflexivity.
  - vm_compute. discriminate.
  - reflexivity.
  - vm_compute. discriminate.
  - vm_compute. reflexivity.
  - reflexivity.
  - vm_compute. discriminate.
Defined.

Section CleanupFacts.

Context {Component : Type}.

(** The loop of [cleanup]: the count of URLs handed out is kept; each URL
    is revoked or left as it was; a blob URL that an entry carries is
    revoked; a URL that no entry carries is left as it was. *)
Lemma cleanup_loop (b : BlobStore) (cache : gmap jsstring (ComponentCacheEntry Component)) :
  let b' :=
    map_fold (fun _ entry b =>
                match Browser.moduleUrl entry with
                | [] => b
                | url => Compiler.cleanupModuleUrl b url
                end) b cache in
  nextBlob b' = nextBlob b
  /\ (forall id entry,
        cache !! id = Some entry ->
        startsWith (js "blob:") (Browser.moduleUrl entry) = true ->
        live b' !! Browser.moduleUrl entry = None)
  /\ (forall url,
        (forall id entry, cache !! id = Some entry -> Browser.moduleUrl entry <> url) ->
        live b' !! url = live b !! url)
  /\ (forall url, live b' !! url = None \/ live b' !! url = live b !! url).
Proof.
  cbv zeta.
  apply (map_fold_weak_ind
           (fun b' cache =>
              nextBlob b' = nextBlob b
              /\ (forall id entry,
                    cache !! id = Some entry ->
                    startsWith (js "blob:") (Browser.moduleUrl entry) = true ->
                    live b' !! Browser.moduleUrl entry = None)
              /\ (forall url,
                    (forall id entry, cache !! id = Some entry ->
                                      Browser.moduleUrl entry <> url) ->
                    live b' !! url = live b !! url)
              /\ (forall url, live b' !! url = None \/ live b' !! url = live b !! url))).
  - repeat split; auto. intros id entry H. rewrite lookup_empty in H. discriminate H.
  - intros i x m r Hnone (Hnext & Hrev & Hkeep & Hmono).
    assert (Hstep : forall url,
               live (match Browser.moduleUrl x with
                     | [] => r
                     | u => Compiler.cleanupModuleUrl r u
                     end) !! url
               = if startsWith (js "blob:") (Browser.moduleUrl x)
                    && bool_decide (url = Browser.moduleUrl x)
                 then None else live r !! url).
    { intros url. destruct (Browser.moduleUrl x) as [|ch u] eqn:Hu; [reflexivity|].
      unfold Compiler.cleanupModuleUrl.
      destruct (startsWith (js "blob:") (ch :: u)); [|reflexivity]. simpl.
      destruct (bool_decide (url = ch :: u)) eqn:Hd.
      - apply bool_decide_eq_true in Hd. subst url. apply lookup_delete_eq.
      - apply bool_decide_eq_false in Hd. apply lookup_delete_ne. congruence. }
    split; [|split; [|split]].
    + rewrite <- Hnext. destruct (Browser.moduleUrl x) as [|ch u]; [reflexivity|].
      unfold Compiler.cleanupModuleUrl. destruct (startsWith _ _); reflexivity.
    + intros id entry Hentry Hblob. rewrite Hstep.
      destruct (startsWith (js "blob:") (Browser.moduleUrl x)
                && bool_decide (Browser.moduleUrl entry = Browser.moduleUrl x)) eqn:Hc;
        [reflexivity|].
      destruct (decide (id = i)) as [->|Hne].
      * rewrite lookup_insert_eq in Hentry. injection Hentry as ->.
        rewrite Hblob, bool_decide_eq_true_2 in Hc by reflexivity. discriminate Hc.
      * rewrite lookup_insert_ne in Hentry by congruence. exact (Hrev id entry Hentry Hblob).
    + intros url Hfree. rewrite Hstep.
      assert (Hx : Browser.moduleUrl x <> url) by (apply (Hfree i), lookup_insert_eq).
      rewrite bool_decide_eq_false_2 by congruence. rewrite andb_false_r.
      apply Hkeep. intros id entry Hentry. apply (Hfree id).
      rewrite lookup_insert_ne; [exact Hentry|].
      intros <-. rewrite Hnone in Hentry. discriminate Hentry.
    + intros url. rewrite Hstep. destruct (_ && _); [auto|apply Hmono].
Qed.

End CleanupFacts.

(** X21.  [cleanup] empties the manager and revokes what the cache held:
    after it the statistics show no cached component, no pending update
    and no update; every blob URL that a cached entry carried is revoked;
    a URL that no cached entry carried is as it was; and no event is
    dispatched. *)
Theorem cleanup_revokes_cached_urls {Component : Type} (m : HMR.t Component) (w : World) :
  let m' := fst (HMR.cleanup m w) in
  let w' := snd (HMR.cleanup m w) in
  HMR.getStats m' = HMR.Stats_ 0 0 0 (HMR.isConnected (HMR.getStats m))
  /\ (forall id, HMR.getComponent m' id = None)
  /\ (forall id entry,
        HMR.getComponent m id = Some entry ->
        startsWith (js "blob:") (Browser.moduleUrl entry) = true ->
        live (store w') !! Browser.moduleUrl entry = None)
  /\ (forall url,
        (forall id entry, HMR.getComponent m id = Some entry ->
                          Browser.moduleUrl entry <> url) ->
        live (store w') !! url = live (store w) !! url)
  /\ dispatched w' = dispatched w.
Proof.
  cbv zeta. unfold HMR.cleanup, HMR.getComponent.
  destruct (cleanup_loop (store w) (HMR.componentCache m)) as (_ & Hrev & Hkeep & _).
  simpl. repeat split; auto.
Qed.

(** X22.  [removeComponent] takes the entry of the identity out of the
    cache and leaves the entries of the other identities, [updateQueue]
    and the dispatched events as they were, so a call of
    [updateComponent] that is under way for the identity still holds its
    place in the queue; a blob URL the entry carried is revoked. *)
Theorem removeComponent_lookup {Component : Type} (m : HMR.t Component) (w : World)
    (panelId : jsstring) :
  let m' := fst (HMR.removeComponent m w panelId) in
  let w' := snd (HMR.removeComponent m w panelId) in
  HMR.hasComponent m' panelId = false
  /\ (forall other, other <> panelId ->
        HMR.getComponent m' other = HMR.getComponent m other)
  /\ HMR.updateQueue m' = HMR.updateQueue m
  /\ dispatched w' = dispatched w
  /\ (forall entry,
        HMR.getComponent m panelId = Some entry ->
        startsWith (js "blob:") (Browser.moduleUrl entry) = true ->
        live (store w') !! Browser.moduleUrl entry = None)
  /\ (HMR.getComponent m panelId = None -> w' = w).
Proof.
  cbv zeta. unfold HMR.removeComponent, HMR.hasComponent, HMR.getComponent.
  cbn [fst snd HMR.componentCache HMR.updateQueue].
  split; [|split; [|split; [|split; [|split]]]].
  - apply bool_decide_eq_false_2. rewrite lookup_delete_eq. intros [x Hx]. discriminate Hx.
  - intros other Hother. apply lookup_delete_ne. congruence.
  - reflexivity.
  - destruct (HMR.componentCache m !! panelId) as [entry|]; [|reflexivity].
    destruct (Browser.moduleUrl entry); reflexivity.
  - intros entry -> Hblob.
    destruct (Browser.moduleUrl entry) as [|ch url] eqn:Hurl; [discriminate Hblob|].
    unfold Compiler.cleanupModuleUrl. rewrite Hblob.
    cbn [withStore store revokeObjectURL live]. apply lookup_delete_eq.
  - intros ->. reflexivity.
Qed.

(** ** The hash of the prompt *)

Section HashFacts.

Import Generator.

Local Open Scope Z_scope.

Lemma toInt32_range (z : Z) : int32 (toInt32 z).
Proof.
  unfold int32, toInt32.
  pose proof (Z.mod_pos_bound (z + 2 ^ 31) (2 ^ 32) ltac:(lia)). lia.
Qed.

Lemma toInt32_id (z : Z) : int32 z -> toInt32 z = z.
Proof.
  unfold int32, toInt32. intros H. rewrite Z.mod_small by lia. lia.
Qed.

(** Numbers that differ by a multiple of 2^32 have the same 32-bit
    value. *)
Lemma toInt32_congr (a b k : Z) : a = b + k * 2 ^ 32 -> toInt32 a = toInt32 b.
Proof.
  intros ->. unfold toInt32.
  replace (b + k * 2 ^ 32 + 2 ^ 31) with (b + 2 ^ 31 + k * 2 ^ 32) by lia.
  rewrite Z_mod_plus_full. reflexivity.
Qed.

Lemma toInt32_multiple (z : Z) : exists k, toInt32 z = z + k * 2 ^ 32.
Proof.
  unfold toInt32. exists (- ((z + 2 ^ 31) / 2 ^ 32)).
  pose proof (Z_div_mod_eq_full (z + 2 ^ 31) (2 ^ 32)). lia.
Qed.

Lemma poly31_congr (chars : jsstring) (a b k : Z) :
  a = b + k * 2 ^ 32 -> toInt32 (poly31 chars a) = toInt32 (poly31 chars b).
Proof.
  revert a b k. induction chars as [|ch chars IH]; intros a b k Hab; simpl.
  - exact (toInt32_congr a b k Hab).
  - apply (IH _ _ (31 * k)). lia.
Qed.

(** One turn of the loop of [simpleHash] on a 32-bit value. *)
Lemma hash_step (hash : Z) (ch : N) :
  exists k,
    Z.land (toInt32 (toInt32 (Z.shiftl (toInt32 hash) 5) - hash + Z.of_N ch))
           (toInt32 (toInt32 (Z.shiftl (toInt32 hash) 5) - hash + Z.of_N ch))
    = 31 * hash + Z.of_N ch + k * 2 ^ 32.
Proof.
  rewrite Z.land_diag, Z.shiftl_mul_pow2 by lia.
  destruct (toInt32_multiple hash) as [k1 H1]. rewrite H1.
  destruct (toInt32_multiple ((hash + k1 * 2 ^ 32) * 2 ^ 5)) as [k2 H2]. rewrite H2.
  destruct (toInt32_multiple ((hash + k1 * 2 ^ 32) * 2 ^ 5 + k2 * 2 ^ 32 - hash + Z.of_N ch))
    as [k3 H3]. rewrite H3.
  exists (k1 * 2 ^ 5 + k2 + k3). lia.
Qed.

Lemma hashLoop_poly31 (chars : jsstring) (hash : Z) :
  int32 hash -> hashLoop chars hash = toInt32 (poly31 chars hash).
Proof.
  revert hash. induction chars as [|ch chars IH]; intros hash Hrange.
  - simpl. symmetry. apply toInt32_id, Hrange.
  - cbn [hashLoop poly31 fold_left]. destruct (hash_step hash ch) as [k Hk].
    rewrite IH.
    + apply (poly31_congr chars _ _ k). exact Hk.
    + rewrite Z.land_diag. apply toInt32_range.
Qed.

End HashFacts.

(** X23.  [simpleHash] prints the polynomial of the code units in 31,
    the hash of Java's strings: the polynomial is reduced to the signed
    32-bit range once, at the end, its absolute value is taken, at most
    2^31, and printed in base 16.  So two strings have the same hash
    exactly when their reduced polynomials agree up to the sign. *)
Theorem simpleHash_is_polynomial (str other : jsstring) :
  let value s := Z.abs (Generator.toInt32 (poly31 s 0)) in
  Generator.simpleHash str = numberToString 16 (value str)
  /\ (value str <= 2 ^ 31)%Z
  /\ (Generator.simpleHash str = Generator.simpleHash other <-> value str = value other).
Proof.
  cbv zeta. unfold Generator.simpleHash.
  rewrite !hashLoop_poly31 by (unfold int32; lia).
  split; [reflexivity|]. split.
  - pose proof (toInt32_range (poly31 str 0)) as H. unfold int32 in H. lia.
  - split; [|intros ->; reflexivity].
    apply (numberToString_inj 16); try lia.
Qed.

(** X24.  Identities made at different readings of the clock differ,
    whatever the prompts; at the same reading they are the same exactly
    when the hashes of the prompts are. *)
Theorem generatePanelId_differs_by_clock (p1 p2 : jsstring) (t1 t2 : Z) :
  (0 <= t1)%Z -> (0 <= t2)%Z ->
  (t1 <> t2 -> Generator.generatePanelId p1 t1 <> Generator.generatePanelId p2 t2)
  /\ (Generator.generatePanelId p1 t1 = Generator.generatePanelId p2 t1
      <-> Generator.simpleHash p1 = Generator.simpleHash p2).
Proof.
  intros H1 H2. split.
  - intros Hne Heq. apply (generatePanelId_same_iff p1 p2 t1 t2 H1 H2) in Heq. tauto.
  - rewrite (generatePanelId_same_iff p1 p2 t1 t1 H1 H1). tauto.
Qed.

Lemma generatePanelId_differs_by_clock_witness :
  Generator.generatePanelId (js "a todo list") 1700000000000
  <> Generator.generatePanelId (js "a todo list") 1700000000001.
Proof.
  apply (generatePanelId_differs_by_clock (js "a todo list") (js "a todo list")
           1700000000000 1700000000001); lia.
Defined.

(** ** The history of the generation attempts *)

Section HistoryFacts.

Import AIComponentGenerator.

Lemma lastN_short {A : Type} (n : nat) (l : list A) :
  (length l <= n)%nat -> lastN n l = l.
Proof.
  intros H. unfold lastN. replace (length l - n)%nat with 0%nat by lia. reflexivity.
Qed.

Lemma lastN_length {A : Type} (n : nat) (l : list A) :
  length (lastN n l) = Nat.min n (length l).
Proof. unfold lastN. rewrite length_skipn. lia. Qed.

Lemma lastN_snoc {A : Type} (n : nat) (l : list A) (a : A) :
  (0 < n)%nat -> lastN n (lastN n l ++ [a]) = lastN n (l ++ [a]).
Proof.
  intros Hn. destruct (Nat.le_gt_cases (length l) n) as [Hle|Hgt].
  - rewrite (lastN_short n l Hle). reflexivity.
  - unfold lastN. rewrite !length_app, length_skipn. simpl length.
    replace (length l - (length l - n) + 1 - n)%nat with 1%nat by lia.
    replace (length l + 1 - n)%nat with (1 + (length l - n))%nat by lia.
    rewrite <- (skipn_skipn 1 (length l - n) (l ++ [a])).
    rewrite (skipn_app (length l - n) l [a]).
    replace (length l - n - length l)%nat with 0%nat by lia. reflexivity.
Qed.

Lemma lastN_snoc_ends {A : Type} (n : nat) (l : list A) (a : A) :
  (0 < n)%nat -> exists earlier, lastN n (l ++ [a]) = earlier ++ [a].
Proof.
  intros Hn. unfold lastN. rewrite length_app. simpl length.
  rewrite (skipn_app (length l + 1 - n) l [a]).
  replace (length l + 1 - n - length l)%nat with 0%nat by lia.
  eexists. reflexivity.
Qed.

(** The array [recordGenerationAttempt] leaves for the identity. *)
Lemma recordAttempt_lookup (history : gmap jsstring (list Attempt.t))
    (panelId : jsstring) (attempt : Attempt.t) :
  recordAttempt history panelId attempt !! panelId
  = Some (lastN 10 (default [] (history !! panelId) ++ [attempt])).
Proof.
  unfold recordAttempt. rewrite lookup_insert_eq. f_equal.
  destruct (Nat.ltb_spec 10 (length (default [] (history !! panelId) ++ [attempt])))
    as [Hlt|Hge].
  - reflexivity.
  - symmetry. apply lastN_short. exact Hge.
Qed.

Lemma recordAttempt_lookup_ne (history : gmap jsstring (list Attempt.t))
    (panelId other : jsstring) (attempt : Attempt.t) :
  other <> panelId ->
  recordAttempt history panelId attempt !! other = history !! other.
Proof.
  intros Hne. unfold recordAttempt. apply lookup_insert_ne. congruence.
Qed.

Lemma recordAll_snoc {Component : Type} (g : t Component)
    (calls : list (jsstring * Attempt.t)) (call : jsstring * Attempt.t) :
  recordAll g (calls ++ [call])
  = recordGenerationAttempt (recordAll g calls) (fst call) (snd call).
Proof. unfold recordAll. rewrite fold_left_app. reflexivity. Qed.

Lemma attemptsFor_snoc (panelId : jsstring) (calls : list (jsstring * Attempt.t))
    (call : jsstring * Attempt.t) :
  attemptsFor panelId (calls ++ [call])
  = attemptsFor panelId calls ++ (if eqs (fst call) panelId then [snd call] else []).
Proof.
  unfold attemptsFor. rewrite List.filter_app, List.map_app. simpl.
  destruct (eqs (fst call) panelId); reflexivity.
Qed.

End HistoryFacts.

(** X25.  After any run of [recordGenerationAttempt] calls the history of
    an identity for which an attempt was recorded holds the last ten of
    its attempts, those it had before followed by those of the run in
    the order they were recorded, all of them when they are at most ten;
    the history of an identity for which none was recorded is as it
    was. *)
Theorem history_keeps_last_ten {Component : Type}
    (g : AIComponentGenerator.t Component)
    (calls : list (jsstring * AIComponentGenerator.Attempt.t)) (panelId : jsstring) :
  let before := AIComponentGenerator.generationHistory g !! panelId in
  AIComponentGenerator.generationHistory (recordAll g calls) !! panelId
  = match attemptsFor panelId calls with
    | [] => before
    | attempts => Some (lastN 10 (default [] before ++ attempts))
    end.
Proof.
  cbv zeta. induction calls as [|call calls IH] using rev_ind.
  - reflexivity.
  - rewrite recordAll_snoc, attemptsFor_snoc.
    unfold AIComponentGenerator.recordGenerationAttempt.
    cbn [AIComponentGenerator.generationHistory].
    destruct (eqs (fst call) panelId) eqn:Hid.
    + apply eqs_eq in Hid. rewrite Hid, recordAttempt_lookup, IH.
      destruct (attemptsFor panelId calls) as [|a l]; [reflexivity|].
      cbn [default from_option id]. rewrite lastN_snoc by lia.
      rewrite <- app_assoc. reflexivity.
    + assert (Hne : panelId <> fst call).
      { intros ->. rewrite eqs_refl in Hid. discriminate Hid. }
      rewrite recordAttempt_lookup_ne by exact Hne.
      rewrite app_nil_r. exact IH.
Qed.

(** ** The orchestrator *)

Section OrchestratorFacts.

Context {Component : Type}.
Variable toLowerCase : jsstring -> jsstring.
Variable nothingToRepeat : jsstring.
Variable babelTransform : jsstring -> exn + option jsstring.
Variable dynamicImport : jsstring -> BlobStore -> exn + moduleDefault Component.

Import AIComponentGenerator.

Local Abbreviation generateBody :=
  (AIComponentGenerator.generateBody toLowerCase nothingToRepeat babelTransform dynamicImport).
Local Abbreviation generateComponent :=
  (AIComponentGenerator.generateComponent toLowerCase nothingToRepeat babelTransform
     dynamicImport).
Local Abbreviation handleGenerationFailure :=
  (AIComponentGenerator.handleGenerationFailure babelTransform dynamicImport).

(** The [try] block always throws, and before it has written the
    registry, the history or an event: the service is not available, or
    the client fails, or the validator rejects the code. *)
Lemma generateBody_throws (g : t Component) (w : World)
    (request : Ollama.ComponentGenerationRequest) (panelId : jsstring)
    (clock : readings) (response : exn + jsstring) :
  exists error g',
    generateBody g w request panelId clock response = (inl error, g', w)
    /\ panelRegistry g' = panelRegistry g
    /\ generationHistory g' = generationHistory g
    /\ emitted g' = emitted g
    /\ ollama g' = ollama g
    /\ (forall jsxCode,
          Ollama.generateComponent (ollama g) request response = inr jsxCode ->
          error = validationFailed nothingToRepeat).
Proof.
  unfold AIComponentGenerator.generateBody.
  destruct (negb (Ollama.isServiceAvailable (ollama g))) eqn:Hav.
  - eexists _, g. repeat split.
    intros jsxCode H. unfold Ollama.generateComponent in H.
    unfold Ollama.isServiceAvailable in Hav. rewrite Hav in H. discriminate H.
  - destruct (Ollama.generateComponent (ollama g) request response) as [e|jsxCode].
    + eexists _, g. repeat split. intros jsxCode H. discriminate H.
    + pose proof (validateJSX_caught nothingToRepeat (validator g) jsxCode) as Hcaught.
      destruct (CodeValidator.validateJSX nothingToRepeat (validator g) jsxCode)
        as [validationResult v].
      cbn [fst] in Hcaught. subst validationResult.
      cbn [CodeValidator.isValid CodeValidator.errors negb].
      eexists _, (withValidator g v). repeat split.
Qed.

(** What the fallback does to the registry: it writes the identity it is
    given and no other. *)
Lemma handleGenerationFailure_cases (g : t Component) (w : World)
    (request : Ollama.ComponentGenerationRequest) (panelId : jsstring) (error : exn)
    (now : Z) :
  let call := handleGenerationFailure g w request panelId error now in
  let g' := snd (fst call) in
  (fst (fst call)
   = inl (Error (js "Generation failed and fallback failed: " ++ message error))
   /\ panelRegistry g' = panelRegistry g
   \/ exists component,
        fst (fst call)
        = inr (Generated component panelId
                 (createFallbackComponent (Ollama.prompt request) (message error))
                 (OfFallback (message error) (Ollama.prompt request)))
        /\ Registry.getComponent (panelRegistry g') panelId = Some component
        /\ Registry.jsxCode <$> Registry.getPanel (panelRegistry g') panelId
           = Some (createFallbackComponent (Ollama.prompt request) (message error)))
  /\ generationHistory g' = generationHistory g
  /\ emitted g' = emitted g
  /\ (forall other, other <> panelId ->
        Registry.getPanel (panelRegistry g') other
        = Registry.getPanel (panelRegistry g) other).
Proof.
  cbv zeta. unfold AIComponentGenerator.handleGenerationFailure.
  destruct (Registry.registerPanelFromJSX _ _ (panelRegistry g) w panelId _ _ now)
    as [[[e|component] r] w'] eqn:Hreg; cbn [fst snd].
  - rewrite (registerPanelFromJSX_failure _ _ _ _ _ _ _ _ _ _ _ Hreg).
    repeat split. left. split; reflexivity.
  - apply registerPanelFromJSX_success_inv in Hreg as (c & _ & _ & _ & _ & ->).
    unfold Registry.getPanel, Registry.getComponent.
    cbn [withRegistry panelRegistry generationHistory emitted Registry.panels
           Registry.componentCache].
    repeat split.
    + right. exists component. rewrite !lookup_insert_eq. repeat split.
    + intros other Hother. apply lookup_insert_ne. congruence.
Qed.

(** A call writes the registry at the identity it makes and nowhere
    else, and what it resolves with carries that identity. *)
Lemma generateComponent_frame (g : t Component) (w : World)
    (request : Ollama.ComponentGenerationRequest) (clock : readings)
    (response : exn + jsstring) :
  let id := Generator.generatePanelId (Ollama.prompt request) (enteredAt clock) in
  let call := generateComponent g w request clock response in
  (forall other, other <> id ->
     Registry.getPanel (panelRegistry (snd (fst call))) other
     = Registry.getPanel (panelRegistry g) other)
  /\ (forall result, fst (fst call) = inr result -> panelId result = id).
Proof.
  cbv zeta. unfold AIComponentGenerator.generateComponent.
  destruct (generateBody_throws g w request
              (Generator.generatePanelId (Ollama.prompt request) (enteredAt clock))
              clock response)
    as (error & g1 & -> & Hr1 & _).
  set (id := Generator.generatePanelId _ _).
  set (attempt := Attempt.Make _ _ _ _ _ _ _).
  destruct (handleGenerationFailure_cases (recordGenerationAttempt g1 id attempt) w
              request id error (fallbackAt clock))
    as (Hres & _ & _ & Hframe).
  split.
  - intros other Hother. rewrite (Hframe other Hother).
    cbn [recordGenerationAttempt panelRegistry]. rewrite Hr1. reflexivity.
  - intros result Hresult.
    destruct Hres as [[Hres _]|(component & Hres & _)]; rewrite Hres in Hresult.
    + discriminate Hresult.
    + injection Hresult as <-. reflexivity.
Qed.

End OrchestratorFacts.

(** X26.  [generateComponent] never delivers generated code.  Whatever
    the service answers, the [try] block throws: the service is not
    available, the client fails, or the validator rejects the code, and
    it rejects all code.  So the call rejects with
    [Generation failed and fallback failed], or resolves with the
    fallback component under the identity of the request, its metadata
    marked as a fallback; no [ai-component-generated] event is emitted;
    the attempt recorded last for the identity is a failed one with the
    message of what was thrown; and when the client did return code,
    that message is the validator's SyntaxError. *)
Theorem generateComponent_always_falls_back {Component : Type}
    (toLowerCase : jsstring -> jsstring) (nothingToRepeat : jsstring)
    (babelTransform : jsstring -> exn + option jsstring)
    (dynamicImport : jsstring -> BlobStore -> exn + moduleDefault Component)
    (g : AIComponentGenerator.t Component) (w : World)
    (request : Ollama.ComponentGenerationRequest)
    (clock : AIComponentGenerator.readings) (response : exn + jsstring) :
  let id :=
    Generator.generatePanelId (Ollama.prompt request)
      (AIComponentGenerator.enteredAt clock) in
  let call :=
    AIComponentGenerator.generateComponent toLowerCase nothingToRepeat babelTransform
      dynamicImport g w request clock response in
  let g' := snd (fst call) in
  exists error : exn,
    (fst (fst call)
     = inl (Error (js "Generation failed and fallback failed: " ++ message error))
     \/ exists component,
          fst (fst call)
          = inr (AIComponentGenerator.Generated component id
                   (AIComponentGenerator.createFallbackComponent
                      (Ollama.prompt request) (message error))
                   (AIComponentGenerator.OfFallback (message error)
                      (Ollama.prompt request))))
    /\ AIComponentGenerator.emitted g' = AIComponentGenerator.emitted g
    /\ (exists earlier,
          AIComponentGenerator.generationHistory g' !! id
          = Some (earlier
                  ++ [AIComponentGenerator.Attempt.Make
                        (AIComponentGenerator.recordedAt clock) (Ollama.prompt request)
                        (Some []) (Some []) (Some (message error)) false None]))
    /\ (forall jsxCode,
          Ollama.generateComponent (AIComponentGenerator.ollama g) request response
          = inr jsxCode ->
          message error
          = js "Code validation failed: Validation error: "
            ++ exnToString (SyntaxError nothingToRepeat)).
Proof.
  cbv zeta. unfold AIComponentGenerator.generateComponent.
  destruct (generateBody_throws toLowerCase nothingToRepeat babelTransform dynamicImport
              g w request
              (Generator.generatePanelId (Ollama.prompt request)
                 (AIComponentGenerator.enteredAt clock))
              clock response)
    as (error & g1 & -> & Hr1 & Hh1 & He1 & _ & Hvalid).
  set (id := Generator.generatePanelId _ _).
  set (attempt := AIComponentGenerator.Attempt.Make _ _ _ _ _ _ _).
  destruct (handleGenerationFailure_cases babelTransform dynamicImport
              (AIComponentGenerator.recordGenerationAttempt g1 id attempt) w request id
              error (AIComponentGenerator.fallbackAt clock))
    as (Hres & Hh & He & _).
  exists error. split; [|split; [|split]].
  - destruct Hres as [[Hres _]|(component & Hres & _)]; [left; exact Hres|right; eauto].
  - rewrite He. exact He1.
  - rewrite Hh. cbn [AIComponentGenerator.recordGenerationAttempt
                       AIComponentGenerator.generationHistory].
    rewrite recordAttempt_lookup.
    destruct (lastN_snoc_ends 10
                (default [] (AIComponentGenerator.generationHistory g1 !! id)) attempt
                ltac:(lia)) as [earlier ->].
    exists earlier. reflexivity.
  - intros jsxCode H. rewrite (Hvalid jsxCode H). reflexivity.
Qed.

(** X27.  [regenerateComponent] and [improveComponent] do not write the
    panel they are asked about.  The identity is made anew from the
    prompt and the clock, so for a panel whose identity
    [generatePanelId] made at an earlier reading of the clock, the panel
    the registry holds for it after the call is the one it held before,
    and what the call resolves with carries another identity. *)
Theorem regenerate_and_improve_leave_the_panel {Component : Type}
    (toLowerCase : jsstring -> jsstring) (nothingToRepeat : jsstring)
    (babelTransform : jsstring -> exn + option jsstring)
    (dynamicImport : jsstring -> BlobStore -> exn + moduleDefault Component)
    (g : AIComponentGenerator.t Component) (w : World)
    (id : jsstring) (newPrompt : option jsstring) (feedback : jsstring)
    (clock : AIComponentGenerator.readings) (response : exn + jsstring)
    (madeFrom : jsstring) (madeAt : Z) :
  id = Generator.generatePanelId madeFrom madeAt ->
  (0 <= madeAt < AIComponentGenerator.enteredAt clock)%Z ->
  let regenerated :=
    AIComponentGenerator.regenerateComponent toLowerCase nothingToRepeat babelTransform
      dynamicImport g w id newPrompt clock response in
  let improved :=
    AIComponentGenerator.improveComponent toLowerCase nothingToRepeat babelTransform
      dynamicImport g w id feedback clock response in
  let panelAfter call :=
    Registry.getPanel (AIComponentGenerator.panelRegistry (snd (fst call))) id in
  let otherIdentity (call : (exn + AIComponentGenerator.generated Component)
                            * AIComponentGenerator.t Component * World) :=
    forall result,
      fst (fst call) = inr result -> AIComponentGenerator.panelId result <> id in
  panelAfter regenerated = Registry.getPanel (AIComponentGenerator.panelRegistry g) id
  /\ otherIdentity regenerated
  /\ panelAfter improved = Registry.getPanel (AIComponentGenerator.panelRegistry g) id
  /\ otherIdentity improved.
Proof.
  intros Hid Hclock. cbv zeta.
  assert (Hnew : forall prompt,
             id <> Generator.generatePanelId prompt (AIComponentGenerator.enteredAt clock)).
  { intros prompt Heq. rewrite Hid in Heq.
    apply generatePanelId_same_iff in Heq; lia. }
  assert (Hcall : forall request,
             let call :=
               AIComponentGenerator.generateComponent toLowerCase nothingToRepeat
                 babelTransform dynamicImport g w request clock response in
             Registry.getPanel (AIComponentGenerator.panelRegistry (snd (fst call))) id
             = Registry.getPanel (AIComponentGenerator.panelRegistry g) id
             /\ forall result,
                  fst (fst call) = inr result ->
                  AIComponentGenerator.panelId result <> id).
  { intros request. cbv zeta.
    destruct (generateComponent_frame toLowerCase nothingToRepeat babelTransform
                dynamicImport g w request clock response) as [Hframe Hresult].
    split.
    - apply Hframe, Hnew.
    - intros result H. rewrite (Hresult result H). intros Heq. exact (Hnew _ (eq_sym Heq)). }
  unfold AIComponentGenerator.regenerateComponent, AIComponentGenerator.improveComponent.
  split; [|split; [|split]].
  - destruct (nth_error _ _); [exact (proj1 (Hcall _))|reflexivity].
  - destruct (nth_error _ _); [exact (proj2 (Hcall _))|discriminate].
  - destruct (Registry.getPanel (AIComponentGenerator.panelRegistry g) id) eqn:Hpanel;
      [exact (proj1 (Hcall _))|exact Hpanel].
  - destruct (Registry.getPanel (AIComponentGenerator.panelRegistry g) id);
      [exact (proj2 (Hcall _))|discriminate].
Qed.

Lemma regenerate_and_improve_leave_the_panel_witness :
  let id := Generator.generatePanelId (js "a todo list") 1000 in
  let attempt :=
    AIComponentGenerator.Attempt.Make 1000 (js "a todo list") (Some []) (Some [])
      (Some (js "AI service is not available. Please ensure Ollama is running."))
      false None in
  let g :=
    AIComponentGenerator.Generator_ (Ollama.Client false (js "qwen2.5-coder:1.5b-instruct"))
      CodeValidator.new (Registry.new (Component := jsstring)) {[ id := [attempt] ]} [] in
  let regenerated :=
    AIComponentGenerator.regenerateComponent (fun s => s) v8NothingToRepeat
      Scenario.babel Scenario.import g Scenario.emptyWorld id None
      (AIComponentGenerator.Readings 2000 2000 2000 2000) (inr []) in
  Registry.getPanel (AIComponentGenerator.panelRegistry (snd (fst regenerated))) id
  = None.
Proof.
  intros id attempt g regenerated.
  refine (proj1 (regenerate_and_improve_leave_the_panel (fun s => s) v8NothingToRepeat
                   Scenario.babel Scenario.import g Scenario.emptyWorld id None []
                   (AIComponentGenerator.Readings 2000 2000 2000 2000) (inr [])
                   (js "a todo list") 1000 eq_refl _)).
  simpl. lia.
Defined.

(** ** The client's check and the validator's *)

Section TrimFacts.

(** A string that does not start with white space. *)
Local Abbreviation noLeading s :=
  (match s with c :: _ => isSpace c = false | [] => True end).

Lemma trimStart_noLeading (s : jsstring) : noLeading (trimStart s).
Proof.
  induction s as [|c s IH]; simpl; [exact I|].
  destruct (isSpace c) eqn:Hc; [exact IH|exact Hc].
Qed.

Lemma trimStart_id (s : jsstring) : noLeading s -> trimStart s = s.
Proof. destruct s as [|c s]; simpl; [reflexivity|]. intros ->. reflexivity. Qed.

Lemma trimStart_snoc (l : jsstring) (c : N) :
  isSpace c = false -> exists x, trimStart (l ++ [c]) = x ++ [c].
Proof.
  intros Hc. induction l as [|a l IH]; simpl.
  - rewrite Hc. exists []. reflexivity.
  - destruct (isSpace a); [exact IH|]. exists (a :: l). reflexivity.
Qed.

Lemma trimEnd_noLeading (s : jsstring) : noLeading s -> noLeading (trimEnd s).
Proof.
  destruct s as [|c s]; [intros _; exact I|]. intros Hc. unfold trimEnd.
  simpl rev. destruct (trimStart_snoc (rev s) c Hc) as [x ->].
  rewrite rev_app_distr. simpl. exact Hc.
Qed.

Lemma trimEnd_idem (s : jsstring) : trimEnd (trimEnd s) = trimEnd s.
Proof.
  unfold trimEnd. rewrite rev_involutive.
  rewrite (trimStart_id (trimStart (rev s))); [reflexivity|apply trimStart_noLeading].
Qed.

(** [trim] of a trimmed string returns it. *)
Lemma trim_idem (s : jsstring) : trim (trim s) = trim s.
Proof.
  unfold trim.
  rewrite (trimStart_id (trimEnd (trimStart s)));
    [apply trimEnd_idem|apply trimEnd_noLeading, trimStart_noLeading].
Qed.

End TrimFacts.

Section SearchFacts.

(** A search finds a match when the pattern matches somewhere. *)
Lemma searchFrom_finds (r : regex) (a l : jsstring) :
  (forall j pv, is_Some (matchAt r (Cursor j pv l))) ->
  forall i pv, is_Some (searchFrom r i pv (a ++ l)).
Proof.
  intros Hhit. induction a as [|c a IH]; intros i pv.
  - simpl app. destruct (Hhit i pv) as [m Hm].
    destruct l as [|c l]; cbn [searchFrom]; rewrite Hm; eauto.
  - cbn [app searchFrom]. destruct (matchAt r _); [eauto|apply IH].
Qed.

Lemma includes_matches (r : regex) (p code : jsstring) :
  (forall l j pv, is_Some (matchAt r (Cursor j pv (p ++ l)))) ->
  includes code p = true -> is_Some (search r code 0).
Proof.
  intros Hhit Hincl. apply includes_inv in Hincl as (a & b & ->).
  unfold search, cursorAt. cbn [pos prev rest skipn].
  apply searchFrom_finds. intros j pv. apply Hhit.
Qed.

Lemma import_React_matches (code : jsstring) :
  includes code (js "import React") = true ->
  is_Some (search (seqs [lit "import"; plus s_; lit "React"]) code 0).
Proof.
  apply includes_matches. intros l j pv. vm_compute. eauto.
Qed.

Lemma export_default_matches (code : jsstring) :
  includes code (js "export default") = true ->
  is_Some (search (seqs [lit "export"; plus s_; lit "default"]) code 0).
Proof.
  apply includes_matches. intros l j pv. vm_compute. eauto.
Qed.

End SearchFacts.

Section ClientFacts.

(** What the client returns went through both of its steps. *)
Lemma generateComponent_inv (client : Ollama.t)
    (request : Ollama.ComponentGenerationRequest) (response : exn + jsstring)
    (code : jsstring) :
  Ollama.generateComponent client request response = inr code ->
  Ollama.isAvailable client = true
  /\ exists generatedCode,
       response = inr generatedCode
       /\ code = Ollama.extractJSXFromResponse generatedCode
       /\ Ollama.validateGeneratedCode code = None.
Proof.
  unfold Ollama.generateComponent.
  destruct (Ollama.isAvailable client); [|discriminate]. simpl negb. cbv iota.
  destruct response as [e|generatedCode]; [discriminate|].
  destruct (Ollama.validateGeneratedCode _) eqn:Hvalid; [discriminate|].
  intros H; injection H as <-. eauto.
Qed.

Lemma extractJSXFromResponse_trimmed (response : jsstring) :
  trim (Ollama.extractJSXFromResponse response) = Ollama.extractJSXFromResponse response.
Proof.
  unfold Ollama.extractJSXFromResponse.
  destruct (matchLit Ollama.codeBlockRegex response); [apply trim_idem|].
  destruct (matchLit Ollama.componentRegex response); apply trim_idem.
Qed.

Lemma validateGeneratedCode_accepts (code : jsstring) :
  Ollama.validateGeneratedCode code = None ->
  includes code (js "import React") = true
  /\ includes code (js "export default") = true
  /\ (50 <= len code <= 10000)%Z.
Proof.
  unfold Ollama.validateGeneratedCode.
  destruct (includes code (js "import React")); [|discriminate].
  destruct (includes code (js "export default")); [|discriminate].
  simpl negb. cbv iota.
  destruct (Ollama.forbiddenLoop _ _); [discriminate|].
  destruct (Z.ltb_spec (len code) 50); [discriminate|].
  destruct (Z.ltb_spec 10000 (len code)); [discriminate|].
  intros _. repeat split; lia.
Qed.

End ClientFacts.

(** X28.  Code that the client returns passes the first checks of the
    validator.  It holds [import React] and [export default], has
    between 50 and 10000 code units and neither starts nor ends with
    white space; so [validateBasicStructure] of the validator finds it
    neither too short nor too long, finds both required patterns, and
    can report nothing but unbalanced braces or parentheses. *)
Theorem client_code_passes_basic_structure (client : Ollama.t)
    (request : Ollama.ComponentGenerationRequest) (response : exn + jsstring)
    (code : jsstring) :
  Ollama.generateComponent client request response = inr code ->
  includes code (js "import React") = true
  /\ includes code (js "export default") = true
  /\ (50 <= len code <= 10000)%Z
  /\ trim code = code
  /\ forall e,
       In e (CodeValidator.validateBasicStructure CodeValidator.new code []) ->
       e = js "Unbalanced braces in code" \/ e = js "Unbalanced parentheses in code".
Proof.
  intros H. apply generateComponent_inv in H as (_ & generatedCode & _ & Hcode & Hvalid).
  apply validateGeneratedCode_accepts in Hvalid as (Himport & Hexport & Hlen).
  assert (Htrim : trim code = code).
  { rewrite Hcode. apply extractJSXFromResponse_trimmed. }
  do 4 (split; [assumption|]).
  unfold CodeValidator.validateBasicStructure. rewrite Htrim.
  destruct (Z.ltb_spec (len code) 20); [lia|].
  destruct (Z.ltb_spec 50000 (len code)); [lia|].
  assert (Hrequired : CodeValidator.checkRequired
                        (CodeValidator.requiredPatterns CodeValidator.new) code []
                      = []).
  { cbn [CodeValidator.requiredPatterns CodeValidator.new CodeValidator.checkRequired].
    unfold test, exec, CodeValidator.plain. cbn [global pattern fst].
    rewrite !bool_decide_eq_true_2
      by (apply import_React_matches || apply export_default_matches; assumption).
    reflexivity. }
  rewrite Hrequired.
  set (errors := if negb _ then _ else _).
  assert (Herrors : forall e, In e errors -> e = js "Unbalanced braces in code").
  { unfold errors. destruct (negb _); intros e He; [|destruct He].
    destruct He as [He|[]]. auto. }
  clearbody errors.
  destruct (parenLoop_spec code 0 errors ltac:(lia)) as [[_ Heq]|[_ Heq]]; rewrite Heq.
  - destruct (negb _); intros e He; [apply in_app_or in He as [He|[He|[]]]|]; auto.
  - simpl negb. cbv iota. intros e He.
    apply in_app_or in He as [He|[He|[]]]; [|auto].
    apply in_app_or in He as [He|[He|[]]]; auto.
Qed.

Lemma client_code_passes_basic_structure_witness :
  let answer :=
    js "```jsx" ++ nl ++ js "import React from 'react';" ++ nl
    ++ js "const Hello = () => { return <div>Hi</div>; };" ++ nl
    ++ js "export default Hello;" ++ nl ++ js "```" in
  let code :=
    js "import React from 'react';" ++ nl
    ++ js "const Hello = () => { return <div>Hi</div>; };" ++ nl
    ++ js "export default Hello;" in
  Ollama.generateComponent (Ollama.Client true (js "qwen2.5-coder:1.5b-instruct"))
    (Ollama.Request (js "say hi") None) (inr answer) = inr code
  /\ trim code = code.
Proof.
  intros answer code.
  assert (H : Ollama.generateComponent
                (Ollama.Client true (js "qwen2.5-coder:1.5b-instruct"))
                (Ollama.Request (js "say hi") None) (inr answer) = inr code)
    by (vm_compute; reflexivity).
  split; [exact H|].
  exact (proj1 (proj2 (proj2 (proj2
           (client_code_passes_basic_structure _ _ _ _ H))))).
Defined.

(** ** The code block of an answer *)

Section FenceFacts.

Local Abbreviation accept := (fun (y : cursor) (c : caps) => Some (pos y, c)).

Lemma fence_here (post : jsstring) (j : nat) (pv : option N) (c : caps) :
  rmatch (lit "```") accept (Cursor j pv (js "```" ++ post)) c = Some ((j + 3)%nat, c).
Proof.
  change (lit "```") with (Seq (chr 96) (Seq (chr 96) (chr 96))).
  change (js "```" ++ post) with (96 :: 96 :: 96 :: post).
  cbn [rmatch chr rest pos]. rewrite !N.eqb_refl.
  f_equal. f_equal. lia.
Qed.

Lemma fence_not_here (ch : N) (l : jsstring) (j : nat) (pv : option N) (c : caps) :
  ch <> 96 -> rmatch (lit "```") accept (Cursor j pv (ch :: l)) c = None.
Proof.
  intros Hch. apply N.eqb_neq in Hch. rewrite N.eqb_sym in Hch.
  change (lit "```") with (Seq (chr 96) (Seq (chr 96) (chr 96))).
  cbn [rmatch chr rest]. rewrite Hch. reflexivity.
Qed.

(** The loop of the lazy star runs over a text without backticks up to
    the fence that follows it. *)
Lemma lazy_runs_to_fence (body post : jsstring) (start : nat) :
  Forall (fun c => c <> 96) body ->
  forall fuel j pv c,
    (length body <= fuel)%nat ->
    starLoop (rmatch any_) false
      (fun y c' => rmatch (lit "```") accept y ((1%nat, (start, pos y)) :: c'))
      fuel (Cursor j pv (body ++ js "```" ++ post)) c
    = Some ((j + length body + 3)%nat, (1%nat, (start, (j + length body)%nat)) :: c).
Proof.
  induction 1 as [|ch body Hch _ IH]; intros fuel j pv c Hfuel.
  - change ([] ++ js "```" ++ post) with (js "```" ++ post).
    destruct fuel as [|fuel]; cbn [starLoop pos]; rewrite fence_here;
      simpl length; rewrite !Nat.add_0_r; reflexivity.
  - destruct fuel as [|fuel]; [simpl in Hfuel; lia|].
    change ((ch :: body) ++ js "```" ++ post) with (ch :: body ++ js "```" ++ post).
    cbn [starLoop]. rewrite (fence_not_here ch _ j pv _ Hch).
    cbn [rmatch any_ rest pos].
    destruct (Nat.eqb_spec (S j) j) as [Heq|_]; [lia|].
    rewrite IH by (simpl in Hfuel; lia).
    simpl length. rewrite !Nat.add_succ_r. reflexivity.
Qed.

(** Group 1 and the closing fence, at a text without backticks that a
    fence follows. *)
Lemma blockTail_matches (body post : jsstring) (j : nat) (pv : option N) (c : caps) :
  Forall (fun c => c <> 96) body ->
  rmatch (Seq (Group 1 (lazy any_)) (lit "```")) accept
    (Cursor j pv (body ++ js "```" ++ post)) c
  = Some ((j + length body + 3)%nat, (1%nat, (j, (j + length body)%nat)) :: c).
Proof.
  intros Hbody. cbn [rmatch lazy rest pos].
  apply (lazy_runs_to_fence body post j Hbody). rewrite !length_app. lia.
Qed.

(** The opening fence with the tag [jsx] and a line break. *)
Lemma codeBlock_jsx (k : cursor -> caps -> outcome) (text : jsstring)
    (y : nat * caps) :
  k (Cursor 7 (Some 10) text) [] = Some y ->
  rmatch (seqs [lit "```";
                opt (Alt (Seq (lit "js") (opt (lit "x")))
                         (Alt (lit "typescript") (Seq (lit "ts") (opt (lit "x")))));
                opt (chr 10)])
         k (Cursor 0 None (js "```jsx" ++ nl ++ text)) []
  = Some y.
Proof. intros H. vm_compute in H |- *. rewrite H. reflexivity. Qed.

(** The opening fence with the tag [javascript]: the pattern knows no
    such tag, and takes neither it nor the line break after it. *)
Lemma codeBlock_javascript (k : cursor -> caps -> outcome) (text : jsstring)
    (y : nat * caps) :
  k (Cursor 3 (Some 96) (js "javascript" ++ text)) [] = Some y ->
  rmatch (seqs [lit "```";
                opt (Alt (Seq (lit "js") (opt (lit "x")))
                         (Alt (lit "typescript") (Seq (lit "ts") (opt (lit "x")))));
                opt (chr 10)])
         k (Cursor 0 None (js "```javascript" ++ text)) []
  = Some y.
Proof. intros H. vm_compute in H |- *. rewrite H. reflexivity. Qed.

Lemma extract_of_block (response body : jsstring) (i : nat) :
  matchAt Ollama.codeBlockRegex (Cursor 0 None response)
  = Some (Matched 0 (i + length body + 3) [(1%nat, (i, (i + length body)%nat))]) ->
  firstn (length body) (skipn i response) = body ->
  Ollama.extractJSXFromResponse response = trim body.
Proof.
  intros Hmatch Hbody. unfold Ollama.extractJSXFromResponse, matchLit.
  change (search Ollama.codeBlockRegex response 0)
    with (searchFrom Ollama.codeBlockRegex 0 None response).
  assert (Hsearch : searchFrom Ollama.codeBlockRegex 0 None response
                    = Some (Matched 0 (i + length body + 3)
                              [(1%nat, (i, (i + length body)%nat))])).
  { destruct response; cbn [searchFrom]; rewrite Hmatch; reflexivity. }
  rewrite Hsearch. unfold capture. cbn [mcaps List.find fst Nat.eqb].
  unfold substring. replace (i + length body - i)%nat with (length body) by lia.
  rewrite Hbody. reflexivity.
Qed.

End FenceFacts.

(** X29.  [extractJSXFromResponse] on an answer that starts with a code
    block whose text holds no backtick.  With the tag [jsx] it returns
    the text of the block, trimmed.  With the tag [javascript], which the
    pattern does not know, the tag and the line break after it stay in
    what it returns. *)
Theorem extractJSXFromResponse_of_code_block (body post : jsstring) :
  Forall (fun c => c <> 96) body ->
  Ollama.extractJSXFromResponse (js "```jsx" ++ nl ++ body ++ js "```" ++ post)
  = trim body
  /\ Ollama.extractJSXFromResponse
       (js "```javascript" ++ nl ++ body ++ js "```" ++ post)
     = trim (js "javascript" ++ nl ++ body).
Proof.
  intros Hbody. split.
  - apply (extract_of_block _ body 7).
    + unfold matchAt.
      change (rmatch Ollama.codeBlockRegex (fun y c => Some (pos y, c))
                (Cursor 0 None (js "```jsx" ++ nl ++ body ++ js "```" ++ post)) [])
        with (rmatch (seqs [lit "```";
                            opt (Alt (Seq (lit "js") (opt (lit "x")))
                                     (Alt (lit "typescript")
                                          (Seq (lit "ts") (opt (lit "x")))));
                            opt (chr 10)])
                (rmatch (Seq (Group 1 (lazy any_)) (lit "```"))
                        (fun y c => Some (pos y, c)))
                (Cursor 0 None (js "```jsx" ++ nl ++ (body ++ js "```" ++ post))) []).
      rewrite (codeBlock_jsx _ _ _ (blockTail_matches body post 7 (Some 10) [] Hbody)).
      reflexivity.
    + change (skipn 7 (js "```jsx" ++ nl ++ body ++ js "```" ++ post))
        with (body ++ js "```" ++ post).
      rewrite firstn_app, firstn_all, Nat.sub_diag. apply app_nil_r.
  - assert (Htagged : Forall (fun c => c <> 96) (js "javascript" ++ nl ++ body)).
    { apply Forall_app. split; [|apply Forall_app; split; [|exact Hbody]].
      - vm_compute. repeat constructor; discriminate.
      - repeat constructor. discriminate. }
    apply (extract_of_block _ (js "javascript" ++ nl ++ body) 3).
    + unfold matchAt.
      change (rmatch Ollama.codeBlockRegex (fun y c => Some (pos y, c))
                (Cursor 0 None (js "```javascript" ++ nl ++ body ++ js "```" ++ post)) [])
        with (rmatch (seqs [lit "```";
                            opt (Alt (Seq (lit "js") (opt (lit "x")))
                                     (Alt (lit "typescript")
                                          (Seq (lit "ts") (opt (lit "x")))));
                            opt (chr 10)])
                (rmatch (Seq (Group 1 (lazy any_)) (lit "```"))
                        (fun y c => Some (pos y, c)))
                (Cursor 0 None (js "```javascript" ++ (nl ++ body ++ js "```" ++ post)))
                []).
      rewrite (codeBlock_javascript _ _
                 ((3 + length (js "javascript" ++ nl ++ body) + 3)%nat,
                  [(1%nat, (3%nat, (3 + length (js "javascript" ++ nl ++ body))%nat))]));
        [reflexivity|].
      replace (js "javascript" ++ nl ++ body ++ js "```" ++ post)
        with ((js "javascript" ++ nl ++ body) ++ js "```" ++ post)
        by (rewrite <- !app_assoc; reflexivity).
      apply blockTail_matches, Htagged.
    + replace (skipn 3 (js "```javascript" ++ nl ++ body ++ js "```" ++ post))
        with ((js "javascript" ++ nl ++ body) ++ js "```" ++ post)
        by (rewrite <- !app_assoc; reflexivity).
      rewrite firstn_app, firstn_all, Nat.sub_diag. apply app_nil_r.
Qed.

Lemma extractJSXFromResponse_of_code_block_witness :
  Ollama.extractJSXFromResponse
    (js "```jsx" ++ nl ++ js "export default A;" ++ nl ++ js "```" ++ js " Enjoy!")
  = js "export default A;".
Proof.
  refine (eq_trans
            (proj1 (extractJSXFromResponse_of_code_block
                      (js "export default A;" ++ nl) (js " Enjoy!") _)) _).
  - vm_compute. repeat constructor; discriminate.
  - vm_compute. reflexivity.
Defined.

(** ** Braces *)

Section BraceFacts.

Import CodeValidator.

Variable c : N.

Lemma matchAt_chr (i : nat) (pv : option N) (l : jsstring) :
  matchAt (chr c) (Cursor i pv l)
  = match l with
    | ch :: _ => if c =? ch then Some (Matched i (S i) []) else None
    | [] => None
    end.
Proof.
  unfold matchAt. cbn [rmatch chr rest pos]. destruct l as [|ch tl]; [reflexivity|].
  destruct (c =? ch); reflexivity.
Qed.

(** The search for one code unit: it is not there, or the search stops at
    its first occurrence. *)
Lemma searchFrom_chr (l : jsstring) :
  forall i pv,
    (searchFrom (chr c) i pv l = None /\ count_occ N.eq_dec l c = 0%nat)
    \/ exists k,
         searchFrom (chr c) i pv l = Some (Matched (i + k) (S (i + k)) [])
         /\ (k < length l)%nat
         /\ count_occ N.eq_dec l c = S (count_occ N.eq_dec (skipn (S k) l) c).
Proof.
  induction l as [|ch l IH]; intros i pv.
  - left. cbn [searchFrom]. rewrite matchAt_chr. split; reflexivity.
  - cbn [searchFrom]. rewrite matchAt_chr.
    destruct (N.eqb_spec c ch) as [<-|Hne].
    + right. exists 0%nat. rewrite Nat.add_0_r. split; [reflexivity|].
      split; [simpl; lia|]. simpl. destruct (N.eq_dec c c); [reflexivity|contradiction].
    + destruct (IH (S i) (Some ch)) as [[Hnone Hcount]|(k & Hsome & Hk & Hcount)].
      * left. split; [exact Hnone|]. simpl.
        destruct (N.eq_dec ch c); [congruence|exact Hcount].
      * right. exists (S k). rewrite Nat.add_succ_r. split; [exact Hsome|].
        split; [simpl; lia|]. simpl count_occ at 1.
        destruct (N.eq_dec ch c); [congruence|exact Hcount].
Qed.

Lemma matchAllFrom_chr (s : jsstring) :
  forall fuel i,
    (i <= length s)%nat -> (length s - i < fuel)%nat ->
    length (matchAllFrom fuel (chr c) s i) = count_occ N.eq_dec (skipn i s) c.
Proof.
  induction fuel as [|fuel IH]; intros i Hi Hfuel; [lia|].
  cbn [matchAllFrom].
  destruct (Nat.ltb_spec (length s) i) as [Hlt|_]; [lia|].
  unfold search, cursorAt. cbn [pos prev rest].
  destruct (searchFrom_chr (skipn i s) i
              (match i with O => None | S j => nth_error s j end))
    as [[-> Hcount]|(k & -> & Hk & Hcount)].
  - rewrite Hcount. reflexivity.
  - cbn [mend mstart length]. rewrite length_skipn in Hk.
    destruct (Nat.eqb_spec (S (i + k)) (i + k)) as [Heq|_]; [lia|].
    rewrite IH by lia. rewrite Hcount, skipn_skipn.
    replace (S k + i)%nat with (S (i + k)) by lia. reflexivity.
Qed.

(** [(code.match(/c/g) || []).length] counts the occurrences of the code
    unit. *)
Lemma countMatches_chr (s : jsstring) :
  countMatches (chr c) s = Z.of_nat (count_occ N.eq_dec s c).
Proof.
  unfold countMatches, matchAll.
  rewrite (matchAllFrom_chr s (S (S (length s))) 0) by lia. reflexivity.
Qed.

End BraceFacts.

(** X30.  [validateBasicStructure] compares the braces by their counts
    alone, wherever they stand: the error [Unbalanced braces in code] is
    among the errors of a call if and only if the source holds a
    different number of opening braces than of closing ones. *)
Theorem brace_error_iff_counts_differ (v : CodeValidator.t) (code : jsstring) :
  In (js "Unbalanced braces in code") (CodeValidator.validateBasicStructure v code [])
  <-> count_occ N.eq_dec code 123 <> count_occ N.eq_dec code 125.
Proof.
  unfold CodeValidator.validateBasicStructure.
  change (lit "{") with (chr 123). change (lit "}") with (chr 125).
  rewrite !countMatches_chr.
  set (errors := CodeValidator.checkRequired _ _ _).
  assert (Hbefore : ~ In (js "Unbalanced braces in code") errors).
  { unfold errors. intros Hin.
    apply checkRequired_entries in Hin as [Hin|[p Hp]].
    - destruct (50000 <? len code)%Z, (len (trim code) <? 20)%Z; simpl in Hin;
        repeat (destruct Hin as [Hin|Hin]; [vm_compute in Hin; discriminate Hin|]);
        exact Hin.
    - vm_compute in Hp. discriminate Hp. }
  clearbody errors.
  assert (Hparens : forall errors' : list jsstring,
             In (js "Unbalanced braces in code")
                (let '(parenCount, errors'') := CodeValidator.parenLoop code 0 errors' in
                 if negb (parenCount =? 0)%Z
                 then errors'' ++ [js "Unbalanced parentheses in code"] else errors'')
             <-> In (js "Unbalanced braces in code") errors').
  { intros errors'.
    assert (Hno : forall l, In (js "Unbalanced braces in code")
                              (l ++ [js "Unbalanced parentheses in code"])
                            <-> In (js "Unbalanced braces in code") l).
    { intros l. rewrite in_app_iff. split; [|auto].
      intros [H|[H|[]]]; [exact H|]. vm_compute in H. discriminate H. }
    destruct (parenLoop_spec code 0 errors' ltac:(lia)) as [[_ ->]|[_ ->]].
    - destruct (negb _); [apply Hno|reflexivity].
    - simpl negb. cbv iota. rewrite !Hno. reflexivity. }
  rewrite Hparens.
  destruct (Z.eqb_spec (Z.of_nat (count_occ N.eq_dec code 123))
                       (Z.of_nat (count_occ N.eq_dec code 125))) as [Heq|Hne];
    simpl negb; cbv iota.
  - split; [intros H; destruct (Hbefore H)|]. intros Hdiff. lia.
  - split; [intros _; lia|]. intros _. apply in_or_app. right. left. reflexivity.
Qed.
